(** * Avatar generator: face-texture patching of a glTF binary container

    A shallow embedding of [scripts/generate_avatar.py]: the resource
    locator [_find_skin_image_index], the texture extraction
    [_extract_glb_image], the alpha blend and the binary patch of
    [replace_texture_in_glb], and the fallback builder
    [generate_standalone_avatar].

    Conventions of the embedding.
    - Python integers are [Z]; list lengths are [nat] and enter the
      arithmetic through [Z.of_nat].
    - [bytes] and [bytearray] values are [list byte].
    - A Python exception is a value of [exn]; a call that may raise returns
      a [result].  Mutable objects live in an explicit state that survives
      an exception, as in Python.
    - Progress messages printed on standard output are not part of the
      model; the messages printed on standard error are. *)

From Stdlib Require Import ZArith Lia QArith.
From Stdlib Require Import Floats.SpecFloat.
From Stdlib Require Import Strings.Byte Strings.Ascii.
From Equations Require Import Equations.
From stdpp Require Import base list strings gmap.

Local Open Scope Z_scope.

(** ** Exceptions and the state-and-error monad *)

Inductive exn : Type :=
| ImportError
| IndexError
| TypeError
| ValueError
| OSError.

Inductive result (A : Type) : Type :=
| Ok (a : A)
| Raised (e : exn).
Arguments Ok {A} a.
Arguments Raised {A} e.

(** A computation over a mutable state [S]: it returns a value or raises,
    and in both cases leaves a state behind. *)
Definition ST (S A : Type) : Type := S -> result A * S.

Definition ret {S A} (a : A) : ST S A := fun s => (Ok a, s).

Definition raise {S A} (e : exn) : ST S A := fun s => (Raised e, s).

Definition bind {S A B} (m : ST S A) (k : A -> ST S B) : ST S B :=
  fun s => match m s with
           | (Ok a, s') => k a s'
           | (Raised e, s') => (Raised e, s')
           end.

Definition gets {S A} (f : S -> A) : ST S A := fun s => (Ok (f s), s).

Definition modify {S} (f : S -> S) : ST S unit := fun s => (Ok tt, f s).

Definition lift_result {S A} (r : result A) : ST S A := fun s => (r, s).

(** [try: body except Exception as e: handler e]. *)
Definition try_except {S A} (body : ST S A) (handler : exn -> ST S A) : ST S A :=
  fun s => match body s with
           | (Ok a, s') => (Ok a, s')
           | (Raised e, s') => handler e s'
           end.

Declare Scope st_scope.
Delimit Scope st_scope with st.
Notation "x <- m ;; k" := (bind m (fun x => k))
  (at level 100, m at next level, right associativity) : st_scope.
Notation "m ;;; k" := (bind m (fun _ => k))
  (at level 100, right associativity) : st_scope.

(** A [for] loop whose body may [return]: the body yields [Some r] when it
    returns [r] from the enclosing function and [None] when the loop goes
    on to the next element. *)
Fixpoint for_return {S A R} (l : list A) (body : A -> ST S (option R))
  : ST S (option R) :=
  match l with
  | [] => ret None
  | x :: rest =>
      bind (body x) (fun r =>
        match r with
        | Some v => ret (Some v)
        | None => for_return rest body
        end)
  end.

(** ** Python sequences *)

(** [l[i]] for a list: a negative index counts from the end, and an index
    outside the list raises [IndexError]. *)
Definition py_norm_index {A} (l : list A) (i : Z) : option nat :=
  let n := Z.of_nat (length l) in
  let j := if i <? 0 then i + n else i in
  if (0 <=? j) && (j <? n) then Some (Z.to_nat j) else None.

Definition py_getitem {A} (l : list A) (i : Z) : result A :=
  match py_norm_index l i with
  | Some j => match l !! j with
              | Some x => Ok x
              | None => Raised IndexError
              end
  | None => Raised IndexError
  end.

(** A slice bound is first moved into [0, len]. *)
Definition py_slice_bound (len : nat) (i : Z) : nat :=
  let n := Z.of_nat len in
  let j := if i <? 0 then Z.max 0 (i + n) else Z.min i n in
  Z.to_nat j.

(** [l[a:b]]. *)
Definition py_slice {A} (l : list A) (a b : Z) : list A :=
  let lo := py_slice_bound (length l) a in
  let hi := py_slice_bound (length l) b in
  take (hi - lo)%nat (drop lo l).

(** [l[a:b] = v] on a [bytearray]: the slice is replaced by [v], whatever
    the length of [v]. *)
Definition py_slice_assign {A} (l : list A) (a b : Z) (v : list A) : list A :=
  let lo := py_slice_bound (length l) a in
  let hi := Nat.max lo (py_slice_bound (length l) b) in
  take lo l ++ v ++ drop hi l.

(** [b"\x00" * n]: empty when [n] is not positive. *)
Definition zero_bytes (n : Z) : list byte := replicate (Z.to_nat n) x00.

Definition len {A} (l : list A) : Z := Z.of_nat (length l).

(** ** The container: pygltflib's resource graph

    The arenas of the container are lists indexed by position, and a
    reference is a plain integer index, absent when the field is [None].
    The records keep the fields the script reads, writes or sets when it
    builds a container; what pygltflib carries besides (animations, skins,
    cameras, samplers, extensions) is never touched and is left out. *)

Module Asset.
Record t := mk { version : string; generator : option string }.
End Asset.

Module Scene.
Record t := mk { nodes : list Z }.
End Scene.

Module Node.
Record t := mk { mesh : option Z }.
End Node.

Module Primitive.
Record t := mk {
  attributes : list (string * Z);
  indices : option Z;
  material : option Z;
  mode : option Z }.
End Primitive.

Module Mesh.
Record t := mk { name : option string; primitives : list Primitive.t }.
End Mesh.

Module TextureInfo.
Record t := mk { index : option Z }.
End TextureInfo.

Module PbrMetallicRoughness.
Record t := mk {
  baseColorTexture : option TextureInfo.t;
  metallicFactor : option Q;
  roughnessFactor : option Q }.
End PbrMetallicRoughness.

Module Material.
Record t := mk {
  name : option string;
  pbrMetallicRoughness : option PbrMetallicRoughness.t;
  doubleSided : option bool }.
End Material.

Module Texture.
Record t := mk { source : option Z }.
End Texture.

Module Image.
Record t := mk { bufferView : option Z; mimeType : option string }.

Definition set_mimeType (v : option string) (i : t) : t :=
  mk (bufferView i) v.
End Image.

Module Accessor.
Record t := mk {
  bufferView : option Z;
  componentType : Z;
  count : Z;
  type : string;
  max : list Q;
  min : list Q }.
End Accessor.

Module BufferView.
Record t := mk {
  buffer : Z;
  byteOffset : Z;
  byteLength : Z;
  target : option Z }.

Definition set_byteOffset (v : Z) (b : t) : t :=
  mk (buffer b) v (byteLength b) (target b).

Definition set_byteLength (v : Z) (b : t) : t :=
  mk (buffer b) (byteOffset b) v (target b).
End BufferView.

Module Buffer.
Record t := mk { byteLength : Z }.

Definition set_byteLength (v : Z) (b : t) : t := mk v.
End Buffer.

Module GLTF2.
Record t := mk {
  asset : Asset.t;
  scene : option Z;
  scenes : list Scene.t;
  nodes : list Node.t;
  meshes : list Mesh.t;
  materials : list Material.t;
  textures : list Texture.t;
  images : list Image.t;
  accessors : list Accessor.t;
  bufferViews : list BufferView.t;
  buffers : list Buffer.t;
  (* the shared binary blob, [None] when the file has no binary section *)
  glb_data : option (list byte) }.

Definition set_images (v : list Image.t) (g : t) : t :=
  mk (asset g) (scene g) (scenes g) (nodes g) (meshes g) (materials g)
     (textures g) v (accessors g) (bufferViews g) (buffers g) (glb_data g).

Definition set_bufferViews (v : list BufferView.t) (g : t) : t :=
  mk (asset g) (scene g) (scenes g) (nodes g) (meshes g) (materials g)
     (textures g) (images g) (accessors g) v (buffers g) (glb_data g).

Definition set_buffers (v : list Buffer.t) (g : t) : t :=
  mk (asset g) (scene g) (scenes g) (nodes g) (meshes g) (materials g)
     (textures g) (images g) (accessors g) (bufferViews g) v (glb_data g).

(** [gltf.binary_blob()] and [gltf.set_binary_blob(blob)]. *)
Definition binary_blob (g : t) : option (list byte) := glb_data g.

Definition set_binary_blob (blob : list byte) (g : t) : t :=
  mk (asset g) (scene g) (scenes g) (nodes g) (meshes g) (materials g)
     (textures g) (images g) (accessors g) (bufferViews g) (buffers g)
     (Some blob).
End GLTF2.

(** An object reached through a list is shared with the list: an
    assignment to one of its attributes is an update of the list slot it
    was read from. *)
Definition update_at {A} (l : list A) (i : Z) (f : A -> A) : list A :=
  match py_norm_index l i with
  | Some j => match l !! j with
              | Some x => <[j := f x]> l
              | None => l
              end
  | None => l
  end.

(** ** Strings *)

(** [needle in hay]. *)
Fixpoint contains (needle hay : string) : bool :=
  String.prefix needle hay ||
  match hay with
  | EmptyString => false
  | String _ rest => contains needle rest
  end.

(** [s.replace(old, new)] for a non-empty [old]: every occurrence is
    replaced, scanning from the left; [skip] counts the characters of an
    occurrence that are still to be dropped. *)
Fixpoint replace_go (old new : string) (skip : nat) (s : string) : string :=
  match s with
  | EmptyString => EmptyString
  | String c rest =>
      match skip with
      | S k => replace_go old new k rest
      | O =>
          if String.prefix old s
          then String.app new (replace_go old new (String.length old - 1) rest)
          else String c (replace_go old new 0 rest)
      end
  end.

Definition str_replace (old new s : string) : string := replace_go old new 0 s.

(** [name or ""]. *)
Definition or_empty (name : option string) : string := default EmptyString name.

(** ** Arrays and single precision

    A [uint8] array of shape (h, w, c) is a list of rows of pixels, a pixel
    being the list of its channels; a mask of shape (h, w) is a list of
    rows.  A [float32] is a [spec_float] with 24 bits of precision. *)

Definition ndarray (A : Type) : Type := list (list (list A)).
Definition ndarray2 (A : Type) : Type := list (list A).

Definition nd_map {A B} (f : A -> B) (a : ndarray A) : ndarray B :=
  map (map (map f)) a.

(** [a.shape[:2]]. *)
Definition shape {A} (a : ndarray A) : Z * Z :=
  (len a, match a with [] => 0 | row :: _ => len row end).

#[global] Instance result_ret : MRet result := fun A a => Ok a.
#[global] Instance result_bind : MBind result :=
  fun A B f m => match m with Ok a => f a | Raised e => Raised e end.
#[global] Instance result_fmap : FMap result :=
  fun A B f m => match m with Ok a => Ok (f a) | Raised e => Raised e end.

(** An element-wise operation along one axis with NumPy's broadcasting:
    equal lengths are paired off, an axis of length one is stretched, and
    anything else is a [ValueError]. *)
Definition broadcast {A B C} (f : A -> B -> result C)
    (l1 : list A) (l2 : list B) : result (list C) :=
  if (length l1 =? length l2)%nat then
    mapM (fun p => f p.1 p.2) (zip l1 l2)
  else match l1, l2 with
       | [x], _ => mapM (f x) l2
       | _, [y] => mapM (fun x => f x y) l1
       | _, _ => Raised ValueError
       end.

Definition nd_binop {A B C} (f : A -> B -> C)
    (a : ndarray A) (b : ndarray B) : result (ndarray C) :=
  broadcast (broadcast (broadcast (fun x y => Ok (f x y)))) a b.

Definition f32 : Type := spec_float.

Definition f32_of_Z (n : Z) : f32 := binary_normalize 24 128 n 0 false.
Definition f32_mul : f32 -> f32 -> f32 := SFmul 24 128.
Definition f32_add : f32 -> f32 -> f32 := SFadd 24 128.
Definition f32_sub : f32 -> f32 -> f32 := SFsub 24 128.
Definition f32_div : f32 -> f32 -> f32 := SFdiv 24 128.
Arguments f32_mul : simpl never.
Arguments f32_add : simpl never.
Arguments f32_sub : simpl never.
Arguments f32_div : simpl never.

Definition byte_of_Z (z : Z) : byte :=
  default x00 (Byte.of_N (Z.to_N (z mod 256))).

(** [x.astype(np.float32)] for a [uint8]. *)
Definition astype_float32 (b : byte) : f32 := f32_of_Z (Z.of_N (Byte.to_N b)).

(** The integer part of a [float32], rounding toward zero. *)
Definition f32_trunc (x : f32) : Z :=
  match x with
  | S754_finite s m e =>
      let mag := match e with
                 | Zneg p => Z.pos m / 2 ^ Z.pos p
                 | _ => Z.pos m * 2 ^ e
                 end in
      if s then - mag else mag
  | _ => 0
  end.

(** [x.astype(np.uint8)] for a [float32]: the fraction is dropped.  The
    cast of a value outside [0, 256) is left to the platform by C; here it
    wraps around. *)
Definition astype_uint8 (x : f32) : byte := byte_of_Z (f32_trunc x).

(** The blend of [replace_texture_in_glb] (lines 239 to 245). *)
Definition blend (warped_face : ndarray byte) (face_mask : ndarray2 byte)
    (original : ndarray byte) : result (ndarray byte) :=
  let alpha : ndarray2 f32 :=
    map (map (fun m => f32_div (astype_float32 m) (f32_of_Z 255))) face_mask in
  let alpha_3d : ndarray f32 := map (map (fun a => [a; a; a])) alpha in
  t1 ← nd_binop f32_mul (nd_map astype_float32 warped_face) alpha_3d;
  t2 ← nd_binop f32_mul (nd_map astype_float32 original)
         (nd_map (f32_sub (f32_of_Z 1)) alpha_3d);
  s ← nd_binop f32_add t1 t2;
  Ok (nd_map astype_uint8 s).

(** ** External libraries

    What the script calls and does not define: [str.lower], Pillow's PNG
    decoder and encoder, OpenCV's [resize]. *)
Class Externals : Type := {
  (* [s.lower()] *)
  str_lower : string -> string;
  (* [np.array(Image.open(BytesIO(data)).convert("RGB"))] *)
  png_decode : list byte -> result (ndarray byte);
  (* [img.save(buf, format="PNG"); buf.getvalue()] *)
  png_encode : ndarray byte -> result (list byte);
  (* [cv2.resize(a, (w, h), interpolation=cv2.INTER_LINEAR)] *)
  cv2_resize : ndarray byte -> Z * Z -> ndarray byte;
  cv2_resize_mask : ndarray2 byte -> Z * Z -> ndarray2 byte }.

Open Scope st_scope.

Section Locator.
Context `{Externals}.

Definition getitem_opt {A} (l : list A) (i : option Z) : result A :=
  match i with
  | Some i => py_getitem l i
  | None => Raised TypeError
  end.

(** The tail of both strategies: from a material to the image index of
    its base-colour texture.  [None] stands for falling out of the
    nested [if]s. *)
Definition material_image (mat : Material.t) : ST GLTF2.t (option Z) :=
  match Material.pbrMetallicRoughness mat with
  | Some pbr =>
      match PbrMetallicRoughness.baseColorTexture pbr with
      | Some bct =>
          textures <- gets GLTF2.textures ;;
          tex <- lift_result (getitem_opt textures (TextureInfo.index bct)) ;;
          match Texture.source tex with
          | Some source => ret (Some source)
          | None => ret None
          end
      | None => ret None
      end
  | None => ret None
  end.

Definition _find_skin_image_index : ST GLTF2.t (option Z) :=
  (* Strategy 1: Find via mesh name containing "head" *)
  meshes <- gets GLTF2.meshes ;;
  found <- for_return meshes (fun mesh =>
    if contains "head" (str_lower (or_empty (Mesh.name mesh))) then
      for_return (Mesh.primitives mesh) (fun prim =>
        match Primitive.material prim with
        | Some m =>
            materials <- gets GLTF2.materials ;;
            mat <- lift_result (py_getitem materials m) ;;
            material_image mat
        | None => ret None
        end)
    else ret None) ;;
  match found with
  | Some source => ret (Some source)
  | None =>
      (* Strategy 2: material name containing "skin" *)
      materials <- gets GLTF2.materials ;;
      found <- for_return materials (fun mat =>
        if contains "skin" (str_lower (or_empty (Material.name mat))) then
          material_image mat
        else ret None) ;;
      match found with
      | Some source => ret (Some source)
      | None => ret None
      end
  end.

Definition _extract_glb_image (image_index : Z)
  : ST GLTF2.t (option (ndarray byte)) :=
  images <- gets GLTF2.images ;;
  img_info <- lift_result (py_getitem images image_index) ;;
  match Image.bufferView img_info with
  | None => ret None
  | Some bvi =>
      views <- gets GLTF2.bufferViews ;;
      bv <- lift_result (py_getitem views bvi) ;;
      blob <- gets GLTF2.binary_blob ;;
      match blob with
      | None => raise TypeError (* [None] is not subscriptable *)
      | Some blob =>
          let off := BufferView.byteOffset bv in
          let img_data := py_slice blob off (off + BufferView.byteLength bv) in
          pil_img <- lift_result (png_decode img_data) ;;
          ret (Some pil_img)
      end
  end.
End Locator.

(** ** The binary patch of [replace_texture_in_glb] (lines 255 to 281)

    [image] and [bv] are references into [gltf.images] and
    [gltf.bufferViews]: the assignments to their attributes are updates of
    the slots they were read from. *)

(** [while new_offset % 4 != 0: blob.append(0); new_offset += 1]. *)
Equations? pad_loop (blob : list byte) (new_offset : Z) : list byte * Z
  by wf (Z.to_nat ((- new_offset) mod 4)) lt :=
  pad_loop blob new_offset with Z.eq_dec (new_offset mod 4) 0 => {
    | left _ := (blob, new_offset);
    | right _ := pad_loop (blob ++ [x00]) (new_offset + 1) }.
Proof.
  pose proof (Z.mod_pos_bound new_offset 4 ltac:(lia)) as Hn.
  pose proof (Z.mod_pos_bound (- new_offset) 4 ltac:(lia)) as Hm.
  pose proof (Z.mod_pos_bound (- (new_offset + 1)) 4 ltac:(lia)) as Hs.
  pose proof (Z.div_mod new_offset 4 ltac:(lia)).
  pose proof (Z.div_mod (- new_offset) 4 ltac:(lia)).
  pose proof (Z.div_mod (- (new_offset + 1)) 4 ltac:(lia)).
  apply Z2Nat.inj_lt; lia.
Qed.

Definition patch_binary_blob (face_image_index : Z) (png_bytes : list byte)
  : ST GLTF2.t unit :=
  images <- gets GLTF2.images ;;
  image <- lift_result (py_getitem images face_image_index) ;;
  match Image.bufferView image with
  | Some bvi =>
      views <- gets GLTF2.bufferViews ;;
      bv <- lift_result (py_getitem views bvi) ;;
      blob0 <- gets GLTF2.binary_blob ;;
      match blob0 with
      | Some blob =>
          let old_length := BufferView.byteLength bv in
          let new_length := len png_bytes in
          let off := BufferView.byteOffset bv in
          (if new_length <=? old_length then
             let blob := py_slice_assign blob off (off + new_length) png_bytes in
             let blob :=
               py_slice_assign blob (off + new_length) (off + old_length)
                 (zero_bytes (old_length - new_length)) in
             modify (fun g => GLTF2.set_bufferViews
               (update_at (GLTF2.bufferViews g) bvi
                  (BufferView.set_byteLength new_length)) g) ;;;
             modify (GLTF2.set_binary_blob blob)
           else
             let '(blob, new_offset) := pad_loop blob (len blob) in
             let blob := blob ++ png_bytes in
             modify (fun g => GLTF2.set_bufferViews
               (update_at (GLTF2.bufferViews g) bvi
                  (fun b => BufferView.set_byteLength new_length
                              (BufferView.set_byteOffset new_offset b))) g) ;;;
             buffers <- gets GLTF2.buffers ;;
             (match buffers with
              | [] => ret tt
              | _ :: _ =>
                  modify (fun g => GLTF2.set_buffers
                    (update_at (GLTF2.buffers g) 0
                       (Buffer.set_byteLength (len blob))) g)
              end) ;;;
             modify (GLTF2.set_binary_blob blob))
      | None => ret tt
      end ;;;
      modify (fun g => GLTF2.set_images
        (update_at (GLTF2.images g) face_image_index
           (Image.set_mimeType (Some "image/png"%string))) g)
  | None => ret tt
  end.

(** ** The process environment

    The file system maps a path to the file stored there.  A container
    written by [gltf.save] is kept as the container itself, so that loading
    it gives it back.  A path the process may not open for writing makes a
    save raise [OSError] and leaves the file system as it was; which paths
    are writable, and whether pygltflib can be imported, does not change
    during a call. *)

Inductive file : Type :=
| RawFile (data : list byte)
| GLBFile (gltf : GLTF2.t).

(** The lines the script prints on standard error. *)
Inductive message : Type :=
| Error_pygltflib_not_installed
| Error_no_suitable_face_skin_texture
| Error_could_not_extract_original
| Warning_no_template (texture_path : string)
| Warning_provide_template
| Warning_could_not_create_standalone (e : exn).

Record World : Type := mkWorld {
  files : gmap string file;
  stderr : list message;
  (* whether [from pygltflib import ...] succeeds *)
  pygltflib_installed : bool;
  (* whether the path can be opened for writing *)
  writable : string -> bool }.

Definition set_files (v : gmap string file) (w : World) : World :=
  mkWorld v (stderr w) (pygltflib_installed w) (writable w).

(** [print(..., file=sys.stderr)]. *)
Definition eprint (m : message) : ST World unit :=
  modify (fun w =>
    mkWorld (files w) (stderr w ++ [m]) (pygltflib_installed w) (writable w)).

Definition write_file (path : string) (f : file) : ST World unit :=
  ok <- gets (fun w => writable w path) ;;
  if ok : bool then modify (fun w => set_files (<[path := f]> (files w)) w)
  else raise OSError.

Definition import_pygltflib : ST World unit :=
  ok <- gets pygltflib_installed ;;
  if ok : bool then ret tt else raise ImportError.

(** [GLTF2.load(path)].  A file that is no container makes it raise; the
    class of that exception varies with what the file holds, it is
    [ValueError] here, and no property depends on it. *)
Definition GLTF2_load (path : string) : ST World GLTF2.t :=
  f <- gets (fun w => files w !! path) ;;
  match f with
  | Some (GLBFile gltf) => ret gltf
  | Some (RawFile _) => raise ValueError
  | None => raise OSError
  end.

(** [gltf.save(path)] as pygltflib does it for a name that ends in ".glb":
    the binary container, written as one file.  For another name it writes
    the JSON form and the blob in a sibling file, which the model does not
    follow. *)
Definition GLTF2_save (gltf : GLTF2.t) (path : string) : ST World unit :=
  write_file path (GLBFile gltf).

(** A computation on the container held in a local variable: the value and
    the container as the computation left it. *)
Definition on_local {A} (m : ST GLTF2.t A) (gltf : GLTF2.t)
  : ST World (A * GLTF2.t) :=
  fun w => match m gltf with
           | (Ok a, gltf') => (Ok (a, gltf'), w)
           | (Raised e, _) => (Raised e, w)
           end.

Section Patch.
Context `{Externals}.

(** [face_texture.save(path, format="PNG")]. *)
Definition save_png (img : ndarray byte) (path : string) : ST World unit :=
  png_bytes <- lift_result (png_encode img) ;;
  write_file path (RawFile png_bytes).

Definition replace_texture_in_glb (template_path : string)
    (warped_face : ndarray byte) (face_mask : ndarray2 byte)
    (output_path : string) : ST World bool :=
  installed <- gets pygltflib_installed ;;
  if negb installed then
    eprint Error_pygltflib_not_installed ;;; ret false
  else
  gltf <- GLTF2_load template_path ;;
  located <- on_local _find_skin_image_index gltf ;;
  let '(face_image_index, gltf) := located in
  match face_image_index with
  | None => eprint Error_no_suitable_face_skin_texture ;;; ret false
  | Some face_image_index =>
      (* Extract original texture *)
      extracted <- on_local (_extract_glb_image face_image_index) gltf ;;
      let '(original, gltf) := extracted in
      match original with
      | None => eprint Error_could_not_extract_original ;;; ret false
      | Some original =>
          let '(tex_h, tex_w) := shape original in
          (* Resize warped face and mask to match original texture size *)
          let '(warped_face, face_mask) :=
            if negb (fst (shape warped_face) =? tex_h)
               || negb (snd (shape warped_face) =? tex_w)
            then (cv2_resize warped_face (tex_w, tex_h),
                  cv2_resize_mask face_mask (tex_w, tex_h))
            else (warped_face, face_mask) in
          blended <- lift_result (blend warped_face face_mask original) ;;
          (* Encode blended texture as PNG *)
          png_bytes <- lift_result (png_encode blended) ;;
          patched <- on_local (patch_binary_blob face_image_index png_bytes) gltf ;;
          let '(_, gltf) := patched in
          GLTF2_save gltf output_path ;;;
          ret true
      end
  end.
End Patch.

(** ** The standalone builder *)

(** [m * 2 ** e] as a [float32]. *)
Definition f32_ldexp (m e : Z) : f32 := binary_normalize 24 128 m e false.

(** The IEEE 754 binary32 encoding of a [float32]. *)
Definition f32_bits (x : f32) : Z :=
  match x with
  | S754_zero s => if s then 2 ^ 31 else 0
  | S754_infinity s => (if s then 2 ^ 31 else 0) + 255 * 2 ^ 23
  | S754_nan => 255 * 2 ^ 23 + 2 ^ 22
  | S754_finite s m e =>
      (if s then 2 ^ 31 else 0) +
      (if Z.pos m <? 2 ^ 23 then Z.pos m
       else (e + 150) * 2 ^ 23 + (Z.pos m - 2 ^ 23))
  end.

(** The [width] low bytes of [n], least significant first. *)
Fixpoint le_bytes (width : nat) (n : Z) : list byte :=
  match width with
  | O => []
  | S k => byte_of_Z n :: le_bytes k (n / 256)
  end.

(** [a.tobytes()] on a little-endian machine, for [uint16] and [float32]. *)
Definition tobytes_uint16 (a : list Z) : list byte :=
  flat_map (le_bytes 2) a.

Definition tobytes_float32 (a : list (list f32)) : list byte :=
  flat_map (flat_map (fun x => le_bytes 4 (f32_bits x))) a.

(** pygltflib's constants. *)
Definition FLOAT : Z := 5126.
Definition UNSIGNED_SHORT : Z := 5123.
Definition SCALAR : string := "SCALAR".
Definition VEC2 : string := "VEC2".
Definition VEC3 : string := "VEC3".
Definition TRIANGLES : Z := 4.
Definition ELEMENT_ARRAY_BUFFER : Z := 34963.
Definition ARRAY_BUFFER : Z := 34962.

Definition align4 (n : Z) : Z := Z.land (n + 3) (Z.lnot 3).

Definition vertices : list (list f32) :=
  [ [f32_ldexp (-1) (-1); f32_ldexp (-1) (-1); f32_of_Z 0];
    [f32_ldexp 1 (-1); f32_ldexp (-1) (-1); f32_of_Z 0];
    [f32_ldexp 1 (-1); f32_ldexp 1 (-1); f32_of_Z 0];
    [f32_ldexp (-1) (-1); f32_ldexp 1 (-1); f32_of_Z 0] ].

Definition uvs : list (list f32) :=
  [ [f32_of_Z 0; f32_of_Z 1]; [f32_of_Z 1; f32_of_Z 1];
    [f32_of_Z 1; f32_of_Z 0]; [f32_of_Z 0; f32_of_Z 0] ].

Definition indices : list Z := [0; 1; 2; 0; 2; 3].

(** The body of the [try] of [generate_standalone_avatar] between the
    encoding of the texture and [gltf.save]: the blob and the container
    built around it. *)
Definition standalone_gltf (png_bytes : list byte) : GLTF2.t :=
  let indices_bytes := tobytes_uint16 indices in
  let vertices_bytes := tobytes_float32 vertices in
  let uvs_bytes := tobytes_float32 uvs in
  let idx_len := len indices_bytes in
  let vtx_len := len vertices_bytes in
  let uv_len := len uvs_bytes in
  let img_len := len png_bytes in
  let buffer_data : list byte := [] in
  let buffer_data := buffer_data ++ indices_bytes in
  let buffer_data := buffer_data ++ zero_bytes (align4 idx_len - idx_len) in
  let vtx_offset := len buffer_data in
  let buffer_data := buffer_data ++ vertices_bytes in
  let buffer_data := buffer_data ++ zero_bytes (align4 vtx_len - vtx_len) in
  let uv_offset := len buffer_data in
  let buffer_data := buffer_data ++ uvs_bytes in
  let buffer_data := buffer_data ++ zero_bytes (align4 uv_len - uv_len) in
  let img_offset := len buffer_data in
  let buffer_data := buffer_data ++ png_bytes in
  let buffer_data := buffer_data ++ zero_bytes (align4 img_len - img_len) in
  let gltf :=
    GLTF2.mk
      (Asset.mk "2.0" (Some "super-characters-avatar"%string))
      (Some 0)
      [Scene.mk [0]]
      [Node.mk (Some 0)]
      [Mesh.mk None
         [Primitive.mk [("POSITION"%string, 1); ("TEXCOORD_0"%string, 2)]
            (Some 0) (Some 0) (Some TRIANGLES)]]
      [Material.mk None
         (Some (PbrMetallicRoughness.mk (Some (TextureInfo.mk (Some 0)))
                  (Some 0%Q) (Some 1%Q)))
         (Some true)]
      [Texture.mk (Some 0)]
      [Image.mk (Some 3) (Some "image/png"%string)]
      [Accessor.mk (Some 0) UNSIGNED_SHORT 6 SCALAR [3%Q] [0%Q];
       Accessor.mk (Some 1) FLOAT 4 VEC3
         [(1 # 2)%Q; (1 # 2)%Q; 0%Q] [(-1 # 2)%Q; (-1 # 2)%Q; 0%Q];
       Accessor.mk (Some 2) FLOAT 4 VEC2 [1%Q; 1%Q] [0%Q; 0%Q]]
      [BufferView.mk 0 0 idx_len (Some ELEMENT_ARRAY_BUFFER);
       BufferView.mk 0 vtx_offset vtx_len (Some ARRAY_BUFFER);
       BufferView.mk 0 uv_offset uv_len (Some ARRAY_BUFFER);
       BufferView.mk 0 img_offset img_len None]
      [Buffer.mk (len buffer_data)]
      None in
  GLTF2.set_binary_blob buffer_data gltf.

Section Standalone.
Context `{Externals}.

Definition generate_standalone_avatar (image_path : string)
    (face_texture : ndarray byte) (output_path : string) : ST World bool :=
  let texture_path := str_replace ".glb" ".png" output_path in
  save_png face_texture texture_path ;;;
  eprint (Warning_no_template texture_path) ;;;
  eprint Warning_provide_template ;;;
  try_except
    (import_pygltflib ;;;
     png_bytes <- lift_result (png_encode face_texture) ;;
     let gltf := standalone_gltf png_bytes in
     GLTF2_save gltf output_path ;;;
     ret true)
    (fun e => eprint (Warning_could_not_create_standalone e) ;;; ret false).
End Standalone.

Close Scope st_scope.

(** An instance of the external libraries for running the model: ASCII
    lower-casing, and a toy image codec in which an image of one row of
    [n] RGB pixels is stored as its [3 * n] channel bytes. *)

Definition ascii_lower (c : ascii) : ascii :=
  let n := nat_of_ascii c in
  if (65 <=? n)%nat && (n <=? 90)%nat then ascii_of_nat (n + 32) else c.

Fixpoint string_lower (s : string) : string :=
  match s with
  | EmptyString => EmptyString
  | String c rest => String (ascii_lower c) (string_lower rest)
  end.

Fixpoint toy_pixels (data : list byte) : list (list byte) :=
  match data with
  | r :: g :: b :: rest => [r; g; b] :: toy_pixels rest
  | _ => []
  end.

Definition toy_decode (data : list byte) : result (ndarray byte) :=
  match data with
  | [] => Raised OSError
  | _ => Ok [toy_pixels data]
  end.

Definition toy_encode (img : ndarray byte) : result (list byte) :=
  Ok (concat (concat img)).

Definition toy_externals : Externals := {|
  str_lower := string_lower;
  png_decode := toy_decode;
  png_encode := toy_encode;
  cv2_resize := fun a _ => a;
  cv2_resize_mask := fun a _ => a |}.

(** ** The resolution order, as the specification words it

    A chain resolves when every reference on it is present: the primitive
    names a material, the material a base-colour texture, the texture an
    image.  The first strategy scans the meshes in order and keeps those
    whose name contains "head"; the second scans the materials and keeps
    those whose name contains "skin"; the first resolved chain wins. *)

Fixpoint first_resolved {A} (f : A -> option Z) (l : list A) : option Z :=
  match l with
  | [] => None
  | x :: rest =>
      match f x with
      | Some v => Some v
      | None => first_resolved f rest
      end
  end.

(** A reference [i] into an arena: in range, and the element it names. *)
Definition index_ok {A} (l : list A) (i : Z) : bool :=
  (0 <=? i) && (i <? len l).

Definition deref {A} (l : list A) (i : Z) : option A :=
  if index_ok l i then l !! Z.to_nat i else None.

Section LocatorSpec.
Context `{Externals}.

Definition is_head_mesh (mesh : Mesh.t) : bool :=
  contains "head" (str_lower (or_empty (Mesh.name mesh))).

Definition is_skin_material (mat : Material.t) : bool :=
  contains "skin" (str_lower (or_empty (Material.name mat))).

Definition resolve_material (g : GLTF2.t) (mat : Material.t) : option Z :=
  pbr ← Material.pbrMetallicRoughness mat;
  bct ← PbrMetallicRoughness.baseColorTexture pbr;
  j ← TextureInfo.index bct;
  tex ← deref (GLTF2.textures g) j;
  Texture.source tex.

Definition resolve_primitive (g : GLTF2.t) (prim : Primitive.t) : option Z :=
  m ← Primitive.material prim;
  mat ← deref (GLTF2.materials g) m;
  resolve_material g mat.

Definition head_strategy (g : GLTF2.t) : option Z :=
  first_resolved
    (fun mesh =>
       if is_head_mesh mesh
       then first_resolved (resolve_primitive g) (Mesh.primitives mesh)
       else None)
    (GLTF2.meshes g).

Definition skin_strategy (g : GLTF2.t) : option Z :=
  first_resolved
    (fun mat => if is_skin_material mat then resolve_material g mat else None)
    (GLTF2.materials g).

Definition locate (g : GLTF2.t) : option Z :=
  match head_strategy g with
  | Some i => Some i
  | None => skin_strategy g
  end.
End LocatorSpec.

(** The references of the graph point inside their arenas. *)
Definition material_ok (g : GLTF2.t) (mat : Material.t) : bool :=
  match Material.pbrMetallicRoughness mat with
  | Some pbr =>
      match PbrMetallicRoughness.baseColorTexture pbr with
      | Some bct =>
          match TextureInfo.index bct with
          | Some j => index_ok (GLTF2.textures g) j
          | None => false
          end
      | None => true
      end
  | None => true
  end.

Definition primitive_ok (g : GLTF2.t) (prim : Primitive.t) : bool :=
  match Primitive.material prim with
  | Some m => index_ok (GLTF2.materials g) m
  | None => true
  end.

Definition references_ok (g : GLTF2.t) : bool :=
  forallb (fun mesh => forallb (primitive_ok g) (Mesh.primitives mesh))
    (GLTF2.meshes g)
  && forallb (material_ok g) (GLTF2.materials g).

(** ** Vocabulary of the statements *)

(** Shapes of arrays: every pixel has three channels; two arrays have as
    many rows, and row by row as many columns; a mask is constant. *)
Definition rgb (a : ndarray byte) : Prop :=
  Forall (Forall (fun p => length p = 3%nat)) a.

Definition same_dims {A B} (a : list (list A)) (b : list (list B)) : Prop :=
  Forall2 (fun r1 r2 => length r1 = length r2) a b.

Definition mask_all (v : byte) (mask : ndarray2 byte) : Prop :=
  Forall (Forall (eq v)) mask.

Definition f32_zero : f32 := S754_zero false.

(** A computation that leaves the state as it found it, whether it
    returns or raises. *)
Definition read_only {S A} (m : ST S A) : Prop := forall s, snd (m s) = s.

(** The bytes a view designates. *)
Definition view_bytes (blob : list byte) (v : BufferView.t) : list byte :=
  py_slice blob (BufferView.byteOffset v)
    (BufferView.byteOffset v + BufferView.byteLength v).

(** [v] starts after the end of [u], less than four bytes further. *)
Definition packed_after (u v : BufferView.t) : Prop :=
  0 <= BufferView.byteOffset v
       - (BufferView.byteOffset u + BufferView.byteLength u) < 4.

(** The layout of a container made by the standalone builder around the
    encoded texture [png]. *)
Definition standalone_layout (g : GLTF2.t) (png : list byte) : Prop :=
  exists blob v0 v1 v2 v3 bf,
    GLTF2.binary_blob g = Some blob /\
    GLTF2.bufferViews g = [v0; v1; v2; v3] /\
    GLTF2.buffers g = [bf] /\
    view_bytes blob v0 = tobytes_uint16 indices /\
    view_bytes blob v1 = tobytes_float32 vertices /\
    view_bytes blob v2 = tobytes_float32 uvs /\
    view_bytes blob v3 = png /\
    BufferView.byteOffset v0 = 0 /\
    packed_after v0 v1 /\ packed_after v1 v2 /\ packed_after v2 v3 /\
    Forall (fun v =>
              BufferView.byteOffset v mod 4 = 0 /\
              BufferView.buffer v = 0 /\
              0 <= BufferView.byteOffset v /\
              0 <= BufferView.byteLength v /\
              BufferView.byteOffset v + BufferView.byteLength v
                <= Buffer.byteLength bf)
      [v0; v1; v2; v3] /\
    Buffer.byteLength bf = len blob.

(** The byte range of a view lies inside the blob. *)
Definition view_in_blob (bv : BufferView.t) (blob : list byte) : Prop :=
  0 <= BufferView.byteOffset bv /\
  BufferView.byteOffset bv + BufferView.byteLength bv <= len blob.

(** The image at [idx] stores its bytes in the view [bv], reached through
    the reference [bvi]. *)
Definition image_view (g : GLTF2.t) (idx bvi : Z) (bv : BufferView.t) : Prop :=
  exists image,
    py_getitem (GLTF2.images g) idx = Ok image /\
    Image.bufferView image = Some bvi /\
    py_getitem (GLTF2.bufferViews g) bvi = Ok bv.

Ltac st_unfold :=
  unfold bind, gets, modify, lift_result, ret, raise, try_except.

(** The blob after the two slice assignments of the in-place branch. *)
Definition in_place_blob (blob png : list byte) (off old_length : Z) : list byte :=
  let new_length := len png in
  py_slice_assign
    (py_slice_assign blob off (off + new_length) png)
    (off + new_length) (off + old_length)
    (zero_bytes (old_length - new_length)).


(** ** Sample containers and worlds *)

(** A template in the layout of a Ready Player Me avatar, cut down to the
    face chain: mesh [Wolf3D_Head], material [Wolf3D_Skin], one texture, one
    image of two pixels stored at bytes 4 to 9 of a blob of 13 bytes. *)
Definition sample_blob : list byte :=
  [x01; x02; x03; x04; x10; x20; x30; x40; x50; x60; x0b; x0c; x0d].

Definition sample_view : BufferView.t := BufferView.mk 0 4 6 None.

Definition sample_gltf : GLTF2.t :=
  GLTF2.mk
    (Asset.mk "2.0" None) (Some 0) [Scene.mk [0]] [Node.mk (Some 0)]
    [Mesh.mk (Some "Wolf3D_Head"%string)
       [Primitive.mk [] None (Some 0) None]]
    [Material.mk (Some "Wolf3D_Skin"%string)
       (Some (PbrMetallicRoughness.mk (Some (TextureInfo.mk (Some 0))) None None))
       None]
    [Texture.mk (Some 0)]
    [Image.mk (Some 0) (Some "image/jpeg"%string)]
    []
    [sample_view]
    [Buffer.mk 13]
    (Some sample_blob).

(** The same template stored without its binary section. *)
Definition sample_gltf_no_blob : GLTF2.t :=
  GLTF2.mk
    (GLTF2.asset sample_gltf) (GLTF2.scene sample_gltf)
    (GLTF2.scenes sample_gltf) (GLTF2.nodes sample_gltf)
    (GLTF2.meshes sample_gltf) (GLTF2.materials sample_gltf)
    (GLTF2.textures sample_gltf) (GLTF2.images sample_gltf)
    (GLTF2.accessors sample_gltf) (GLTF2.bufferViews sample_gltf)
    (GLTF2.buffers sample_gltf) None.

(** A container with nothing named like a head or like skin, and no blob. *)
Definition plain_gltf : GLTF2.t :=
  GLTF2.mk
    (Asset.mk "2.0" None) (Some 0) [Scene.mk [0]] [Node.mk (Some 0)]
    [Mesh.mk (Some "Body"%string) [Primitive.mk [] None (Some 0) None]]
    [Material.mk (Some "Cloth"%string) None None]
    [] [] [] [] [] None.

(** A machine with pygltflib installed, every path writable, and one file:
    the template. *)
Definition world_with (template : GLTF2.t) : World :=
  mkWorld {[ "template.glb"%string := GLBFile template ]} [] true (fun _ => true).

Definition sample_photo : ndarray byte :=
  [[[x0a; x14; x1e]; [x28; x32; x3c]]].


(** * Beyond the binary patch: what else the script does *)

(** ** More vocabulary *)

(** Two computations of the same program give the same value on two
    states. *)
Definition same_value {S A} (m : ST S A) (s1 s2 : S) : Prop :=
  fst (m s1) = fst (m s2).

(** The shape of an array, row by row and pixel by pixel: how many
    channels every pixel of every row has. *)
Definition skeleton {A} (a : ndarray A) : list (list nat) :=
  map (map (@length A)) a.

(** The view lies inside the blob and has a length. *)
Definition view_fits (v : BufferView.t) (blob : list byte) : Prop :=
  0 <= BufferView.byteOffset v /\
  0 <= BufferView.byteLength v /\
  BufferView.byteOffset v + BufferView.byteLength v <= len blob.

(** What decoding the bytes [png] gives the extraction step. *)
Definition decoded `{Externals} (png : list byte) : result (option (ndarray byte)) :=
  match png_decode png with
  | Ok img => Ok (Some img)
  | Raised e => Raised e
  end.

(** Every view of the container lies inside its blob. *)
Definition views_in_blob_ok (g : GLTF2.t) : bool :=
  match GLTF2.binary_blob g with
  | Some blob =>
      forallb (fun v => (0 <=? BufferView.byteOffset v)
                        && (BufferView.byteOffset v + BufferView.byteLength v
                            <=? len blob))
        (GLTF2.bufferViews g)
  | None => true
  end.

(** The arguments the blend is called with: the warped face and the mask,
    resized when the warped face has not the size of the original. *)
Definition blend_inputs `{Externals} (warped_face : ndarray byte)
    (face_mask : ndarray2 byte) (original : ndarray byte)
  : ndarray byte * ndarray2 byte :=
  let '(tex_h, tex_w) := shape original in
  if negb (fst (shape warped_face) =? tex_h)
     || negb (snd (shape warped_face) =? tex_w)
  then (cv2_resize warped_face (tex_w, tex_h),
        cv2_resize_mask face_mask (tex_w, tex_h))
  else (warped_face, face_mask).

(** pygltflib chooses the format of a file by the suffix of its name:
    [save] writes the binary container, blob included, when the name ends
    in ".glb" after at least one character, and [load] reads the blob back
    from such a file. *)
Definition binary_path (path : string) : Prop :=
  exists stem c,
    path = String.append stem (String c ".glb") /\ c <> "/"%char.

(** * Detection, extraction, thumbnail and command line

    The functions of [scripts/generate_avatar.py] around the patch path:
    [_ensure_model], [get_face_landmarks], [extract_face_texture],
    [create_thumbnail] and [main], from the parsing of the command line
    on.  They end in more ways than the patch
    path does and print lines of their own, so they run in a process state
    that holds the file system of [World], one stream of standard error
    for the whole script, and the network. *)

(** ** How a call ends *)

(** An exception: one of [exn], or one of another class, given by its
    name ([cv2.error], [RuntimeError], [OverflowError]). *)
Inductive error : Type :=
| Exn (e : exn)
| Other (class : string).

(** What a call of a library gives: a value or an exception. *)
Inductive answer (A : Type) : Type :=
| Gives (a : A)
| Fails (e : error).
Arguments Gives {A} a.
Arguments Fails {A} e.

(** What ends a call of the script early: an exception, or
    [sys.exit(code)]. *)
Inductive raised : Type :=
| Error (e : error)
| SystemExit (code : Z).

Inductive outcome (A : Type) : Type :=
| Returns (a : A)
| Raises (r : raised).
Arguments Returns {A} a.
Arguments Raises {A} r.

Definition outcome_of_result {A} (r : result A) : outcome A :=
  match r with
  | Ok a => Returns a
  | Raised e => Raises (Error (Exn e))
  end.

Definition outcome_of_answer {A} (r : answer A) : outcome A :=
  match r with
  | Gives a => Returns a
  | Fails e => Raises (Error e)
  end.

(** ** The process *)

(** The lines of standard error: those of the patch path and of the
    builder, the usage error of the argument parser, and the lines printed
    by [get_face_landmarks] and [main]. *)
Inductive stderr_line : Type :=
| Line (m : message)
| Usage (text : string)
| Error_could_not_read_image (image_path : string)
| Error_no_face_detected
| Error_failed_to_apply_texture.

(** What a request for a URL meets: no answer, the whole body, or a
    transfer that breaks off after a part of the body. *)
Inductive response : Type :=
| Unreachable
| Served (data : list byte)
| Broken_off (received : list byte).

Record Process : Type := mkProcess {
  fs : gmap string file;
  err : list stderr_line;
  (* whether [from pygltflib import ...] succeeds *)
  pygltflib : bool;
  (* whether the path can be opened for writing *)
  may_write : string -> bool;
  (* what a request for a URL meets *)
  network : string -> response;
  (* the URLs requested so far *)
  requests : list string }.

Definition Run (A : Type) : Type := Process -> outcome A * Process.

Definition returns {A} (a : A) : Run A := fun p => (Returns a, p).

Definition raises {A} (r : raised) : Run A := fun p => (Raises r, p).

Definition and_then {A B} (m : Run A) (k : A -> Run B) : Run B :=
  fun p => match m p with
           | (Returns a, p') => k a p'
           | (Raises r, p') => (Raises r, p')
           end.

Definition reads {A} (f : Process -> A) : Run A := fun p => (Returns (f p), p).

Definition of_result {A} (r : result A) : Run A :=
  fun p => (outcome_of_result r, p).

Definition of_answer {A} (r : answer A) : Run A :=
  fun p => (outcome_of_answer r, p).

(** [sys.exit(code)]. *)
Definition sys_exit {A} (code : Z) : Run A := raises (SystemExit code).

Declare Scope run_scope.
Delimit Scope run_scope with run.
Notation "x <- m ;; k" := (and_then m (fun x => k))
  (at level 100, m at next level, right associativity) : run_scope.
Notation "m ;;; k" := (and_then m (fun _ => k))
  (at level 100, right associativity) : run_scope.

(** [print(..., file=sys.stderr)] in this part of the script. *)
Definition print_stderr (l : stderr_line) : Run unit :=
  fun p => (Returns tt,
            mkProcess (fs p) (err p ++ [l]) (pygltflib p) (may_write p)
              (network p) (requests p)).

(** The machine a call of the patch path or of the builder sees. *)
Definition world_of (p : Process) : World :=
  mkWorld (fs p) [] (pygltflib p) (may_write p).

(** A call of the patch path or of the builder: it works on the file
    system of the process, and the lines it prints go to the standard error
    of the process. *)
Definition in_world {A} (m : ST World A) : Run A :=
  fun p => let '(r, w') := m (world_of p) in
           (outcome_of_result r,
            mkProcess (files w') (err p ++ map Line (stderr w'))
              (pygltflib_installed w') (writable w')
              (network p) (requests p)).

(** [open(path, "wb").write(data)]. *)
Definition write_bytes (path : string) (data : list byte) : Run unit :=
  fun p => if may_write p path
           then (Returns tt,
                 mkProcess (<[path := RawFile data]> (fs p)) (err p)
                   (pygltflib p) (may_write p) (network p) (requests p))
           else (Raises (Error (Exn OSError)), p).

(** [urllib.request.urlretrieve(url, path)]: the URL is opened first, then
    the file, and the body is written as it arrives.  A URL that cannot be
    opened raises [URLError], and a transfer that breaks off raises
    [ContentTooShortError] after what was received has been written; both
    are [OSError]s. *)
Definition urlretrieve (url path : string) : Run unit :=
  fun p =>
    let p' := mkProcess (fs p) (err p) (pygltflib p) (may_write p)
                (network p) (requests p ++ [url]) in
    match network p url with
    | Unreachable => (Raises (Error (Exn OSError)), p')
    | Served data => write_bytes path data p'
    | Broken_off received =>
        and_then (write_bytes path received)
          (fun _ => raises (Error (Exn OSError))) p'
    end.

(** ** Double precision, and the casts between the number types *)

Definition f64 : Type := spec_float.

Definition f64_of_Z (n : Z) : f64 := binary_normalize 53 1024 n 0 false.
Definition f64_mul : f64 -> f64 -> f64 := SFmul 53 1024.
Arguments f64_mul : simpl never.

(** The literal [0.2]. *)
Definition f64_0_2 : f64 := S754_finite false 7205759403792794 (-55).

(** [np.float32(x)] for a Python float: rounded to nearest, ties to even. *)
Definition f32_of_f64 (x : f64) : f32 :=
  match x with
  | S754_finite s m e => binary_normalize 24 128 (cond_Zopp s (Z.pos m)) e s
  | other => other
  end.

(** [int(x)] for a Python float. *)
Definition f64_int (x : f64) : answer Z :=
  match x with
  | S754_nan => Fails (Exn ValueError)
  | S754_infinity _ => Fails (Other "OverflowError")
  | _ => Gives (f32_trunc x)
  end.

(** A NumPy [int64], which is what [astype(int)] gives on Linux and with
    NumPy 2: arithmetic wraps around. *)
Definition int64 (n : Z) : Z := (n + 2 ^ 63) mod 2 ^ 64 - 2 ^ 63.

(** [x.astype(int)] for a [float32]: the fraction is dropped; a NaN, an
    infinity and a value outside the range of [int64] give the least
    [int64], as the conversion instruction of x86-64 does. *)
Definition astype_int64 (x : f32) : Z :=
  match x with
  | S754_zero _ => 0
  | S754_finite _ _ _ =>
      let t := f32_trunc x in
      if (- 2 ^ 63 <=? t) && (t <? 2 ^ 63) then t else - 2 ^ 63
  | _ => - 2 ^ 63
  end.

Definition is_nan (x : spec_float) : bool :=
  match x with S754_nan => true | _ => false end.

(** [np.minimum] and [np.maximum] on two [float32]: a NaN wins. *)
Definition f32_minimum (a b : f32) : f32 :=
  if is_nan a then a else if SFltb a b then a else b.

Definition f32_maximum (a b : f32) : f32 :=
  if is_nan a then a else if SFltb b a then a else b.

(** ** Landmarks *)

(** A landmark of MediaPipe, with coordinates relative to the image. *)
Record NormalizedLandmark : Type := mkLandmark {
  lm_x : f64;
  lm_y : f64 }.

(** A row of a [float32] array of shape (n, 2). *)
Definition point : Type := f32 * f32.

(** MediaPipe landmark indices for key facial features. *)
Definition LEFT_EYE : Z := 159.
Definition RIGHT_EYE : Z := 386.
Definition NOSE_TIP : Z := 1.
Definition CHIN : Z := 152.

(** MediaPipe face oval landmarks (silhouette). *)
Definition FACE_OVAL : list Z :=
  [10; 338; 297; 332; 284; 251; 389; 356; 454; 323; 361; 288;
   397; 365; 379; 378; 400; 377; 152; 148; 176; 149; 150; 136;
   172; 58; 132; 93; 234; 127; 162; 21; 54; 103; 67; 109].

(** The four anchors [src_pts] of [extract_face_texture]. *)
Definition src_points (landmarks : list point) : result (list point) :=
  mapM (py_getitem landmarks) [LEFT_EYE; RIGHT_EYE; NOSE_TIP; CHIN].

(** [landmarks[FACE_OVAL]]. *)
Definition face_oval_points (landmarks : list point) : result (list point) :=
  mapM (py_getitem landmarks) FACE_OVAL.

(** Target points in the texture space of the template. *)
Definition dst_pts : list point :=
  [(f32_of_Z 342, f32_of_Z 262);
   (f32_of_Z 680, f32_of_Z 265);
   (f32_of_Z 511, f32_of_Z 408);
   (f32_of_Z 527, f32_of_Z 781)].

(** [np.clip(pts.astype(np.int32), 0, texture_size - 1)]. *)
Definition clip (lo hi x : Z) : Z := Z.min (Z.max x lo) hi.

Definition clip_points (pts : list point) (texture_size : Z) : list (Z * Z) :=
  map (fun pt => (clip 0 (texture_size - 1) (f32_trunc pt.1),
                  clip 0 (texture_size - 1) (f32_trunc pt.2))) pts.

(** ** The geometry of the thumbnail *)

(** [landmarks.min(axis=0).astype(int)] and [landmarks.max(axis=0).astype(int)];
    an empty array has no minimum. *)
Definition landmark_bounds (landmarks : list point)
  : result ((Z * Z) * (Z * Z)) :=
  match landmarks with
  | [] => Raised ValueError
  | pt :: rest =>
      let lo := foldl (fun acc q => (f32_minimum acc.1 q.1,
                                     f32_minimum acc.2 q.2)) pt rest in
      let hi := foldl (fun acc q => (f32_maximum acc.1 q.1,
                                     f32_maximum acc.2 q.2)) pt rest in
      Ok ((astype_int64 lo.1, astype_int64 lo.2),
          (astype_int64 hi.1, astype_int64 hi.2))
  end.

(** Lines 302 to 306: the bounding box, padded by a fifth of its width on
    every side and cut at the borders of the image.  The bounds are
    [int64] values, so their differences and sums wrap around; the
    padding and the borders are Python integers. *)
Definition crop_box (bounds : (Z * Z) * (Z * Z)) (width height : Z)
  : answer (Z * Z * Z * Z) :=
  let '((x_min, y_min), (x_max, y_max)) := bounds in
  match f64_int (f64_mul (f64_of_Z (int64 (x_max - x_min))) f64_0_2) with
  | Fails e => Fails e
  | Gives pad =>
      let x_min := Z.max 0 (int64 (x_min - pad)) in
      let y_min := Z.max 0 (int64 (y_min - pad)) in
      let x_max := Z.min width (int64 (x_max + pad)) in
      let y_max := Z.min height (int64 (y_max + pad)) in
      Gives (x_min, y_min, x_max, y_max)
  end.

(** Lines 310 to 313: the side of the square and the corner at which a
    face of [w] by [h] pixels is pasted into it. *)
Definition paste_corner (w h : Z) : Z * (Z * Z) :=
  let max_dim := Z.max w h in
  (max_dim, ((max_dim - w) / 2, (max_dim - h) / 2)).

(** ** External libraries of this part

    OpenCV's decoder and geometric transforms, MediaPipe's face landmarker
    and Pillow's image operations. *)
Class Vision : Type := {
  (* a 3 x 3 perspective matrix *)
  matrix : Type;
  (* [cv2.imread] on the content of a file; [None] when it is no image *)
  imdecode : file -> option (ndarray byte);
  (* [FaceLandmarker.create_from_options(options)] on the model asset and
     [landmarker.detect]: the landmarks of every face found *)
  face_landmarker_detect :
    option file -> ndarray byte -> answer (list (list NormalizedLandmark));
  getPerspectiveTransform : list point -> list point -> answer matrix;
  (* [cv2.warpPerspective(img, M, (size, size), borderMode=BORDER_REFLECT)] *)
  warpPerspective : ndarray byte -> matrix -> Z -> answer (ndarray byte);
  perspectiveTransform : list point -> matrix -> answer (list point);
  (* lines 150 to 157: hull, fill, erode twice, blur *)
  feathered_hull_mask : list (Z * Z) -> Z -> answer (ndarray2 byte);
  (* [pil_image.crop(box)] *)
  pil_crop : ndarray byte -> Z * Z * Z * Z -> answer (ndarray byte);
  (* lines 312 to 322 and the PNG encoding: the face pasted at the corner
     of a black square, resized, masked by a disc *)
  thumbnail_png : ndarray byte -> Z -> Z * Z -> Z -> answer (list byte) }.

(** The parsed command line. *)
Record Args : Type := mkArgs {
  input : string;
  output : string;
  template : option string;
  thumbnail : option string;
  texture_size : Z }.

(** What [parser.parse_args()] does with a command line: it returns the
    arguments; or, asked for help, it prints the help on standard output
    and exits with status 0; or it prints the usage and an error on
    standard error and exits with status 2. *)
Inductive parsed : Type :=
| Parsed (args : Args)
| Help
| Usage_error (text : string).

(** The argument parser that lines 498 to 507 set up, a library too. *)
Class Argparse : Type := {
  parse_args : list string -> parsed }.

Open Scope run_scope.

Section Script.
Context `{Externals} `{Vision} `{Argparse}.

(** The directory of the script. *)
Variable _SCRIPT_DIR : string.

Definition _MODEL_URL : string :=
  "https://storage.googleapis.com/mediapipe-models/face_landmarker/face_landmarker/float16/latest/face_landmarker.task".

Definition _MODEL_PATH : string :=
  String.append _SCRIPT_DIR "/face_landmarker.task".

Definition _ensure_model : Run string :=
  cached <- reads (fun p => fs p !! _MODEL_PATH) ;;
  match cached with
  | Some _ => returns _MODEL_PATH
  | None =>
      urlretrieve _MODEL_URL _MODEL_PATH ;;;
      returns _MODEL_PATH
  end.

(** [cv2.imread(path)]: [None] when there is no file or no image in it. *)
Definition cv2_imread (path : string) : Run (option (ndarray byte)) :=
  reads (fun p => match fs p !! path with
                  | Some f => imdecode f
                  | None => None
                  end).

(** [cv2.cvtColor(image, cv2.COLOR_BGR2RGB)]: the channels of every pixel
    in reverse order; [cv2.error] when there is no image. *)
Definition cv2_cvtColor (image : option (ndarray byte))
  : answer (ndarray byte) :=
  match image with
  | Some image => Gives (map (map (@rev byte)) image)
  | None => Fails (Other "cv2.error")
  end.

Definition get_face_landmarks (image_path : string)
  : Run (option (list point)) :=
  image <- cv2_imread image_path ;;
  match image with
  | None =>
      print_stderr (Error_could_not_read_image image_path) ;;;
      returns None
  | Some image =>
      let '(h, w) := shape image in
      model_path <- _ensure_model ;;
      asset <- reads (fun p => fs p !! model_path) ;;
      rgb_image <- of_answer (cv2_cvtColor (Some image)) ;;
      result <- of_answer (face_landmarker_detect asset rgb_image) ;;
      match result with
      | [] =>
          print_stderr Error_no_face_detected ;;;
          returns None
      | landmarks :: _ =>
          (* Use first 468 landmarks *)
          let num_landmarks := Z.min (len landmarks) 468 in
          returns (Some
            (map (fun lm => (f32_of_f64 (f64_mul (lm_x lm) (f64_of_Z w)),
                             f32_of_f64 (f64_mul (lm_y lm) (f64_of_Z h))))
               (py_slice landmarks 0 num_landmarks)))
      end
  end.

Definition extract_face_texture (image_path : string)
    (landmarks : list point) (texture_size : Z)
  : Run (ndarray byte * ndarray2 byte) :=
  image <- cv2_imread image_path ;;
  rgb_image <- of_answer (cv2_cvtColor image) ;;
  src_pts <- of_result (src_points landmarks) ;;
  M <- of_answer (getPerspectiveTransform src_pts dst_pts) ;;
  warped <- of_answer (warpPerspective rgb_image M texture_size) ;;
  face_pts <- of_result (face_oval_points landmarks) ;;
  warped_face_pts <- of_answer (perspectiveTransform face_pts M) ;;
  let warped_face_pts := clip_points warped_face_pts texture_size in
  mask_feathered <-
    of_answer (feathered_hull_mask warped_face_pts texture_size) ;;
  returns (warped, mask_feathered).

Definition create_thumbnail (image_path : string) (landmarks : list point)
    (output_path : string) (size : Z) : Run unit :=
  image <- cv2_imread image_path ;;
  pil_image <- of_answer (cv2_cvtColor image) ;;
  bounds <- of_result (landmark_bounds landmarks) ;;
  let '(height, width) := shape pil_image in
  box <- of_answer (crop_box bounds width height) ;;
  face <- of_answer (pil_crop pil_image box) ;;
  let '(h, w) := shape face in
  let '(max_dim, corner) := paste_corner w h in
  png <- of_answer (thumbnail_png face max_dim corner size) ;;
  write_bytes output_path png.

(** The truth value of an optional string. *)
Definition given (s : option string) : option string :=
  match s with
  | Some EmptyString => None
  | other => other
  end.

(** [os.path.exists(path)]. *)
Definition path_exists (path : string) : Run bool :=
  reads (fun p => match fs p !! path with Some _ => true | None => false end).

(** [args.template and os.path.exists(args.template)]: the template to
    patch, if one is given and is there. *)
Definition usable_template (template : option string) : Run (option string) :=
  match given template with
  | Some path =>
      found <- path_exists path ;;
      returns (if found : bool then Some path else None)
  | None => returns None
  end.

(** Lines 510 to 534 of [main]: what it does with the arguments that
    [parse_args] returned. *)
Definition main (args : Args) : Run unit :=
  landmarks <- get_face_landmarks (input args) ;;
  match landmarks with
  | None => sys_exit 1
  | Some landmarks =>
      extracted <-
        extract_face_texture (input args) landmarks (texture_size args) ;;
      let '(warped_face, face_mask) := extracted in
      usable <- usable_template (template args) ;;
      match usable with
      | Some template_path =>
          success <- in_world (replace_texture_in_glb template_path
                                 warped_face face_mask (output args)) ;;
          if success : bool then returns tt
          else print_stderr Error_failed_to_apply_texture ;;; sys_exit 1
      | None =>
          let face_texture := warped_face in
          in_world (generate_standalone_avatar (input args) face_texture
                      (output args)) ;;;
          returns tt
      end ;;;
      match given (thumbnail args) with
      | Some path => create_thumbnail (input args) landmarks path 128
      | None => returns tt
      end
  end.

(** [main()] as the interpreter calls it, on the command line [argv]: the
    arguments are parsed (lines 498 to 508), which may end the process, and
    the rest of the function is [main] above. *)
Definition main_from_argv (argv : list string) : Run unit :=
  match parse_args argv with
  | Parsed args => main args
  | Help => sys_exit 0
  | Usage_error text => print_stderr (Usage text) ;;; sys_exit 2
  end.
End Script.

Close Scope run_scope.

(** An instance of the vision libraries for running the model: every
    non-empty raw file is an image of one row; the landmarker needs its
    model file and finds one face of 478 landmarks at the centre of the
    image; the transforms leave an image and its points as they are. *)
Definition toy_landmark : NormalizedLandmark :=
  mkLandmark (S754_finite false 4503599627370496 (-53))
             (S754_finite false 4503599627370496 (-53)).

Definition toy_vision : Vision := {|
  matrix := unit;
  imdecode := fun f => match f with
                       | RawFile (b :: data) => Some [toy_pixels (b :: data)]
                       | _ => None
                       end;
  face_landmarker_detect := fun asset _ =>
    match asset with
    | Some (RawFile _) => Gives [replicate 478 toy_landmark]
    | _ => Fails (Other "RuntimeError")
    end;
  getPerspectiveTransform := fun _ _ => Gives tt;
  warpPerspective := fun img _ _ => Gives img;
  perspectiveTransform := fun pts _ => Gives pts;
  feathered_hull_mask := fun _ _ => Gives [[xff; xff]];
  pil_crop := fun img _ => Gives img;
  thumbnail_png := fun face _ _ _ => Gives (concat (concat face)) |}.

(** A process with every path writable, a network that serves the model,
    a photo of two pixels and, if one is given, a template. *)
Definition sample_process (template : option GLTF2.t) (installed : bool)
  : Process :=
  mkProcess
    (<[ "photo.jpg"%string := RawFile [x0a; x14; x1e; x28; x32; x3c] ]>
       (match template with
        | Some g => {[ "template.glb"%string := GLBFile g ]}
        | None => ∅
        end))
    [] installed (fun _ => true)
    (fun url => if String.eqb url _MODEL_URL then Served [x01; x02]
                else Unreachable)
    [].

Definition sample_args (template thumbnail : option string) : Args :=
  mkArgs "photo.jpg" "avatar.glb" template thumbnail 1024.

(** An argument parser for running the model: it knows [-h] and the four
    options that take a path, each followed by its value, and asks for
    [--input] and [--output]. *)
Fixpoint toy_options (argv : list string)
    (acc : option string * option string * option string * option string)
  : option (option string * option string * option string * option string) :=
  let '(i, o, t, th) := acc in
  match argv with
  | [] => Some acc
  | name :: value :: rest =>
      if String.eqb name "--input" then toy_options rest (Some value, o, t, th)
      else if String.eqb name "--output" then
        toy_options rest (i, Some value, t, th)
      else if String.eqb name "--template" then
        toy_options rest (i, o, Some value, th)
      else if String.eqb name "--thumbnail" then
        toy_options rest (i, o, t, Some value)
      else None
  | [_] => None
  end.

Definition toy_argparse : Argparse := {|
  parse_args := fun argv =>
    if existsb (String.eqb "-h") argv then Help
    else match toy_options argv (None, None, None, None) with
         | Some (Some i, Some o, t, th) => Parsed (mkArgs i o t th 1024)
         | Some _ => Usage_error "the following arguments are required"
         | None => Usage_error "unrecognized arguments"
         end |}.

(** Landmarks on the diagonal of the image: row [i] is the point (i, i),
    so that any three of them are collinear. *)
Definition diagonal_landmarks : list point :=
  map (fun i => (f32_of_Z i, f32_of_Z i)) (seqZ 0 468).

(** ** Vocabulary of the properties of this part *)

(** Between [p] and [p'] nothing changed but, at most, the model file,
    which was missing and has been written. *)
Definition at_most_model_written (model_path : string) (p p' : Process)
  : Prop :=
  pygltflib p' = pygltflib p /\
  may_write p' = may_write p /\
  network p' = network p /\
  (fs p' = fs p \/
   (fs p !! model_path = None /\
    exists data, fs p' = <[model_path := RawFile data]> (fs p))).

(** The array [get_face_landmarks] makes of the landmarks of a face. *)
Definition scaled (image : ndarray byte) (landmarks : list NormalizedLandmark)
  : list point :=
  map (fun lm => (f32_of_f64 (f64_mul (lm_x lm) (f64_of_Z (shape image).2)),
                  f32_of_f64 (f64_mul (lm_y lm) (f64_of_Z (shape image).1))))
    (py_slice landmarks 0 (Z.min (len landmarks) 468)).

(** The three lines that precede an exit with status 1. *)
Definition fatal_line (l : stderr_line) : Prop :=
  (exists image_path, l = Error_could_not_read_image image_path) \/
  l = Error_no_face_detected \/
  l = Error_failed_to_apply_texture.

(** The computation never ends in [sys.exit]. *)
Definition never_exits {A} (m : Run A) : Prop :=
  forall p code, fst (m p) <> Raises (SystemExit code).

(** The computation leaves the process as it found it. *)
Definition pure_run {A} (m : Run A) : Prop := forall p, snd (m p) = p.

(** The rational number a finite float stands for. *)
Definition Q_of_float (x : spec_float) : option Q :=
  match x with
  | S754_zero _ => Some 0%Q
  | S754_finite s m e =>
      Some ((if s then (-1)%Q else 1%Q) * inject_Z (Z.pos m) * (2 # 1) ^ e)%Q
  | _ => None
  end.

(** Three points on one line: the cross product of the two sides that
    leave the first point is zero. *)
Definition collinear (a b c : point) : bool :=
  match Q_of_float a.1, Q_of_float a.2, Q_of_float b.1, Q_of_float b.2,
        Q_of_float c.1, Q_of_float c.2 with
  | Some ax, Some ay, Some bx, Some by_, Some cx, Some cy =>
      Qeq_bool ((bx - ax) * (cy - ay) - (by_ - ay) * (cx - ax))%Q 0%Q
  | _, _, _, _, _, _ => false
  end.

(** Four points of which some three are collinear. *)
Definition degenerate (pts : list point) : bool :=
  match pts with
  | [a; b; c; d] =>
      collinear a b c || collinear a b d || collinear a c d || collinear b c d
  | _ => false
  end.

Ltac run_unfold :=
  unfold and_then, returns, raises, reads, of_result, of_answer, sys_exit,
    print_stderr.

(** * Properties *)

(** ** Python sequences *)

Section Sequences.
Context {A : Type}.
Implicit Types (l v : list A) (i a b : Z).

Lemma py_norm_index_lt l i j :
  py_norm_index l i = Some j -> (j < length l)%nat.
Proof.
  unfold py_norm_index. intros H.
  destruct (_ && _) eqn:E; [|discriminate].
  apply andb_prop in E as [E1 E2].
  apply Z.leb_le in E1. apply Z.ltb_lt in E2.
  inversion H; subst. lia.
Qed.

Lemma py_norm_index_nonneg l i :
  0 <= i < len l -> py_norm_index l i = Some (Z.to_nat i).
Proof.
  unfold py_norm_index, len. intros [H0 H1].
  destruct (Z.ltb_spec i 0); [lia|].
  destruct (Z.leb_spec 0 i); [|lia].
  destruct (Z.ltb_spec i (Z.of_nat (length l))); [|lia].
  reflexivity.
Qed.

Lemma py_getitem_Ok l i x :
  py_getitem l i = Ok x <->
  exists j, py_norm_index l i = Some j /\ l !! j = Some x.
Proof.
  unfold py_getitem. split.
  - destruct (py_norm_index l i) as [j|]; [|discriminate].
    destruct (l !! j) eqn:E; [|discriminate].
    intros [= <-]. eauto.
  - intros (j & -> & ->). reflexivity.
Qed.

Lemma py_getitem_nonneg l i :
  0 <= i < len l -> exists x, py_getitem l i = Ok x /\ l !! Z.to_nat i = Some x.
Proof.
  intros H. unfold py_getitem. rewrite py_norm_index_nonneg by assumption.
  destruct (lookup_lt_is_Some_2 l (Z.to_nat i)) as [x Hx].
  { unfold len in H. lia. }
  rewrite Hx. eauto.
Qed.

Lemma update_at_length l i (f : A -> A) :
  length (update_at l i f) = length l.
Proof.
  unfold update_at. destruct (py_norm_index l i); [|reflexivity].
  destruct (l !! n); [|reflexivity]. apply length_insert.
Qed.

(** The slot that was read is the slot that is written. *)
Lemma update_at_same l i j x (f : A -> A) :
  py_norm_index l i = Some j -> l !! j = Some x ->
  update_at l i f !! j = Some (f x).
Proof.
  intros Hi Hj. unfold update_at. rewrite Hi, Hj.
  apply list_lookup_insert_eq. eapply lookup_lt_Some; eauto.
Qed.

Lemma update_at_other l i k (f : A -> A) :
  py_norm_index l i <> Some k -> update_at l i f !! k = l !! k.
Proof.
  intros Hne. unfold update_at.
  destruct (py_norm_index l i) as [j|]; [|reflexivity].
  destruct (l !! j); [|reflexivity].
  apply list_lookup_insert_ne. congruence.
Qed.

Lemma py_norm_index_update_at l i k (f : A -> A) :
  py_norm_index (update_at l i f) k = py_norm_index l k.
Proof. unfold py_norm_index. rewrite update_at_length. reflexivity. Qed.

Lemma py_getitem_update_at_same l i x (f : A -> A) :
  py_getitem l i = Ok x -> py_getitem (update_at l i f) i = Ok (f x).
Proof.
  intros (j & Hi & Hj)%py_getitem_Ok. apply py_getitem_Ok.
  exists j. rewrite py_norm_index_update_at. split; [assumption|].
  eapply update_at_same; eauto.
Qed.

Lemma py_slice_bound_in_range n i :
  0 <= i <= Z.of_nat n -> py_slice_bound n i = Z.to_nat i.
Proof.
  unfold py_slice_bound. intros H.
  destruct (Z.ltb_spec i 0); [lia|]. f_equal. lia.
Qed.

(** A slice inside the list, read and assigned. *)
Lemma py_slice_in_range l a b :
  0 <= a <= b -> b <= len l ->
  py_slice l a b = take (Z.to_nat (b - a)) (drop (Z.to_nat a) l).
Proof.
  unfold py_slice, len. intros H1 H2.
  rewrite !py_slice_bound_in_range by lia. f_equal. lia.
Qed.

Lemma py_slice_assign_in_range l a b v :
  0 <= a <= b -> b <= len l ->
  py_slice_assign l a b v =
  take (Z.to_nat a) l ++ v ++ drop (Z.to_nat b) l.
Proof.
  unfold py_slice_assign, len. intros H1 H2.
  rewrite !py_slice_bound_in_range by lia.
  replace (Nat.max (Z.to_nat a) (Z.to_nat b)) with (Z.to_nat b) by lia.
  reflexivity.
Qed.
End Sequences.

Lemma zero_bytes_length n : 0 <= n -> len (zero_bytes n) = n.
Proof. intros H. unfold len, zero_bytes. rewrite length_replicate. lia. Qed.

(** ** The padding loop *)

Lemma pad_loop_spec blob new_offset :
  pad_loop blob new_offset =
  (blob ++ zero_bytes ((- new_offset) mod 4),
   new_offset + (- new_offset) mod 4).
Proof.
  funelim (pad_loop blob new_offset); unfold zero_bytes.
  - clear Heq. replace ((- new_offset) mod 4) with 0.
    + simpl. rewrite app_nil_r. f_equal. lia.
    + pose proof (Z.div_mod new_offset 4 ltac:(lia)).
      pose proof (Z.div_mod (- new_offset) 4 ltac:(lia)).
      pose proof (Z.mod_pos_bound (- new_offset) 4 ltac:(lia)). lia.
  - clear Heq. rewrite H. unfold zero_bytes.
    pose proof (Z.div_mod new_offset 4 ltac:(lia)).
    pose proof (Z.div_mod (- new_offset) 4 ltac:(lia)).
    pose proof (Z.div_mod (- (new_offset + 1)) 4 ltac:(lia)).
    pose proof (Z.mod_pos_bound new_offset 4 ltac:(lia)).
    pose proof (Z.mod_pos_bound (- new_offset) 4 ltac:(lia)).
    pose proof (Z.mod_pos_bound (- (new_offset + 1)) 4 ltac:(lia)).
    assert (E : (- new_offset) mod 4 = (- (new_offset + 1)) mod 4 + 1) by lia.
    rewrite E. f_equal; [|lia].
    rewrite Z2Nat.inj_add by lia. rewrite Nat.add_comm. simpl.
    rewrite <- app_assoc. reflexivity.
Qed.

Lemma pad_loop_aligned blob new_offset :
  (snd (pad_loop blob new_offset)) mod 4 = 0.
Proof.
  rewrite pad_loop_spec. simpl.
  rewrite Z.add_mod_idemp_r by lia.
  replace (new_offset + - new_offset) with 0 by lia. reflexivity.
Qed.

(** ** The binary patch *)

Lemma patch_in_place_run g idx png bvi bv blob :
  image_view g idx bvi bv ->
  GLTF2.binary_blob g = Some blob ->
  len png <= BufferView.byteLength bv ->
  patch_binary_blob idx png g =
  (Ok tt,
   GLTF2.set_images
     (update_at (GLTF2.images g) idx
        (Image.set_mimeType (Some "image/png"%string)))
     (GLTF2.set_binary_blob
        (in_place_blob blob png (BufferView.byteOffset bv)
           (BufferView.byteLength bv))
        (GLTF2.set_bufferViews
           (update_at (GLTF2.bufferViews g) bvi
              (BufferView.set_byteLength (len png))) g))).
Proof.
  intros (image & Himg & Hbvi & Hbv) Hblob Hle.
  unfold patch_binary_blob. st_unfold.
  rewrite Himg, Hbvi, Hbv, Hblob.
  destruct (Z.leb_spec (len png) (BufferView.byteLength bv)); [|lia].
  reflexivity.
Qed.

Lemma in_place_blob_form blob png off old_length :
  0 <= off -> len png <= old_length -> off + old_length <= len blob ->
  in_place_blob blob png off old_length =
  take (Z.to_nat off) blob ++ png
    ++ zero_bytes (old_length - len png)
    ++ drop (Z.to_nat (off + old_length)) blob.
Proof.
  intros Hoff Hle Hin. unfold in_place_blob.
  assert (0 <= len png) by (unfold len; lia).
  rewrite (py_slice_assign_in_range blob) by lia.
  set (blob1 := take (Z.to_nat off) blob ++ png
                  ++ drop (Z.to_nat (off + len png)) blob).
  assert (Hlen1 : len blob1 = len blob).
  { unfold blob1, len in *.
    rewrite !length_app, length_take, length_drop. lia. }
  rewrite py_slice_assign_in_range by lia.
  assert (Ht : length (take (Z.to_nat off) blob ++ png)
               = Z.to_nat (off + len png)).
  { unfold len in *. rewrite length_app, length_take. lia. }
  unfold blob1. rewrite (app_assoc _ png).
  rewrite take_app_length' by (symmetry; exact Ht).
  rewrite drop_app_ge by (rewrite Ht; lia).
  rewrite Ht, drop_drop.
  replace (Z.to_nat (off + len png)
           + (Z.to_nat (off + old_length) - Z.to_nat (off + len png)))%nat
    with (Z.to_nat (off + old_length)) by lia.
  rewrite <- app_assoc. reflexivity.
Qed.

Lemma in_place_blob_length blob png off old_length :
  0 <= off -> len png <= old_length -> off + old_length <= len blob ->
  len (in_place_blob blob png off old_length) = len blob.
Proof.
  intros Hoff Hle Hin. rewrite in_place_blob_form by assumption.
  assert (0 <= len png) by (unfold len; lia).
  pose proof (zero_bytes_length (old_length - len png) ltac:(lia)) as Hz.
  unfold len in *.
  rewrite !length_app, length_take, length_drop. lia.
Qed.

(** C1: in the in-place case the new bytes are written at the view's
    offset, the rest of the old slot is filled with zeros, and the view
    keeps its offset and takes the new length. *)
Theorem patch_in_place_writes g idx png bvi bv blob :
  image_view g idx bvi bv ->
  GLTF2.binary_blob g = Some blob ->
  view_in_blob bv blob ->
  len png <= BufferView.byteLength bv ->
  let off := BufferView.byteOffset bv in
  let old_length := BufferView.byteLength bv in
  exists g' blob' bv',
    patch_binary_blob idx png g = (Ok tt, g') /\
    GLTF2.binary_blob g' = Some blob' /\
    py_getitem (GLTF2.bufferViews g') bvi = Ok bv' /\
    py_slice blob' off (off + len png) = png /\
    py_slice blob' (off + len png) (off + old_length)
      = zero_bytes (old_length - len png) /\
    BufferView.byteLength bv' = len png /\
    BufferView.byteOffset bv' = off.
Proof.
  intros Hview Hblob [Hoff Hin] Hle. cbv zeta.
  set (off := BufferView.byteOffset bv) in *.
  set (old_length := BufferView.byteLength bv) in *.
  eexists _, _, _. split; [|split; [|split]].
  - apply patch_in_place_run; eassumption.
  - reflexivity.
  - simpl. apply py_getitem_update_at_same.
    destruct Hview as (image & _ & _ & Hbv). exact Hbv.
  - split; [|split; [|split; reflexivity]];
      fold off old_length; clearbody off old_length;
      assert (0 <= len png) by (unfold len; lia);
      pose proof (in_place_blob_length blob png off old_length
                    Hoff Hle Hin) as Hlen;
      pose proof (zero_bytes_length (old_length - len png) ltac:(lia)) as Hz;
      rewrite py_slice_in_range by lia;
      rewrite in_place_blob_form by assumption.
    + rewrite drop_app_length' by (rewrite length_take; unfold len in *; lia).
      replace (Z.to_nat (off + len png - off)) with (length png)
        by (unfold len; lia).
      apply take_app_length.
    + rewrite (app_assoc _ png).
      rewrite drop_app_length'
        by (rewrite length_app, length_take; unfold len in *; lia).
      apply take_app_length'. unfold len in *. lia.
Qed.

Lemma in_place_blob_outside blob png off old_length (i : nat) :
  0 <= off -> len png <= old_length -> off + old_length <= len blob ->
  (i < Z.to_nat off)%nat \/ (Z.to_nat (off + old_length) <= i)%nat ->
  in_place_blob blob png off old_length !! i = blob !! i.
Proof.
  intros Hoff Hle Hin Hi. rewrite in_place_blob_form by assumption.
  assert (0 <= len png) by (unfold len; lia).
  pose proof (zero_bytes_length (old_length - len png) ltac:(lia)) as Hz.
  unfold len in *.
  destruct Hi as [Hi|Hi].
  - rewrite lookup_app_l by (rewrite length_take; lia).
    apply lookup_take_lt. lia.
  - rewrite !app_assoc.
    rewrite lookup_app_r by (rewrite !length_app, length_take; lia).
    rewrite lookup_drop. f_equal.
    rewrite !length_app, length_take. lia.
Qed.

(** C2: in the in-place case the blob keeps its length, and no view other
    than the patched one changes; neither do the buffers, nor the bytes
    outside the old slot. *)
Theorem patch_in_place_frame g idx png bvi bv blob :
  image_view g idx bvi bv ->
  GLTF2.binary_blob g = Some blob ->
  view_in_blob bv blob ->
  len png <= BufferView.byteLength bv ->
  exists g' blob',
    patch_binary_blob idx png g = (Ok tt, g') /\
    GLTF2.binary_blob g' = Some blob' /\
    len blob' = len blob /\
    length (GLTF2.bufferViews g') = length (GLTF2.bufferViews g) /\
    (forall k : nat,
        py_norm_index (GLTF2.bufferViews g) bvi <> Some k ->
        GLTF2.bufferViews g' !! k = GLTF2.bufferViews g !! k) /\
    GLTF2.buffers g' = GLTF2.buffers g /\
    (forall i : nat,
        (i < Z.to_nat (BufferView.byteOffset bv))%nat \/
        (Z.to_nat (BufferView.byteOffset bv + BufferView.byteLength bv) <= i)%nat ->
        blob' !! i = blob !! i).
Proof.
  intros Hview Hblob [Hoff Hin] Hle.
  eexists _, _. split; [apply patch_in_place_run; eassumption|].
  split; [reflexivity|]. simpl.
  split; [apply in_place_blob_length; assumption|].
  split; [apply update_at_length|].
  split; [intros k Hk; apply update_at_other; assumption|].
  split; [reflexivity|].
  intros i Hi. apply in_place_blob_outside; assumption.
Qed.

Lemma patch_relocate_run g idx png bvi bv blob :
  image_view g idx bvi bv ->
  GLTF2.binary_blob g = Some blob ->
  BufferView.byteLength bv < len png ->
  let padded := blob ++ zero_bytes ((- len blob) mod 4) in
  patch_binary_blob idx png g =
  (Ok tt,
   GLTF2.set_images
     (update_at (GLTF2.images g) idx
        (Image.set_mimeType (Some "image/png"%string)))
     (GLTF2.set_binary_blob (padded ++ png)
        (GLTF2.set_buffers
           (match GLTF2.buffers g with
            | [] => []
            | _ :: _ =>
                update_at (GLTF2.buffers g) 0
                  (Buffer.set_byteLength (len (padded ++ png)))
            end)
           (GLTF2.set_bufferViews
              (update_at (GLTF2.bufferViews g) bvi
                 (fun b =>
                    BufferView.set_byteLength (len png)
                      (BufferView.set_byteOffset
                         (len blob + (- len blob) mod 4) b))) g)))).
Proof.
  intros (image & Himg & Hbvi & Hbv) Hblob Hlt padded.
  unfold patch_binary_blob. st_unfold.
  rewrite Himg, Hbvi, Hbv, Hblob.
  destruct (Z.leb_spec (len png) (BufferView.byteLength bv)); [lia|].
  rewrite pad_loop_spec. simpl.
  destruct g as [? ? ? ? ? ? ? ? ? ? bufs ?]. simpl.
  destruct bufs; reflexivity.
Qed.

Lemma padded_length (blob : list byte) :
  len (blob ++ zero_bytes ((- len blob) mod 4))
  = len blob + (- len blob) mod 4.
Proof.
  pose proof (Z.mod_pos_bound (- len blob) 4 ltac:(lia)).
  pose proof (zero_bytes_length ((- len blob) mod 4) ltac:(lia)).
  unfold len in *. rewrite length_app. lia.
Qed.

(** C3: in the relocate case the blob is padded with zeros to a multiple
    of four and the new bytes are appended; the patched view points at the
    appended bytes, at an offset that is a multiple of four, and the buffer
    that owns the view declares the length of the new blob. *)
Theorem patch_relocate_appends g idx png bvi bv blob :
  image_view g idx bvi bv ->
  GLTF2.binary_blob g = Some blob ->
  BufferView.byteLength bv < len png ->
  BufferView.buffer bv = 0 ->
  GLTF2.buffers g <> [] ->
  let padded := blob ++ zero_bytes ((- len blob) mod 4) in
  exists g' bv' bf',
    patch_binary_blob idx png g = (Ok tt, g') /\
    GLTF2.binary_blob g' = Some (padded ++ png) /\
    0 <= len padded - len blob < 4 /\
    py_getitem (GLTF2.bufferViews g') bvi = Ok bv' /\
    BufferView.byteOffset bv' = len padded /\
    (BufferView.byteOffset bv') mod 4 = 0 /\
    BufferView.byteLength bv' = len png /\
    py_getitem (GLTF2.buffers g') (BufferView.buffer bv') = Ok bf' /\
    Buffer.byteLength bf' = len (padded ++ png).
Proof.
  intros Hview Hblob Hlt Hbuf Hne padded.
  pose proof (padded_length blob) as Hpad. fold padded in Hpad.
  pose proof (Z.mod_pos_bound (- len blob) 4 ltac:(lia)) as Hk.
  destruct (GLTF2.buffers g) as [|bf rest] eqn:Hbufs; [congruence|].
  eexists _, _, (Buffer.set_byteLength (len (padded ++ png)) bf).
  split; [eapply patch_relocate_run; eassumption|].
  split; [reflexivity|].
  split; [lia|].
  split.
  { simpl. apply py_getitem_update_at_same.
    destruct Hview as (image & _ & _ & Hbv). exact Hbv. }
  simpl. rewrite Hbufs, Hbuf.
  split; [lia|].
  split.
  { rewrite Z.add_mod_idemp_r by lia.
    replace (len blob + - len blob) with 0 by lia. reflexivity. }
  split; [reflexivity|].
  split; [reflexivity|reflexivity].
Qed.

(** ** Read-only computations *)

Section ReadOnly.
Context {S : Type}.

Lemma read_only_ret {A} (a : A) : read_only (S := S) (ret a).
Proof. intros s. reflexivity. Qed.

Lemma read_only_raise {A} (e : exn) : read_only (S := S) (A := A) (raise e).
Proof. intros s. reflexivity. Qed.

Lemma read_only_gets {A} (f : S -> A) : read_only (gets f).
Proof. intros s. reflexivity. Qed.

Lemma read_only_lift_result {A} (r : result A) :
  read_only (S := S) (lift_result r).
Proof. intros s. reflexivity. Qed.

Lemma read_only_bind {A B} (m : ST S A) (k : A -> ST S B) :
  read_only m -> (forall a, read_only (k a)) -> read_only (bind m k).
Proof.
  intros Hm Hk s. unfold bind. specialize (Hm s).
  destruct (m s) as [[a|e] s']; simpl in Hm; subst s'; [apply Hk|reflexivity].
Qed.

Lemma read_only_for_return {A R} (l : list A) (body : A -> ST S (option R)) :
  (forall x, read_only (body x)) -> read_only (for_return l body).
Proof.
  intros Hbody. induction l as [|x l IH]; simpl.
  - apply read_only_ret.
  - apply read_only_bind; [apply Hbody|].
    intros [v|]; [apply read_only_ret|exact IH].
Qed.
End ReadOnly.

Ltac read_only_tac :=
  repeat first
    [ apply read_only_ret | apply read_only_raise | apply read_only_gets
    | apply read_only_lift_result
    | apply read_only_bind; [|intros ?]
    | apply read_only_for_return; intros ?
    | match goal with
      | |- read_only (match ?x with _ => _ end) => destruct x
      | |- read_only (if ?x then _ else _) => destruct x
      end ].

(** ** The resource locator *)

(** The first match wins: everything before it failed to resolve. *)
Lemma first_resolved_Some {A} (f : A -> option Z) (l : list A) (v : Z) :
  first_resolved f l = Some v <->
  exists l1 x l2, l = l1 ++ x :: l2 /\ f x = Some v /\
                  Forall (fun y => f y = None) l1.
Proof.
  induction l as [|a l IH]; simpl.
  - split; [discriminate|]. intros (l1 & x & l2 & Heq & _).
    destruct l1; discriminate.
  - destruct (f a) eqn:Ha.
    + split.
      * intros [= ->]. exists [], a, l.
        split; [reflexivity|]. split; [assumption|constructor].
      * intros (l1 & x & l2 & Heq & Hx & Hall). destruct l1 as [|b l1].
        -- simpl in Heq. injection Heq as -> ->. congruence.
        -- simpl in Heq. injection Heq as -> ->.
           apply Forall_cons in Hall as [Hb _]. congruence.
    + rewrite IH. split.
      * intros (l1 & x & l2 & -> & Hx & Hall).
        exists (a :: l1), x, l2.
        split; [reflexivity|]. split; [assumption|].
        constructor; assumption.
      * intros (l1 & x & l2 & Heq & Hx & Hall). destruct l1 as [|b l1].
        -- simpl in Heq. injection Heq as -> ->. congruence.
        -- simpl in Heq. injection Heq as -> ->.
           apply Forall_cons in Hall as [_ Hall].
           exists l1, x, l2. split; [reflexivity|]. split; assumption.
Qed.

Lemma first_resolved_None {A} (f : A -> option Z) (l : list A) :
  first_resolved f l = None <-> Forall (fun y => f y = None) l.
Proof.
  induction l as [|a l IH]; simpl.
  - split; auto.
  - destruct (f a) eqn:Ha.
    + split; [discriminate|]. intros [Hc _]%Forall_cons. congruence.
    + rewrite IH. split; [auto|]. intros [_ ?]%Forall_cons. assumption.
Qed.

(** A loop whose body reads the state and agrees with [f] on every element
    computes the first resolved element. *)
Lemma for_return_first {S A} (l : list A) (body : A -> ST S (option Z))
    (f : A -> option Z) (s : S) :
  Forall (fun x => body x s = (Ok (f x), s)) l ->
  for_return l body s = (Ok (first_resolved f l), s).
Proof.
  induction 1 as [|x l Hx _ IH]; simpl; [reflexivity|].
  unfold bind. rewrite Hx. destruct (f x); [reflexivity|exact IH].
Qed.

Lemma index_ok_getitem {A} (l : list A) (i : Z) :
  index_ok l i = true ->
  exists x, py_getitem l i = Ok x /\ l !! Z.to_nat i = Some x.
Proof.
  unfold index_ok. intros [H1 H2]%andb_prop.
  apply py_getitem_nonneg. lia.
Qed.

Section LocatorProperties.
Context `{Externals}.

Lemma material_image_resolves g mat :
  material_ok g mat = true ->
  material_image mat g = (Ok (resolve_material g mat), g).
Proof.
  unfold material_ok, material_image, resolve_material.
  destruct mat as [nm [[[[[j|]]|] mf rf]|] ds]; simpl;
    try reflexivity; try discriminate.
  intros Hj. destruct (index_ok_getitem _ _ Hj) as (tex & Hget & Hlook).
  st_unfold. unfold deref. simpl. rewrite Hj, Hget, Hlook. simpl.
  destruct (Texture.source tex); reflexivity.
Qed.

Lemma head_loop_resolves g :
  references_ok g = true ->
  for_return (GLTF2.meshes g) (fun mesh =>
    if contains "head" (str_lower (or_empty (Mesh.name mesh))) then
      for_return (Mesh.primitives mesh) (fun prim =>
        match Primitive.material prim with
        | Some m =>
            (materials <- gets GLTF2.materials ;;
             mat <- lift_result (py_getitem materials m) ;;
             material_image mat)%st
        | None => ret None
        end)
    else ret None) g
  = (Ok (head_strategy g), g).
Proof.
  intros [Hmeshes Hmats]%andb_prop.
  rewrite forallb_forall in Hmeshes. rewrite forallb_forall in Hmats.
  unfold head_strategy. apply for_return_first.
  apply Forall_forall. intros mesh Hmesh%list_elem_of_In.
  specialize (Hmeshes mesh Hmesh). rewrite forallb_forall in Hmeshes.
  unfold is_head_mesh. destruct (contains _ _); [|reflexivity].
  apply for_return_first. apply Forall_forall.
  intros prim Hprim%list_elem_of_In. specialize (Hmeshes prim Hprim).
  unfold primitive_ok in Hmeshes. unfold resolve_primitive.
  destruct (Primitive.material prim) as [m|]; [|reflexivity].
  destruct (index_ok_getitem _ _ Hmeshes) as (mat & Hget & Hlook).
  st_unfold. unfold deref. simpl. rewrite Hmeshes, Hget, Hlook. simpl.
  apply material_image_resolves. apply Hmats.
  apply list_elem_of_In. eapply list_elem_of_lookup_2. exact Hlook.
Qed.

Lemma skin_loop_resolves g :
  references_ok g = true ->
  for_return (GLTF2.materials g) (fun mat =>
    if contains "skin" (str_lower (or_empty (Material.name mat))) then
      material_image mat
    else ret None) g
  = (Ok (skin_strategy g), g).
Proof.
  intros [_ Hmats]%andb_prop. rewrite forallb_forall in Hmats.
  unfold skin_strategy. apply for_return_first.
  apply Forall_forall. intros mat Hmat%list_elem_of_In.
  unfold is_skin_material. destruct (contains _ _); [|reflexivity].
  apply material_image_resolves. auto.
Qed.

Lemma material_image_read_only mat : read_only (material_image mat).
Proof. unfold material_image. read_only_tac. Qed.

Lemma find_skin_image_index_read_only : read_only _find_skin_image_index.
Proof.
  unfold _find_skin_image_index. read_only_tac;
    apply material_image_read_only.
Qed.

Lemma extract_glb_image_read_only idx : read_only (_extract_glb_image idx).
Proof. unfold _extract_glb_image. read_only_tac. Qed.

Lemma find_skin_image_index_result (g : GLTF2.t) :
  references_ok g = true ->
  _find_skin_image_index g = (Ok (locate g), g).
Proof.
  intros Hok. unfold _find_skin_image_index, locate.
  unfold bind at 1. unfold gets at 1.
  unfold bind at 1. rewrite (head_loop_resolves g Hok).
  destruct (head_strategy g) as [i|]; [reflexivity|].
  unfold bind at 1. unfold gets at 1.
  unfold bind at 1. rewrite (skin_loop_resolves g Hok).
  destruct (skin_strategy g); reflexivity.
Qed.

(** C4: the locator never changes the container, and on a container
    whose references are in range it returns what the resolution order
    prescribes: the first resolving "head" mesh, else the first resolving
    "skin" material, else nothing. *)
Theorem find_skin_image_index_order (g : GLTF2.t) :
  references_ok g = true ->
  _find_skin_image_index g = (Ok (locate g), g) /\
  (forall i, locate g = Some i <->
     head_strategy g = Some i \/
     (head_strategy g = None /\ skin_strategy g = Some i)) /\
  (locate g = None <-> head_strategy g = None /\ skin_strategy g = None) /\
  read_only _find_skin_image_index.
Proof.
  intros Hok. split; [exact (find_skin_image_index_result g Hok)|].
  unfold locate. split; [|split].
  - intros i. destruct (head_strategy g) as [j|]; split.
    + intros [= ->]. left. reflexivity.
    + intros [Hj|[Hj _]]; [exact Hj|discriminate].
    + intros Hs. right. split; [reflexivity|exact Hs].
    + intros [Hj|[_ Hs]]; [discriminate|exact Hs].
  - destruct (head_strategy g); split.
    + discriminate.
    + intros [Hj _]. discriminate.
    + intros Hs. split; [reflexivity|exact Hs].
    + intros [_ Hs]. exact Hs.
  - exact find_skin_image_index_read_only.
Qed.
End LocatorProperties.

(** ** The blend *)

(** Single-precision facts about channel values, each checked on the 256
    values of a byte. *)
Lemma f32_mul_one (b : byte) :
  f32_mul (astype_float32 b) (f32_of_Z 1) = astype_float32 b.
Proof. destruct b; vm_compute; reflexivity. Qed.

Lemma f32_mul_zero (b : byte) :
  f32_mul (astype_float32 b) f32_zero = f32_zero.
Proof. destruct b; vm_compute; reflexivity. Qed.

Lemma f32_add_zero_r (b : byte) :
  f32_add (astype_float32 b) f32_zero = astype_float32 b.
Proof. destruct b; vm_compute; reflexivity. Qed.

Lemma f32_add_zero_l (b : byte) :
  f32_add f32_zero (astype_float32 b) = astype_float32 b.
Proof. destruct b; vm_compute; reflexivity. Qed.

Lemma astype_uint8_float32 (b : byte) :
  astype_uint8 (astype_float32 b) = b.
Proof. destruct b; vm_compute; reflexivity. Qed.

Lemma alpha_255 : f32_div (astype_float32 xff) (f32_of_Z 255) = f32_of_Z 1.
Proof. vm_compute. reflexivity. Qed.

Lemma alpha_0 : f32_div (astype_float32 x00) (f32_of_Z 255) = f32_zero.
Proof. vm_compute. reflexivity. Qed.

Lemma one_minus_one : f32_sub (f32_of_Z 1) (f32_of_Z 1) = f32_zero.
Proof. vm_compute. reflexivity. Qed.

Lemma one_minus_zero : f32_sub (f32_of_Z 1) f32_zero = f32_of_Z 1.
Proof. vm_compute. reflexivity. Qed.

Lemma mapM_total {A B} (f : A -> result B) (k : A -> B) (l : list A) :
  (forall x, f x = Ok (k x)) -> mapM f l = Ok (map k l).
Proof.
  intros Hf. induction l as [|x l IH]; simpl; [reflexivity|].
  rewrite Hf. simpl. rewrite IH. reflexivity.
Qed.

(** Two views of one array have the same shape: no broadcasting. *)
Lemma broadcast_same {A B C D} (f : B -> C -> result D)
    (g1 : A -> B) (g2 : A -> C) (l : list A) :
  broadcast f (map g1 l) (map g2 l) = mapM (fun x => f (g1 x) (g2 x)) l.
Proof.
  unfold broadcast. rewrite !length_map, Nat.eqb_refl.
  induction l as [|x l IH]; simpl; [reflexivity|].
  rewrite IH. reflexivity.
Qed.

Lemma nd_binop_same {A B C D} (f : B -> C -> D)
    (g1 : A -> B) (g2 : A -> C) (a : ndarray A) :
  nd_binop f (nd_map g1 a) (nd_map g2 a)
  = Ok (nd_map (fun x => f (g1 x) (g2 x)) a).
Proof.
  unfold nd_binop, nd_map. rewrite broadcast_same.
  apply mapM_total. intros row. rewrite broadcast_same.
  apply mapM_total. intros p. rewrite broadcast_same.
  apply mapM_total. reflexivity.
Qed.

Lemma nd_map_map {A B C} (f : B -> C) (g : A -> B) (a : ndarray A) :
  nd_map f (nd_map g a) = nd_map (fun x => f (g x)) a.
Proof.
  unfold nd_map. rewrite map_map. apply map_ext. intros row.
  rewrite map_map. apply map_ext. intros p. apply map_map.
Qed.

Lemma nd_map_ext {A B} (f g : A -> B) (a : ndarray A) :
  (forall x, f x = g x) -> nd_map f a = nd_map g a.
Proof.
  intros Hfg. unfold nd_map.
  apply map_ext. intros row. apply map_ext. intros p.
  apply map_ext. exact Hfg.
Qed.

Lemma nd_map_id {A} (a : ndarray A) : nd_map (fun x => x) a = a.
Proof.
  unfold nd_map. rewrite <- (map_id a) at 2. apply map_ext. intros row.
  rewrite <- (map_id row) at 2. apply map_ext. intros p. apply map_id.
Qed.

(** A constant array only depends on the shape it is laid over. *)
Lemma nd_const_same_dims {C} (c : C) (a b : ndarray byte) :
  rgb a -> rgb b -> same_dims a b ->
  nd_map (fun _ => c) a = nd_map (fun _ => c) b.
Proof.
  unfold rgb, same_dims, nd_map. intros Ha Hb Hab.
  induction Hab as [|r1 r2 a b Hlen _ IH]; [reflexivity|].
  apply Forall_cons in Ha as [Hr1 Ha]. apply Forall_cons in Hb as [Hr2 Hb].
  simpl. f_equal; [|exact (IH Ha Hb)].
  clear IH Ha Hb. revert r2 Hlen Hr2.
  induction r1 as [|p r1 IH]; intros [|q r2] Hlen Hr2; try discriminate;
    [reflexivity|].
  apply Forall_cons in Hr1 as [Hp Hr1]. apply Forall_cons in Hr2 as [Hq Hr2].
  simpl. f_equal; [|apply IH; [assumption|simpl in Hlen; lia|assumption]].
  destruct p as [|? [|? [|? [|? ?]]]]; try discriminate.
  destruct q as [|? [|? [|? [|? ?]]]]; try discriminate.
  reflexivity.
Qed.

(** The stacked weights of a constant mask, laid over the image. *)
Lemma alpha_3d_const (v : byte) (mask : ndarray2 byte) (a : ndarray byte)
    (f : byte -> f32) :
  rgb a -> same_dims mask a -> mask_all v mask ->
  map (map (fun x => [x; x; x])) (map (map f) mask)
  = nd_map (fun _ => f v) a.
Proof.
  unfold rgb, same_dims, mask_all, nd_map. intros Ha Hdims Hall.
  induction Hdims as [|mrow row mask a Hlen _ IH]; [reflexivity|].
  apply Forall_cons in Ha as [Hrow Ha].
  apply Forall_cons in Hall as [Hmrow Hall].
  simpl. f_equal; [|exact (IH Ha Hall)].
  clear IH Ha Hall. revert row Hlen Hrow.
  induction mrow as [|m mrow IH]; intros [|p row] Hlen Hrow; try discriminate;
    [reflexivity|].
  apply Forall_cons in Hmrow as [<- Hmrow].
  apply Forall_cons in Hrow as [Hp Hrow].
  simpl. f_equal; [|apply IH; [assumption|simpl in Hlen; lia|assumption]].
  destruct p as [|? [|? [|? [|? ?]]]]; try discriminate. reflexivity.
Qed.

(** C7: on RGB images of equal dimensions and a mask of those dimensions,
    a mask of 255 everywhere gives back the warped photo and a mask of 0
    everywhere gives back the original texture, pixel for pixel. *)
Theorem blend_extreme_masks (warped_face original : ndarray byte)
    (face_mask : ndarray2 byte) :
  rgb warped_face -> rgb original ->
  same_dims warped_face original ->
  same_dims face_mask warped_face ->
  (mask_all xff face_mask ->
   blend warped_face face_mask original = Ok warped_face) /\
  (mask_all x00 face_mask ->
   blend warped_face face_mask original = Ok original).
Proof.
  intros Hw Ho Hdims Hmask. split; intros Hall; unfold blend.
  - rewrite (alpha_3d_const xff face_mask warped_face _ Hw Hmask Hall).
    rewrite alpha_255, nd_map_map, one_minus_one.
    rewrite (nd_const_same_dims f32_zero warped_face original Hw Ho Hdims).
    rewrite !nd_binop_same. simpl.
    rewrite (nd_map_ext _ astype_float32 warped_face) by apply f32_mul_one.
    rewrite (nd_map_ext _ (fun _ => f32_zero) original) by apply f32_mul_zero.
    rewrite <- (nd_const_same_dims f32_zero warped_face original Hw Ho Hdims).
    rewrite nd_binop_same. simpl. f_equal.
    rewrite nd_map_map. rewrite <- (nd_map_id warped_face) at 2.
    apply nd_map_ext. intros b.
    rewrite f32_add_zero_r. apply astype_uint8_float32.
  - rewrite (alpha_3d_const x00 face_mask warped_face _ Hw Hmask Hall).
    rewrite alpha_0, nd_map_map, one_minus_zero.
    rewrite (nd_const_same_dims (f32_of_Z 1) warped_face original Hw Ho Hdims).
    rewrite !nd_binop_same. simpl.
    rewrite (nd_map_ext _ (fun _ => f32_zero) warped_face)
      by apply f32_mul_zero.
    rewrite (nd_map_ext _ astype_float32 original) by apply f32_mul_one.
    rewrite (nd_const_same_dims f32_zero warped_face original Hw Ho Hdims).
    rewrite nd_binop_same. simpl. f_equal.
    rewrite nd_map_map. rewrite <- (nd_map_id original) at 2.
    apply nd_map_ext. intros b.
    rewrite f32_add_zero_l. apply astype_uint8_float32.
Qed.

(** ** The patch path *)

Section PatchProperties.
Context `{Externals}.

Lemma find_skin_image_index_no_match (g : GLTF2.t) :
  forallb (fun mesh => negb (is_head_mesh mesh)) (GLTF2.meshes g) = true ->
  forallb (fun mat => negb (is_skin_material mat)) (GLTF2.materials g) = true ->
  _find_skin_image_index g = (Ok None, g).
Proof.
  intros Hmeshes Hmats.
  rewrite forallb_forall in Hmeshes. rewrite forallb_forall in Hmats.
  unfold _find_skin_image_index.
  unfold bind at 1. unfold gets at 1. unfold bind at 1.
  rewrite (for_return_first _ _ (fun _ => None)).
  2:{ apply Forall_forall. intros mesh Hmesh%list_elem_of_In.
      specialize (Hmeshes mesh Hmesh). unfold is_head_mesh in Hmeshes.
      destruct (contains _ _); [discriminate|reflexivity]. }
  replace (first_resolved (fun _ : Mesh.t => None) (GLTF2.meshes g))
    with (@None Z) by (symmetry; apply first_resolved_None, Forall_forall; auto).
  unfold bind at 1. unfold gets at 1. unfold bind at 1.
  rewrite (for_return_first _ _ (fun _ => None)).
  2:{ apply Forall_forall. intros mat Hmat%list_elem_of_In.
      specialize (Hmats mat Hmat). unfold is_skin_material in Hmats.
      destruct (contains _ _); [discriminate|reflexivity]. }
  replace (first_resolved (fun _ : Material.t => None) (GLTF2.materials g))
    with (@None Z) by (symmetry; apply first_resolved_None, Forall_forall; auto).
  reflexivity.
Qed.

(** C6: when no mesh is named like a head and no material like skin, the
    patch path prints that no face texture was found, returns [False],
    and leaves every file as it was: no output file is created. *)
Theorem replace_texture_no_face_texture (w : World)
    (template_path output_path : string)
    (warped_face : ndarray byte) (face_mask : ndarray2 byte) (g : GLTF2.t) :
  pygltflib_installed w = true ->
  files w !! template_path = Some (GLBFile g) ->
  forallb (fun mesh => negb (is_head_mesh mesh)) (GLTF2.meshes g) = true ->
  forallb (fun mat => negb (is_skin_material mat)) (GLTF2.materials g) = true ->
  exists w',
    replace_texture_in_glb template_path warped_face face_mask output_path w
      = (Ok false, w') /\
    stderr w' = stderr w ++ [Error_no_suitable_face_skin_texture] /\
    files w' = files w /\
    files w' !! output_path = files w !! output_path.
Proof.
  intros Hinst Hfile Hmeshes Hmats.
  eexists. split.
  - unfold replace_texture_in_glb, GLTF2_load, on_local, eprint. st_unfold.
    rewrite Hinst. simpl. rewrite Hfile.
    rewrite (find_skin_image_index_no_match g Hmeshes Hmats).
    reflexivity.
  - simpl. auto.
Qed.

(** Without a blob the extraction never yields a texture. *)
Lemma extract_glb_image_without_blob (g : GLTF2.t) (idx : Z) :
  GLTF2.binary_blob g = None ->
  (exists e, _extract_glb_image idx g = (Raised e, g)) \/
  _extract_glb_image idx g = (Ok None, g).
Proof.
  intros Hblob. unfold _extract_glb_image. st_unfold.
  destruct (py_getitem (GLTF2.images g) idx) as [image|e]; [|eauto].
  destruct (Image.bufferView image) as [bvi|]; [|auto].
  destruct (py_getitem (GLTF2.bufferViews g) bvi) as [bv|e]; [|eauto].
  rewrite Hblob. eauto.
Qed.

Lemma extract_glb_image_TypeError (g : GLTF2.t) (idx bvi : Z) bv :
  GLTF2.binary_blob g = None ->
  image_view g idx bvi bv ->
  _extract_glb_image idx g = (Raised TypeError, g).
Proof.
  intros Hblob (image & Himg & Hbvi & Hbv).
  unfold _extract_glb_image. st_unfold.
  rewrite Himg, Hbvi, Hbv, Hblob. reflexivity.
Qed.

(** On a template without a binary blob the patch path does not report
    success, whichever step fails first, and it writes no file; when the
    locator finds no face texture, that is the failure signalled. *)
Theorem replace_texture_without_blob (w : World)
    (template_path output_path : string)
    (warped_face : ndarray byte) (face_mask : ndarray2 byte) (g : GLTF2.t) :
  files w !! template_path = Some (GLBFile g) ->
  GLTF2.binary_blob g = None ->
  exists r w',
    replace_texture_in_glb template_path warped_face face_mask output_path w
      = (r, w') /\
    r <> Ok true /\
    files w' = files w /\
    files w' !! output_path = files w !! output_path /\
    (pygltflib_installed w = true ->
     fst (_find_skin_image_index g) = Ok None ->
     r = Ok false /\
     stderr w' = stderr w ++ [Error_no_suitable_face_skin_texture]).
Proof.
  intros Hfile Hblob.
  unfold replace_texture_in_glb, GLTF2_load, on_local, eprint. st_unfold.
  destruct (pygltflib_installed w) eqn:Hinst; simpl.
  2:{ eexists _, _. split; [reflexivity|]. repeat split; discriminate. }
  rewrite Hfile.
  pose proof (find_skin_image_index_read_only g) as Hro.
  destruct (_find_skin_image_index g) as [[[idx|]|e] g1] eqn:Hfind;
    simpl in Hro; subst g1.
  - destruct (extract_glb_image_without_blob g idx Hblob) as [[e He]|He];
      rewrite He; eexists _, _; (split; [reflexivity|]);
      repeat split; discriminate.
  - eexists _, _. split; [reflexivity|]. repeat split; discriminate.
  - eexists _, _. split; [reflexivity|]. repeat split; discriminate.
Qed.

(** When the face image of a blob-less template is located and stored in
    a view, the call ends in the [TypeError] of reading the absent blob. *)
Lemma replace_texture_without_blob_TypeError (w : World)
    (template_path output_path : string)
    (warped_face : ndarray byte) (face_mask : ndarray2 byte) (g : GLTF2.t)
    (idx bvi : Z) (bv : BufferView.t) :
  pygltflib_installed w = true ->
  files w !! template_path = Some (GLBFile g) ->
  GLTF2.binary_blob g = None ->
  fst (_find_skin_image_index g) = Ok (Some idx) ->
  image_view g idx bvi bv ->
  replace_texture_in_glb template_path warped_face face_mask output_path w
    = (Raised TypeError, w).
Proof.
  intros Hinst Hfile Hblob Hfind Hview.
  unfold replace_texture_in_glb, GLTF2_load, on_local. st_unfold.
  rewrite Hinst. simpl. rewrite Hfile.
  pose proof (find_skin_image_index_read_only g) as Hro.
  destruct (_find_skin_image_index g) as [r g1]; simpl in *; subst.
  rewrite (extract_glb_image_TypeError g idx bvi bv Hblob Hview).
  reflexivity.
Qed.
End PatchProperties.

(** ** The standalone builder *)

Lemma align4_eq (n : Z) : align4 n = 4 * ((n + 3) / 4).
Proof.
  unfold align4. change 3 with (Z.ones 2) at 2.
  rewrite <- Z.ldiff_land, Z.ldiff_ones_r by lia.
  rewrite Z.shiftr_div_pow2, Z.shiftl_mul_pow2 by lia.
  change (2 ^ 2) with 4. lia.
Qed.

Lemma align4_bounds (n : Z) : n <= align4 n < n + 4 /\ align4 n mod 4 = 0.
Proof.
  rewrite align4_eq.
  pose proof (Z.div_mod (n + 3) 4 ltac:(lia)).
  pose proof (Z.mod_pos_bound (n + 3) 4 ltac:(lia)).
  split; [lia|].
  rewrite Z.mul_comm. apply Z.mod_mul. lia.
Qed.

Lemma py_slice_middle {A} (l1 l2 l3 : list A) :
  py_slice (l1 ++ l2 ++ l3) (len l1) (len l1 + len l2) = l2.
Proof.
  unfold len. rewrite py_slice_in_range.
  - rewrite drop_app_length' by lia.
    apply take_app_length'. lia.
  - lia.
  - unfold len. rewrite !length_app. lia.
Qed.

Lemma standalone_gltf_layout (png : list byte) :
  standalone_layout (standalone_gltf png) png.
Proof.
  unfold standalone_layout, standalone_gltf. cbv zeta.
  set (ib := tobytes_uint16 indices).
  set (vb := tobytes_float32 vertices).
  set (ub := tobytes_float32 uvs).
  assert (Hib : len ib = 12) by reflexivity.
  assert (Hvb : len vb = 48) by reflexivity.
  assert (Hub : len ub = 32) by reflexivity.
  rewrite Hib, Hvb, Hub.
  change (zero_bytes (align4 12 - 12)) with (@nil byte).
  change (zero_bytes (align4 48 - 48)) with (@nil byte).
  change (zero_bytes (align4 32 - 32)) with (@nil byte).
  rewrite !app_nil_r, app_nil_l.
  assert (H1 : len (ib ++ vb) = 60) by (unfold len in *; rewrite length_app; lia).
  assert (H2 : len ((ib ++ vb) ++ ub) = 92)
    by (unfold len in *; rewrite length_app; lia).
  rewrite Hib, H1, H2.
  destruct (align4_bounds (len png)) as [Hb Hm].
  assert (Hpng : 0 <= len png) by (unfold len; lia).
  pose proof (zero_bytes_length (align4 (len png) - len png) ltac:(lia)) as Hz.
  set (pad := zero_bytes (align4 (len png) - len png)) in *.
  assert (Hall : len ((((ib ++ vb) ++ ub) ++ png) ++ pad) = 92 + align4 (len png)).
  { unfold len in *. rewrite !length_app in *. lia. }
  clearbody ib vb ub pad.
  set (blob := (((ib ++ vb) ++ ub) ++ png) ++ pad) in *.
  assert (E0 : blob = [] ++ ib ++ (vb ++ ub ++ png ++ pad))
    by (unfold blob; rewrite <- ?app_assoc; reflexivity).
  assert (E1 : blob = ib ++ vb ++ (ub ++ png ++ pad))
    by (unfold blob; rewrite <- ?app_assoc; reflexivity).
  assert (E2 : blob = (ib ++ vb) ++ ub ++ (png ++ pad))
    by (unfold blob; rewrite <- ?app_assoc; reflexivity).
  assert (E3 : blob = ((ib ++ vb) ++ ub) ++ png ++ pad)
    by (unfold blob; rewrite <- ?app_assoc; reflexivity).
  clearbody blob.
  exists blob. eexists _, _, _, _, _.
  split; [reflexivity|]. split; [reflexivity|]. split; [reflexivity|].
  unfold view_bytes, packed_after. simpl.
  split.
  { rewrite E0. change 0 with (len (@nil byte)) at 1.
    replace 12 with (len (@nil byte) + len ib) by (rewrite Hib; reflexivity).
    apply py_slice_middle. }
  split.
  { rewrite E1. rewrite <- Hib at 1.
    replace (12 + 48) with (len ib + len vb) by lia.
    apply py_slice_middle. }
  split.
  { rewrite E2. rewrite <- H1 at 1.
    replace (60 + 32) with (len (ib ++ vb) + len ub) by lia.
    apply py_slice_middle. }
  split.
  { rewrite E3. rewrite <- H2. apply py_slice_middle. }
  split; [reflexivity|].
  split; [lia|]. split; [lia|]. split; [lia|].
  split.
  { rewrite Hall. repeat constructor; simpl; lia. }
  reflexivity.
Qed.

Section StandaloneProperties.
Context `{Externals}.

Ltac run_standalone :=
  unfold generate_standalone_avatar, save_png, GLTF2_save, write_file,
    import_pygltflib, eprint; st_unfold; simpl.

(** C9: a container written by the standalone builder holds four views
    (indices, positions, UVs, image bytes) packed one after the other in
    the blob, each at a multiple of four and inside the declared length of
    the buffer, which is the length of the blob. *)
Theorem generate_standalone_avatar_layout (w w' : World)
    (image_path output_path : string) (face_texture : ndarray byte) :
  generate_standalone_avatar image_path face_texture output_path w
    = (Ok true, w') ->
  exists g png,
    png_encode face_texture = Ok png /\
    files w' !! output_path = Some (GLBFile g) /\
    standalone_layout g png.
Proof.
  run_standalone.
  destruct (png_encode face_texture) as [png|e]; simpl; [|discriminate].
  destruct (writable w _); simpl; [|discriminate].
  destruct (pygltflib_installed w); simpl; [|discriminate].
  destruct (writable w output_path); simpl; [|discriminate].
  intros [= <-]. simpl.
  exists (standalone_gltf png), png.
  split; [reflexivity|]. split; [apply lookup_insert_eq|].
  apply standalone_gltf_layout.
Qed.

End StandaloneProperties.

(** ** The theorems at work on the samples *)

Lemma sample_image_view : image_view sample_gltf 0 0 sample_view.
Proof. eexists. repeat split; reflexivity. Defined.

Lemma patch_in_place_writes_sample :
  image_view sample_gltf 0 0 sample_view /\
  view_in_blob sample_view sample_blob /\
  len [xaa; xbb; xcc] <= BufferView.byteLength sample_view /\
  exists g' blob' bv',
    patch_binary_blob 0 [xaa; xbb; xcc] sample_gltf = (Ok tt, g') /\
    GLTF2.binary_blob g' = Some blob' /\
    py_getitem (GLTF2.bufferViews g') 0 = Ok bv' /\
    py_slice blob' 4 (4 + 3) = [xaa; xbb; xcc] /\
    py_slice blob' (4 + 3) (4 + 6) = zero_bytes (6 - 3) /\
    BufferView.byteLength bv' = 3 /\
    BufferView.byteOffset bv' = 4.
Proof.
  split; [exact sample_image_view|].
  split; [unfold view_in_blob; simpl; vm_compute; split; discriminate|].
  split; [vm_compute; discriminate|].
  apply (patch_in_place_writes sample_gltf 0 [xaa; xbb; xcc] 0
           sample_view sample_blob).
  - exact sample_image_view.
  - reflexivity.
  - unfold view_in_blob; simpl; vm_compute; split; discriminate.
  - vm_compute; discriminate.
Defined.

Lemma patch_in_place_frame_sample :
  image_view sample_gltf 0 0 sample_view /\
  view_in_blob sample_view sample_blob /\
  len [xaa; xbb; xcc] <= BufferView.byteLength sample_view /\
  exists g' blob',
    patch_binary_blob 0 [xaa; xbb; xcc] sample_gltf = (Ok tt, g') /\
    GLTF2.binary_blob g' = Some blob' /\
    len blob' = len sample_blob /\
    GLTF2.buffers g' = GLTF2.buffers sample_gltf.
Proof.
  split; [exact sample_image_view|].
  split; [unfold view_in_blob; simpl; vm_compute; split; discriminate|].
  split; [vm_compute; discriminate|].
  destruct (patch_in_place_frame sample_gltf 0 [xaa; xbb; xcc] 0
              sample_view sample_blob)
    as (g' & blob' & Hrun & Hblob & Hlen & _ & _ & Hbufs & _).
  - exact sample_image_view.
  - reflexivity.
  - unfold view_in_blob; simpl; vm_compute; split; discriminate.
  - vm_compute; discriminate.
  - exists g', blob'. auto.
Defined.

Lemma patch_relocate_appends_sample :
  image_view sample_gltf 0 0 sample_view /\
  BufferView.byteLength sample_view
    < len [xa1; xa2; xa3; xa4; xa5; xa6; xa7] /\
  BufferView.buffer sample_view = 0 /\
  GLTF2.buffers sample_gltf <> [] /\
  exists g' bv' bf',
    patch_binary_blob 0 [xa1; xa2; xa3; xa4; xa5; xa6; xa7] sample_gltf
      = (Ok tt, g') /\
    py_getitem (GLTF2.bufferViews g') 0 = Ok bv' /\
    BufferView.byteOffset bv' = 16 /\
    BufferView.byteLength bv' = 7 /\
    py_getitem (GLTF2.buffers g') (BufferView.buffer bv') = Ok bf' /\
    Buffer.byteLength bf' = 23.
Proof.
  split; [exact sample_image_view|].
  split; [vm_compute; reflexivity|].
  split; [reflexivity|].
  split; [discriminate|].
  destruct (patch_relocate_appends sample_gltf 0
              [xa1; xa2; xa3; xa4; xa5; xa6; xa7] 0 sample_view sample_blob)
    as (g' & bv' & bf' & Hrun & _ & _ & Hbv & Hoff & _ & Hlen & Hbf & Hdecl).
  - exact sample_image_view.
  - reflexivity.
  - vm_compute; reflexivity.
  - reflexivity.
  - discriminate.
  - exists g', bv', bf'.
    split; [exact Hrun|]. split; [exact Hbv|].
    split; [rewrite Hoff; vm_compute; reflexivity|].
    split; [rewrite Hlen; reflexivity|].
    split; [exact Hbf|].
    rewrite Hdecl. vm_compute. reflexivity.
Defined.

(** Outside the invariant: when the view overruns the blob, the slice
    assignments of the in-place branch make the blob grow. *)
Example patch_in_place_overrun :
  let g := GLTF2.set_bufferViews [BufferView.mk 0 4 20 None] sample_gltf in
  exists g' blob',
    patch_binary_blob 0 (replicate 12 xaa) g = (Ok tt, g') /\
    GLTF2.binary_blob g' = Some blob' /\
    len sample_blob = 13 /\ len blob' = 24.
Proof. eexists _, _. repeat split; vm_compute; reflexivity. Qed.

Lemma find_skin_image_index_order_sample :
  references_ok sample_gltf = true /\
  @_find_skin_image_index toy_externals sample_gltf = (Ok (Some 0), sample_gltf).
Proof.
  split; [reflexivity|].
  exact (proj1 (@find_skin_image_index_order toy_externals sample_gltf eq_refl)).
Defined.

Lemma replace_texture_no_face_texture_sample :
  pygltflib_installed (world_with plain_gltf) = true /\
  files (world_with plain_gltf) !! "template.glb"%string
    = Some (GLBFile plain_gltf) /\
  forallb (fun mesh => negb (@is_head_mesh toy_externals mesh))
    (GLTF2.meshes plain_gltf) = true /\
  forallb (fun mat => negb (@is_skin_material toy_externals mat))
    (GLTF2.materials plain_gltf) = true /\
  exists w',
    @replace_texture_in_glb toy_externals "template.glb" sample_photo
      [[xff; xff]] "avatar.glb" (world_with plain_gltf) = (Ok false, w') /\
    stderr w' = [Error_no_suitable_face_skin_texture] /\
    files w' !! "avatar.glb"%string = None.
Proof.
  split; [reflexivity|]. split; [vm_compute; reflexivity|].
  split; [reflexivity|]. split; [reflexivity|].
  destruct (@replace_texture_no_face_texture toy_externals
              (world_with plain_gltf) "template.glb" "avatar.glb"
              sample_photo [[xff; xff]] plain_gltf)
    as (w' & Hrun & Herr & Hfiles & Hout).
  - reflexivity.
  - vm_compute. reflexivity.
  - reflexivity.
  - reflexivity.
  - exists w'. split; [exact Hrun|]. split; [exact Herr|].
    rewrite Hout. vm_compute. reflexivity.
Defined.

Lemma replace_texture_without_blob_sample :
  files (world_with sample_gltf_no_blob) !! "template.glb"%string
    = Some (GLBFile sample_gltf_no_blob) /\
  GLTF2.binary_blob sample_gltf_no_blob = None /\
  exists r w',
    @replace_texture_in_glb toy_externals "template.glb" sample_photo
      [[xff; xff]] "avatar.glb" (world_with sample_gltf_no_blob) = (r, w') /\
    r <> Ok true /\
    files w' = files (world_with sample_gltf_no_blob).
Proof.
  split; [vm_compute; reflexivity|].
  split; [reflexivity|].
  destruct (@replace_texture_without_blob toy_externals
              (world_with sample_gltf_no_blob) "template.glb" "avatar.glb"
              sample_photo [[xff; xff]] sample_gltf_no_blob)
    as (r & w' & Hrun & Hr & Hfiles & _ & _).
  - vm_compute. reflexivity.
  - reflexivity.
  - exists r, w'. auto.
Defined.

(** C5: the sample template stored without its binary section.  Its face
    image is located and refers to a buffer view, and the patch path
    signals no error of its own for the missing blob: the extraction step
    subscripts the absent blob (line 197) before the guard of line 258 is
    reached, and the call ends in that uncaught [TypeError].  No file is
    written and nothing is printed on standard error. *)
Example replace_texture_without_blob_raises :
  @replace_texture_in_glb toy_externals "template.glb" sample_photo
    [[xff; xff]] "avatar.glb" (world_with sample_gltf_no_blob)
  = (Raised TypeError, world_with sample_gltf_no_blob).
Proof.
  apply (replace_texture_without_blob_TypeError _ _ _ _ _
           sample_gltf_no_blob 0 0 sample_view).
  - reflexivity.
  - vm_compute. reflexivity.
  - reflexivity.
  - reflexivity.
  - eexists. repeat split; reflexivity.
Qed.

Lemma blend_extreme_masks_sample :
  let original := [[[x01; x02; x03]; [x04; x05; x06]]] in
  rgb sample_photo /\ rgb original /\
  same_dims sample_photo original /\
  same_dims [[xff; xff]] sample_photo /\
  mask_all xff [[xff; xff]] /\
  blend sample_photo [[xff; xff]] original = Ok sample_photo.
Proof.
  intros original.
  assert (Hw : rgb sample_photo) by (repeat constructor).
  assert (Ho : rgb original) by (repeat constructor).
  assert (Hd : same_dims sample_photo original) by (repeat constructor).
  assert (Hm : same_dims [[xff; xff]] sample_photo) by (repeat constructor).
  assert (Ha : mask_all xff [[xff; xff]]) by (repeat constructor).
  repeat (split; [assumption|]).
  exact (proj1 (blend_extreme_masks sample_photo original [[xff; xff]]
                  Hw Ho Hd Hm) Ha).
Defined.

Lemma generate_standalone_avatar_layout_sample :
  exists w' g png,
    @generate_standalone_avatar toy_externals "photo.jpg" sample_photo
      "avatar.glb" (world_with plain_gltf) = (Ok true, w') /\
    files w' !! "avatar.glb"%string = Some (GLBFile g) /\
    standalone_layout g png.
Proof.
  eexists.
  assert (Hrun : @generate_standalone_avatar toy_externals "photo.jpg"
                   sample_photo "avatar.glb" (world_with plain_gltf)
                 = (Ok true, snd (@generate_standalone_avatar toy_externals
                      "photo.jpg" sample_photo "avatar.glb"
                      (world_with plain_gltf)))).
  { vm_compute. reflexivity. }
  destruct (@generate_standalone_avatar_layout toy_externals _ _ _ _ _ Hrun)
    as (g & png & _ & Hfile & Hlayout).
  exists g, png. split; [exact Hrun|]. split; assumption.
Defined.

(** A template with neither a blob nor a face texture: the failure that
    is reported is the missing face texture, by a [False] return, and not
    an error about the blob. *)
Lemma replace_texture_without_blob_reports_no_face :
  GLTF2.binary_blob plain_gltf = None /\
  files (world_with plain_gltf) !! "template.glb"%string
    = Some (GLBFile plain_gltf) /\
  @replace_texture_in_glb toy_externals "template.glb" sample_photo
    [[xff; xff]] "avatar.glb" (world_with plain_gltf)
  = (Ok false,
     mkWorld (files (world_with plain_gltf))
       [Error_no_suitable_face_skin_texture] true
       (writable (world_with plain_gltf))).
Proof. repeat split; vm_compute; reflexivity. Qed.

(** The standalone fallback on a machine without pygltflib: the PNG is on
    disk, the call returns [False], no container is written. *)
Example generate_standalone_without_pygltflib :
  let w := mkWorld ∅ [] false (fun _ => true) in
  exists w',
    @generate_standalone_avatar toy_externals "photo.jpg" sample_photo
      "avatar.glb" w = (Ok false, w') /\
    files w' !! "avatar.png"%string
      = Some (RawFile [x0a; x14; x1e; x28; x32; x3c]) /\
    files w' !! "avatar.glb"%string = None /\
    stderr w' = [Warning_no_template "avatar.png"; Warning_provide_template;
                 Warning_could_not_create_standalone ImportError].
Proof. eexists. repeat split; vm_compute; reflexivity. Qed.

(** ** The model at work on small inputs *)

Example py_slice_assign_past_the_end :
  py_slice_assign [x01; x02; x03; x04] 2 7 (replicate 5 xff)
  = [x01; x02; xff; xff; xff; xff; xff].
Proof. reflexivity. Qed.

Example py_slice_assign_beyond :
  py_slice_assign [x01; x02; x03; x04] 10 13 [x09; x09; x09]
  = [x01; x02; x03; x04; x09; x09; x09].
Proof. reflexivity. Qed.

Example py_slice_assign_negative :
  py_slice_assign [x01; x02; x03; x04] (-3) (-1) [x09] = [x01; x09; x04].
Proof. reflexivity. Qed.

Example py_getitem_last : py_getitem [x01; x02; x03] (-1) = Ok x03.
Proof. reflexivity. Qed.

Example py_getitem_out_of_range :
  py_getitem [x01; x02; x03] 3 = Raised IndexError.
Proof. reflexivity. Qed.

Example str_replace_every_occurrence :
  str_replace ".glb" ".png" "out/a.glb.glbx.gl" = "out/a.png.pngx.gl"%string.
Proof. reflexivity. Qed.

Example contains_head :
  contains "head" (string_lower "Wolf3D_Head") = true /\
  contains "head" (string_lower "Wolf3D_Hair") = false.
Proof. split; reflexivity. Qed.

Example pad_loop_13 :
  pad_loop sample_blob 13 = (sample_blob ++ [x00; x00; x00], 16).
Proof. reflexivity. Qed.

Example align4_values :
  align4 0 = 0 /\ align4 5 = 8 /\ align4 8 = 8 /\ align4 12 = 12.
Proof. repeat split; reflexivity. Qed.

(** [-0.5], [0.5] and [1.0] in binary32. *)
Example f32_bits_values :
  map f32_bits [f32_ldexp (-1) (-1); f32_ldexp 1 (-1); f32_of_Z 1; f32_of_Z 0]
  = [3204448256; 1056964608; 1065353216; 0].
Proof. vm_compute. reflexivity. Qed.

Example tobytes_indices :
  tobytes_uint16 indices
  = [x00; x00; x01; x00; x02; x00; x00; x00; x02; x00; x03; x00].
Proof. vm_compute. reflexivity. Qed.

(** A half-open mask: 200 * (128/255) + 0 * (1 - 128/255) = 100.39..., cut
    to 100; 100 * (128/255) + 255 * (1 - 128/255) = 177.19..., cut to 177;
    16 * (1 - 128/255) = 7.96..., cut to 7. *)
Example blend_half_mask :
  blend [[[xc8; x64; x00]]] [[x80]] [[[x00; xff; x10]]]
  = Ok [[[x64; xb1; x07]]].
Proof. vm_compute. reflexivity. Qed.

Example blend_shape_mismatch :
  blend sample_photo [[xff; xff; xff]] sample_photo = Raised ValueError.
Proof. vm_compute. reflexivity. Qed.

(** The whole patch path on the sample template: the blended texture is
    as long as the one it replaces (six bytes), so it is written in place,
    and the container is saved. *)
Example replace_texture_on_sample :
  exists w' g',
    @replace_texture_in_glb toy_externals "template.glb" sample_photo
      [[xff; xff]] "avatar.glb" (world_with sample_gltf) = (Ok true, w') /\
    files w' !! "avatar.glb"%string = Some (GLBFile g') /\
    GLTF2.binary_blob g'
      = Some [x01; x02; x03; x04; x0a; x14; x1e; x28; x32; x3c; x0b; x0c; x0d] /\
    GLTF2.images g' = [Image.mk (Some 0) (Some "image/png"%string)] /\
    GLTF2.bufferViews g' = [sample_view].
Proof. eexists _, _. repeat split; vm_compute; reflexivity. Qed.


(** * Further properties *)

(** ** What the patch leaves alone *)

Lemma update_at_map_preserved {A B} (p : A -> B) (f : A -> A) (l : list A) (i : Z) :
  (forall x, p (f x) = p x) -> map p (update_at l i f) = map p l.
Proof.
  intros Hp. unfold update_at.
  destruct (py_norm_index l i) as [j|]; [|reflexivity].
  destruct (l !! j) as [x|] eqn:Hj; [|reflexivity].
  change (p <$> <[j:=f x]> l = p <$> l).
  rewrite list_fmap_insert, Hp. apply list_insert_id.
  rewrite list_lookup_fmap, Hj. reflexivity.
Qed.

(** X1: whatever its arguments, and also when it raises, the patch block
    leaves the meshes, materials, textures, accessors, nodes and scenes of
    the container as they were, and no image changes the view it refers
    to. *)
Theorem patch_keeps_the_graph (g : GLTF2.t) (idx : Z) (png : list byte) :
  let g' := snd (patch_binary_blob idx png g) in
  GLTF2.asset g' = GLTF2.asset g /\
  GLTF2.scene g' = GLTF2.scene g /\
  GLTF2.scenes g' = GLTF2.scenes g /\
  GLTF2.nodes g' = GLTF2.nodes g /\
  GLTF2.meshes g' = GLTF2.meshes g /\
  GLTF2.materials g' = GLTF2.materials g /\
  GLTF2.textures g' = GLTF2.textures g /\
  GLTF2.accessors g' = GLTF2.accessors g /\
  map Image.bufferView (GLTF2.images g') = map Image.bufferView (GLTF2.images g) /\
  map BufferView.buffer (GLTF2.bufferViews g')
    = map BufferView.buffer (GLTF2.bufferViews g).
Proof.
  unfold patch_binary_blob. st_unfold.
  destruct (py_getitem (GLTF2.images g) idx) as [image|e];
    [|simpl; repeat split; reflexivity].
  destruct (Image.bufferView image) as [bvi|];
    [|simpl; repeat split; reflexivity].
  destruct (py_getitem (GLTF2.bufferViews g) bvi) as [bv|e];
    [|simpl; repeat split; reflexivity].
  destruct (GLTF2.binary_blob g) as [blob|].
  - destruct (len png <=? BufferView.byteLength bv).
    + simpl. repeat split; try reflexivity.
      * apply update_at_map_preserved. reflexivity.
      * apply update_at_map_preserved. reflexivity.
    + destruct (pad_loop blob (len blob)) as [blob1 new_offset].
      destruct (GLTF2.buffers g) as [|bf rest] eqn:Hbufs; simpl;
        rewrite ?Hbufs; simpl; repeat split; try reflexivity;
        apply update_at_map_preserved; reflexivity.
  - simpl. repeat split; try reflexivity.
    apply update_at_map_preserved. reflexivity.
Qed.

(** ** Reading the container back after a patch *)

(** The three arenas the locator reads are out of the reach of the patch. *)
Lemma patch_keeps_graph_fields (g : GLTF2.t) (idx : Z) (png : list byte) :
  let g' := snd (patch_binary_blob idx png g) in
  GLTF2.meshes g' = GLTF2.meshes g /\
  GLTF2.materials g' = GLTF2.materials g /\
  GLTF2.textures g' = GLTF2.textures g.
Proof.
  unfold patch_binary_blob. st_unfold.
  destruct (py_getitem (GLTF2.images g) idx) as [image|e]; [|simpl; auto].
  destruct (Image.bufferView image) as [bvi|]; [|simpl; auto].
  destruct (py_getitem (GLTF2.bufferViews g) bvi) as [bv|e]; [|simpl; auto].
  destruct (GLTF2.binary_blob g) as [blob|]; [|simpl; auto].
  destruct (len png <=? BufferView.byteLength bv); [simpl; auto|].
  destruct (pad_loop blob (len blob)) as [blob1 new_offset].
  destruct (GLTF2.buffers g) as [|bf rest] eqn:Hbufs; simpl;
    rewrite ?Hbufs; simpl; auto.
Qed.


Section SameValue.
Context {S : Type}.

Lemma same_value_ret {A} (a : A) (s1 s2 : S) : same_value (ret a) s1 s2.
Proof. reflexivity. Qed.

Lemma same_value_lift_result {A} (r : result A) (s1 s2 : S) :
  same_value (lift_result r) s1 s2.
Proof. reflexivity. Qed.

Lemma same_value_gets {A} (f : S -> A) (s1 s2 : S) :
  f s1 = f s2 -> same_value (gets f) s1 s2.
Proof. intros Hf. unfold same_value, gets. simpl. rewrite Hf. reflexivity. Qed.

Lemma same_value_bind {A B} (m : ST S A) (k : A -> ST S B) (s1 s2 : S) :
  read_only m -> same_value m s1 s2 ->
  (forall a, same_value (k a) s1 s2) ->
  same_value (bind m k) s1 s2.
Proof.
  intros Hro Hm Hk. unfold same_value, bind in *.
  pose proof (Hro s1) as H1. pose proof (Hro s2) as H2.
  destruct (m s1) as [r1 t1], (m s2) as [r2 t2]. simpl in *. subst.
  destruct r2 as [a|e]; [apply Hk|reflexivity].
Qed.

Lemma same_value_for_return {A R} (l : list A)
    (body : A -> ST S (option R)) (s1 s2 : S) :
  (forall x, read_only (body x)) ->
  (forall x, same_value (body x) s1 s2) ->
  same_value (for_return l body) s1 s2.
Proof.
  intros Hro Hbody. induction l as [|x l IH]; simpl.
  - apply same_value_ret.
  - apply same_value_bind; [apply Hro|apply Hbody|].
    intros [v|]; [apply same_value_ret|exact IH].
Qed.
End SameValue.

Section RoundTrip.
Context `{Externals}.

Lemma material_image_same_value mat (g1 g2 : GLTF2.t) :
  GLTF2.textures g1 = GLTF2.textures g2 ->
  same_value (material_image mat) g1 g2.
Proof.
  intros Ht. unfold material_image.
  destruct (Material.pbrMetallicRoughness mat) as [pbr|];
    [|apply same_value_ret].
  destruct (PbrMetallicRoughness.baseColorTexture pbr) as [bct|];
    [|apply same_value_ret].
  apply same_value_bind;
    [apply read_only_gets|apply same_value_gets; exact Ht|].
  intros textures. apply same_value_bind;
    [apply read_only_lift_result|apply same_value_lift_result|].
  intros tex. destruct (Texture.source tex); apply same_value_ret.
Qed.

(** The locator looks at the meshes, the materials and the textures, and
    at nothing else. *)
Lemma find_skin_image_index_same_value (g1 g2 : GLTF2.t) :
  GLTF2.meshes g1 = GLTF2.meshes g2 ->
  GLTF2.materials g1 = GLTF2.materials g2 ->
  GLTF2.textures g1 = GLTF2.textures g2 ->
  same_value _find_skin_image_index g1 g2.
Proof.
  intros Hme Hma Ht. unfold _find_skin_image_index.
  apply same_value_bind;
    [apply read_only_gets|apply same_value_gets; exact Hme|].
  intros meshes. apply same_value_bind.
  { read_only_tac; apply material_image_read_only. }
  { apply same_value_for_return.
    - intros mesh. read_only_tac; apply material_image_read_only.
    - intros mesh. destruct (contains _ _); [|apply same_value_ret].
      apply same_value_for_return.
      + intros prim. read_only_tac; apply material_image_read_only.
      + intros prim. destruct (Primitive.material prim) as [m|];
          [|apply same_value_ret].
        apply same_value_bind;
          [apply read_only_gets|apply same_value_gets; exact Hma|].
        intros materials. apply same_value_bind;
          [apply read_only_lift_result|apply same_value_lift_result|].
        intros mat. apply material_image_same_value. exact Ht. }
  intros [source|]; [apply same_value_ret|].
  apply same_value_bind;
    [apply read_only_gets|apply same_value_gets; exact Hma|].
  intros materials. apply same_value_bind.
  { read_only_tac; apply material_image_read_only. }
  { apply same_value_for_return.
    - intros mat. read_only_tac; apply material_image_read_only.
    - intros mat. destruct (contains _ _); [|apply same_value_ret].
      apply material_image_same_value. exact Ht. }
  intros [source|]; apply same_value_ret.
Qed.

Lemma extract_glb_image_run (g : GLTF2.t) (idx bvi : Z) bv blob :
  image_view g idx bvi bv ->
  GLTF2.binary_blob g = Some blob ->
  _extract_glb_image idx g = (decoded (view_bytes blob bv), g).
Proof.
  intros (image & Himg & Hbvi & Hbv) Hblob.
  unfold _extract_glb_image, decoded, view_bytes. st_unfold.
  rewrite Himg, Hbvi, Hbv, Hblob.
  destruct (png_decode _); reflexivity.
Qed.

(** The view of the face image after the patch, in both branches. *)
Lemma patch_result_view (g : GLTF2.t) (idx bvi : Z) bv blob (png : list byte) :
  image_view g idx bvi bv ->
  GLTF2.binary_blob g = Some blob ->
  (len png <= BufferView.byteLength bv -> view_in_blob bv blob) ->
  exists g' bv' blob',
    patch_binary_blob idx png g = (Ok tt, g') /\
    image_view g' idx bvi bv' /\
    GLTF2.binary_blob g' = Some blob' /\
    view_bytes blob' bv' = png.
Proof.
  intros Hview Hblob Hin.
  assert (Himages : forall f g0,
             image_view g0 idx bvi bv ->
             exists image',
               py_getitem (update_at (GLTF2.images g0) idx
                             (Image.set_mimeType f)) idx = Ok image' /\
               Image.bufferView image' = Some bvi).
  { intros f g0 (image & Himg & Hbvi & _).
    exists (Image.set_mimeType f image).
    split; [apply py_getitem_update_at_same; exact Himg|exact Hbvi]. }
  destruct (Z.leb_spec (len png) (BufferView.byteLength bv)) as [Hle|Hlt].
  - destruct (Hin Hle) as [Hoff Hend].
    eexists _, _, _. split; [apply patch_in_place_run; eassumption|].
    destruct (Himages (Some "image/png"%string) g Hview) as (image' & Hi & Hb).
    split; [|split; [reflexivity|]].
    + exists image'. simpl. split; [exact Hi|]. split; [exact Hb|].
      apply py_getitem_update_at_same.
      destruct Hview as (? & _ & _ & Hbv). exact Hbv.
    + unfold view_bytes. simpl.
      assert (0 <= len png) by (unfold len; lia).
      pose proof (in_place_blob_length blob png _ _ Hoff Hle Hend) as Hlen.
      rewrite py_slice_in_range by lia.
      rewrite in_place_blob_form by assumption.
      rewrite drop_app_length' by (rewrite length_take; unfold len in *; lia).
      replace (Z.to_nat (BufferView.byteOffset bv + len png
                         - BufferView.byteOffset bv))
        with (length png) by (unfold len; lia).
      apply take_app_length.
  - eexists _, _, _. split; [eapply patch_relocate_run; eassumption|].
    destruct (Himages (Some "image/png"%string) g Hview) as (image' & Hi & Hb).
    split; [|split; [reflexivity|]].
    + exists image'. simpl. split; [exact Hi|]. split; [exact Hb|].
      apply py_getitem_update_at_same.
      destruct Hview as (? & _ & _ & Hbv). exact Hbv.
    + unfold view_bytes. simpl. rewrite <- padded_length.
      rewrite <- (app_nil_r png) at 1. apply py_slice_middle.
Qed.

(** X2: after the patch, in place or relocated, the locator gives the
    same answer as before and the extraction step reads back exactly the
    bytes that were written: it decodes [png] and nothing else. *)
Theorem patch_then_extract (g : GLTF2.t) (idx bvi : Z) bv blob (png : list byte) :
  image_view g idx bvi bv ->
  GLTF2.binary_blob g = Some blob ->
  (len png <= BufferView.byteLength bv -> view_in_blob bv blob) ->
  exists g',
    patch_binary_blob idx png g = (Ok tt, g') /\
    fst (_find_skin_image_index g') = fst (_find_skin_image_index g) /\
    _extract_glb_image idx g' = (decoded png, g').
Proof.
  intros Hview Hblob Hin.
  destruct (patch_result_view g idx bvi bv blob png Hview Hblob Hin)
    as (g' & bv' & blob' & Hrun & Hview' & Hblob' & Hbytes).
  exists g'. split; [exact Hrun|].
  pose proof (patch_keeps_graph_fields g idx png) as Hframe.
  rewrite Hrun in Hframe. simpl in Hframe.
  destruct Hframe as (Hme & Hma & Ht).
  split.
  - apply find_skin_image_index_same_value; assumption.
  - rewrite (extract_glb_image_run g' idx bvi bv' blob' Hview' Hblob').
    rewrite Hbytes. reflexivity.
Qed.
End RoundTrip.

(** ** Relocation and the rest of the blob *)

Lemma py_slice_app_l {A} (l k : list A) (a b : Z) :
  0 <= a -> a <= b -> b <= len l -> py_slice (l ++ k) a b = py_slice l a b.
Proof.
  intros Ha Hab Hb.
  rewrite !py_slice_in_range by (unfold len in *; rewrite ?length_app; lia).
  rewrite <- (take_drop (Z.to_nat b) l) at 1.
  rewrite <- app_assoc, drop_app_le by (rewrite length_take; unfold len in *; lia).
  rewrite take_app_length'
    by (rewrite length_drop, length_take; unfold len in *; lia).
  rewrite <- (take_drop (Z.to_nat b) l) at 2.
  rewrite drop_app_le by (rewrite length_take; unfold len in *; lia).
  rewrite take_app_length'
    by (rewrite length_drop, length_take; unfold len in *; lia).
  reflexivity.
Qed.

(** X3: when the new texture is relocated, the old blob is kept whole at
    the front of the new one and no other view is touched, so every view
    that lay inside the old blob still designates the same bytes. *)
Theorem patch_relocate_keeps_other_bytes (g : GLTF2.t) (idx bvi : Z) bv blob
    (png : list byte) :
  image_view g idx bvi bv ->
  GLTF2.binary_blob g = Some blob ->
  BufferView.byteLength bv < len png ->
  exists g' blob',
    patch_binary_blob idx png g = (Ok tt, g') /\
    GLTF2.binary_blob g' = Some blob' /\
    take (length blob) blob' = blob /\
    (forall k : nat,
        py_norm_index (GLTF2.bufferViews g) bvi <> Some k ->
        GLTF2.bufferViews g' !! k = GLTF2.bufferViews g !! k) /\
    (forall v, view_fits v blob -> view_bytes blob' v = view_bytes blob v).
Proof.
  intros Hview Hblob Hlt.
  eexists _, _. split; [eapply patch_relocate_run; eassumption|].
  split; [reflexivity|]. simpl.
  split; [rewrite <- app_assoc; apply take_app_length|].
  split; [intros k Hk; apply update_at_other; exact Hk|].
  intros v (Hoff & Hlen & Hend). unfold view_bytes.
  rewrite <- app_assoc. apply py_slice_app_l; lia.
Qed.

(** ** The patch path as a whole *)

Section PatchPath.
Context `{Externals}.

Opaque shape.

Lemma extract_glb_image_Some_inv (g g1 : GLTF2.t) (idx : Z) (img : ndarray byte) :
  _extract_glb_image idx g = (Ok (Some img), g1) ->
  exists bvi bv blob,
    image_view g idx bvi bv /\
    GLTF2.binary_blob g = Some blob /\
    png_decode (view_bytes blob bv) = Ok img.
Proof.
  unfold _extract_glb_image, view_bytes, image_view. st_unfold.
  destruct (py_getitem (GLTF2.images g) idx) as [image|e] eqn:Himg;
    [|discriminate].
  destruct (Image.bufferView image) as [bvi|] eqn:Hbvi; [|discriminate].
  destruct (py_getitem (GLTF2.bufferViews g) bvi) as [bv|e] eqn:Hbv;
    [|discriminate].
  destruct (GLTF2.binary_blob g) as [blob|]; [|discriminate].
  destruct (png_decode _) as [img'|e] eqn:Hdec; [|discriminate].
  intros [= <- _]. exists bvi, bv, blob.
  split; [exists image; auto|]. split; [reflexivity|exact Hdec].
Qed.

Ltac run_replace :=
  unfold replace_texture_in_glb, GLTF2_load, GLTF2_save, write_file,
    on_local, eprint; st_unfold.

Ltac case_blend original blended Hblend :=
  match goal with
  | |- context [blend ?a ?b original] =>
      destruct (blend a b original) as [blended|?] eqn:Hblend
  end.

(** What a run that returns [True] went through. *)
Lemma replace_texture_success_inv (w w' : World)
    (template_path output_path : string)
    (warped_face : ndarray byte) (face_mask : ndarray2 byte) :
  replace_texture_in_glb template_path warped_face face_mask output_path w
    = (Ok true, w') ->
  exists g idx original blended png g',
    pygltflib_installed w = true /\
    files w !! template_path = Some (GLBFile g) /\
    _find_skin_image_index g = (Ok (Some idx), g) /\
    _extract_glb_image idx g = (Ok (Some original), g) /\
    blend (fst (blend_inputs warped_face face_mask original))
          (snd (blend_inputs warped_face face_mask original)) original
      = Ok blended /\
    png_encode blended = Ok png /\
    patch_binary_blob idx png g = (Ok tt, g') /\
    writable w output_path = true /\
    w' = set_files (<[output_path := GLBFile g']> (files w)) w.
Proof.
  run_replace.
  destruct (pygltflib_installed w) eqn:Hinst; simpl; [|discriminate].
  destruct (files w !! template_path) as [[data|g]|] eqn:Hfile; simpl;
    try discriminate.
  pose proof (find_skin_image_index_read_only g) as Hro.
  destruct (_find_skin_image_index g) as [[[idx|]|e] g1] eqn:Hfind;
    simpl in Hro; subst g1; try discriminate.
  pose proof (extract_glb_image_read_only idx g) as Hro.
  destruct (_extract_glb_image idx g) as [[[original|]|e] g1] eqn:Hext;
    simpl in Hro; subst g1; try discriminate.
  destruct (shape original) as [tex_h tex_w] eqn:Hshape.
  destruct (negb (fst (shape warped_face) =? tex_h)
            || negb (snd (shape warped_face) =? tex_w)) eqn:Hcond; simpl;
    (case_blend original blended Hblend; [|discriminate]);
    (destruct (png_encode blended) as [png|e] eqn:Henc; [|discriminate]);
    (destruct (patch_binary_blob idx png g) as [[[]|e] g'] eqn:Hpatch;
       [|discriminate]);
    (destruct (writable w output_path) eqn:Hw; [|discriminate]);
    intros [= <-]; exists g, idx, original, blended, png, g';
    unfold blend_inputs; rewrite Hshape, Hcond; simpl;
    repeat (split; [first [reflexivity|assumption]|]); reflexivity.
Qed.

(** The patch path changes neither what can be imported nor what can be
    written, and it leaves the files alone unless it returns [True]. *)
Lemma replace_texture_frame (w w' : World)
    (template_path output_path : string)
    (warped_face : ndarray byte) (face_mask : ndarray2 byte) r :
  replace_texture_in_glb template_path warped_face face_mask output_path w
    = (r, w') ->
  pygltflib_installed w' = pygltflib_installed w /\
  writable w' = writable w /\
  (r <> Ok true -> files w' = files w).
Proof.
  destruct r as [[|]|e].
  - intros Hrun. apply replace_texture_success_inv in Hrun
      as (g & idx & original & blended & png & g' & _ & _ & _ & _ & _ & _ & _ & _ & ->).
    split; [reflexivity|]. split; [reflexivity|]. congruence.
  - run_replace.
    destruct (pygltflib_installed w) eqn:Hinst; simpl;
      [|intros [= <-]; simpl; auto].
    destruct (files w !! template_path) as [[data|g]|]; simpl;
      try discriminate.
    destruct (_find_skin_image_index g) as [[[idx|]|e] g1]; simpl;
      try discriminate; [|intros [= <-]; simpl; auto].
    destruct (_extract_glb_image idx g1) as [[[original|]|e] g2]; simpl;
      try discriminate; [|intros [= <-]; simpl; auto].
    destruct (shape original) as [tex_h tex_w].
    destruct (negb _ || negb _); simpl;
      (case_blend original blended Hblend; [|discriminate]);
      (destruct (png_encode blended) as [png|e]; [|discriminate]);
      (destruct (patch_binary_blob idx png g2) as [[[]|e] g']; [|discriminate]);
      (destruct (writable w output_path); discriminate).
  - run_replace.
    destruct (pygltflib_installed w) eqn:Hinst; simpl; [|discriminate].
    destruct (files w !! template_path) as [[data|g]|]; simpl;
      try (intros [= _ <-]; solve [simpl; auto]).
    destruct (_find_skin_image_index g) as [[[idx|]|e0] g1]; simpl;
      try (intros [= _ <-]; solve [simpl; auto]).
    destruct (_extract_glb_image idx g1) as [[[original|]|e0] g2]; simpl;
      try (intros [= _ <-]; solve [simpl; auto]).
    destruct (shape original) as [tex_h tex_w].
    destruct (negb _ || negb _); simpl;
      (case_blend original blended Hblend;
         [|intros [= _ <-]; solve [simpl; auto]]);
      (destruct (png_encode blended) as [png|e0];
         [|intros [= _ <-]; solve [simpl; auto]]);
      (destruct (patch_binary_blob idx png g2) as [[[]|e0] g'];
         [|intros [= _ <-]; solve [simpl; auto]]);
      (destruct (writable w output_path);
         [discriminate|intros [= _ <-]; solve [simpl; auto]]).
Qed.


Lemma views_in_blob_ok_view (g : GLTF2.t) (bvi : Z) bv blob :
  views_in_blob_ok g = true ->
  GLTF2.binary_blob g = Some blob ->
  py_getitem (GLTF2.bufferViews g) bvi = Ok bv ->
  view_in_blob bv blob.
Proof.
  unfold views_in_blob_ok. intros Hok Hblob (j & _ & Hj)%py_getitem_Ok.
  rewrite Hblob in Hok. rewrite forallb_forall in Hok.
  assert (Hbv : In bv (GLTF2.bufferViews g)).
  { apply list_elem_of_In. eapply list_elem_of_lookup_2. exact Hj. }
  destruct (andb_prop _ _ (Hok bv Hbv)) as [H1 H2].
  split; lia.
Qed.

(** X5: when the patch path returns [True] on a template whose views lie
    inside its blob, for an output path that pygltflib saves in the binary
    format, the file it saved loads as a container in which the locator
    finds the same face image and the extraction step decodes exactly the
    PNG bytes of the blend; every other path of the file system is as
    before. *)
Theorem replace_texture_round_trip (w w' : World)
    (template_path output_path : string)
    (warped_face : ndarray byte) (face_mask : ndarray2 byte) (g : GLTF2.t) :
  files w !! template_path = Some (GLBFile g) ->
  views_in_blob_ok g = true ->
  binary_path output_path ->
  replace_texture_in_glb template_path warped_face face_mask output_path w
    = (Ok true, w') ->
  exists g' idx original blended png,
    GLTF2_load output_path w' = (Ok g', w') /\
    fst (_find_skin_image_index g) = Ok (Some idx) /\
    fst (_extract_glb_image idx g) = Ok (Some original) /\
    blend (fst (blend_inputs warped_face face_mask original))
          (snd (blend_inputs warped_face face_mask original)) original
      = Ok blended /\
    png_encode blended = Ok png /\
    fst (_find_skin_image_index g') = Ok (Some idx) /\
    _extract_glb_image idx g' = (decoded png, g') /\
    (forall p, p <> output_path -> files w' !! p = files w !! p).
Proof.
  intros Hfile Hviews _ Hrun.
  apply replace_texture_success_inv in Hrun
    as (g0 & idx & original & blended & png & g' & _ & Hfile0 & Hfind & Hext
        & Hblend & Henc & Hpatch & _ & ->).
  rewrite Hfile in Hfile0. injection Hfile0 as <-.
  destruct (extract_glb_image_Some_inv _ _ _ _ Hext)
    as (bvi & bv & blob & Hview & Hblob & _).
  assert (Hin : view_in_blob bv blob).
  { destruct Hview as (image & _ & _ & Hbv).
    eapply views_in_blob_ok_view; eassumption. }
  destruct (patch_result_view g idx bvi bv blob png Hview Hblob (fun _ => Hin))
    as (g'' & bv' & blob' & Hrun' & Hview' & Hblob' & Hbytes).
  rewrite Hpatch in Hrun'. injection Hrun' as <-.
  pose proof (patch_keeps_graph_fields g idx png) as Hframe.
  rewrite Hpatch in Hframe. simpl in Hframe. destruct Hframe as (Hme & Hma & Ht).
  exists g', idx, original, blended, png.
  split.
  { unfold GLTF2_load. st_unfold. simpl. rewrite lookup_insert_eq. reflexivity. }
  split; [rewrite Hfind; reflexivity|].
  split; [rewrite Hext; reflexivity|].
  split; [exact Hblend|]. split; [exact Henc|].
  split.
  { transitivity (fst (_find_skin_image_index g));
      [|rewrite Hfind; reflexivity].
    apply find_skin_image_index_same_value; assumption. }
  split.
  { rewrite (extract_glb_image_run g' idx bvi bv' blob' Hview' Hblob').
    rewrite Hbytes. reflexivity. }
  intros p Hp. simpl. apply lookup_insert_ne. congruence.
Qed.

Lemma extract_glb_image_None_inv (g g1 : GLTF2.t) (idx : Z) :
  _extract_glb_image idx g = (Ok None, g1) ->
  exists image,
    py_getitem (GLTF2.images g) idx = Ok image /\
    Image.bufferView image = None.
Proof.
  unfold _extract_glb_image. st_unfold.
  destruct (py_getitem (GLTF2.images g) idx) as [image|e] eqn:Himg;
    [|discriminate].
  destruct (Image.bufferView image) as [bvi|] eqn:Hbvi.
  - destruct (py_getitem (GLTF2.bufferViews g) bvi) as [bv|e];
      [|discriminate].
    destruct (GLTF2.binary_blob g) as [blob|]; [|discriminate].
    destruct (png_decode _); discriminate.
  - intros _. exists image. auto.
Qed.

(** X6: the patch path returns [False] for three reasons and no other,
    each announced by its own line on standard error and none of them
    after a write: pygltflib cannot be imported; the locator finds no face
    texture; the face image it finds is not stored in a buffer view. *)
Theorem replace_texture_false_reasons (w w' : World)
    (template_path output_path : string)
    (warped_face : ndarray byte) (face_mask : ndarray2 byte) :
  replace_texture_in_glb template_path warped_face face_mask output_path w
    = (Ok false, w') ->
  files w' = files w /\
  ((pygltflib_installed w = false /\
    stderr w' = stderr w ++ [Error_pygltflib_not_installed])
   \/
   (exists g,
      pygltflib_installed w = true /\
      files w !! template_path = Some (GLBFile g) /\
      ((fst (_find_skin_image_index g) = Ok None /\
        stderr w' = stderr w ++ [Error_no_suitable_face_skin_texture])
       \/
       (exists idx image,
          fst (_find_skin_image_index g) = Ok (Some idx) /\
          py_getitem (GLTF2.images g) idx = Ok image /\
          Image.bufferView image = None /\
          stderr w' = stderr w ++ [Error_could_not_extract_original])))).
Proof.
  run_replace.
  destruct (pygltflib_installed w) eqn:Hinst; simpl.
  2:{ intros [= <-]. split; [reflexivity|]. left. split; reflexivity. }
  destruct (files w !! template_path) as [[data|g]|] eqn:Hfile; simpl;
    try discriminate.
  pose proof (find_skin_image_index_read_only g) as Hro.
  destruct (_find_skin_image_index g) as [[[idx|]|e] g1] eqn:Hfind;
    simpl in Hro; subst g1; simpl; try discriminate.
  2:{ intros [= <-]. split; [reflexivity|]. right. exists g.
      split; [reflexivity|]. split; [reflexivity|]. left.
      split; [rewrite Hfind; reflexivity|reflexivity]. }
  pose proof (extract_glb_image_read_only idx g) as Hro.
  destruct (_extract_glb_image idx g) as [[[original|]|e] g1] eqn:Hext;
    simpl in Hro; subst g1; simpl; try discriminate.
  - destruct (shape original) as [tex_h tex_w].
    destruct (negb _ || negb _); simpl;
      (case_blend original blended Hblend; [|discriminate]);
      (destruct (png_encode blended) as [png|e]; [|discriminate]);
      (destruct (patch_binary_blob idx png g) as [[[]|e] g']; [|discriminate]);
      (destruct (writable w output_path); discriminate).
  - intros [= <-]. split; [reflexivity|]. right. exists g.
    split; [reflexivity|]. split; [reflexivity|]. right.
    destruct (extract_glb_image_None_inv _ _ _ Hext) as (image & Himg & Hbvi).
    exists idx, image.
    repeat split; first [reflexivity|assumption|rewrite Hfind; reflexivity].
Qed.
End PatchPath.

Transparent shape.

(** ** The blend and the shapes *)

Lemma broadcast_measure {A B C M} (f : A -> B -> result C)
    (ma : A -> M) (mb : B -> M) (mc : C -> M) (l1 : list A) (l2 : list B) :
  (forall x y, ma x = mb y -> exists z, f x y = Ok z /\ mc z = ma x) ->
  map ma l1 = map mb l2 ->
  exists l3, broadcast f l1 l2 = Ok l3 /\ map mc l3 = map ma l1.
Proof.
  intros Hf Hmap. unfold broadcast.
  assert (Hlen : length l1 = length l2).
  { rewrite <- (length_map ma l1), Hmap. apply length_map. }
  rewrite Hlen, Nat.eqb_refl. clear Hlen.
  revert l2 Hmap. induction l1 as [|x l1 IH]; intros [|y l2] Hmap;
    try discriminate.
  - exists []. split; reflexivity.
  - simpl in Hmap. injection Hmap as Hxy Hmap.
    destruct (Hf x y Hxy) as (z & Hz & Hmz).
    destruct (IH l2 Hmap) as (l3 & Hl3 & Hml3).
    exists (z :: l3). simpl. rewrite Hz. simpl. rewrite Hl3. simpl.
    split; [reflexivity|]. rewrite Hmz, Hml3. reflexivity.
Qed.

Lemma nd_binop_skeleton {A B C} (f : A -> B -> C)
    (a : ndarray A) (b : ndarray B) :
  skeleton a = skeleton b ->
  exists c, nd_binop f a b = Ok c /\ skeleton c = skeleton a.
Proof.
  unfold skeleton, nd_binop. intros Hab.
  apply (broadcast_measure _ (map (@length A)) (map (@length B))
           (map (@length C))); [|exact Hab].
  intros row1 row2 Hrows.
  apply (broadcast_measure _ (@length A) (@length B) (@length C));
    [|exact Hrows].
  intros p q Hpq.
  destruct (broadcast_measure (fun x y => Ok (f x y))
              (fun _ => tt) (fun _ => tt) (fun _ => tt) p q)
    as (r & Hr & Hlen).
  - intros x y _. exists (f x y). split; reflexivity.
  - revert q Hpq. induction p as [|x p IH]; intros [|y q] Hpq;
      try discriminate; [reflexivity|].
    simpl. f_equal. apply IH. simpl in Hpq. lia.
  - exists r. split; [exact Hr|].
    rewrite <- (length_map (fun _ => tt) r), Hlen. apply length_map.
Qed.

Lemma skeleton_nd_map {A B} (f : A -> B) (a : ndarray A) :
  skeleton (nd_map f a) = skeleton a.
Proof.
  unfold skeleton, nd_map. rewrite map_map. apply map_ext. intros row.
  rewrite map_map. apply map_ext. intros p. apply length_map.
Qed.

Lemma skeleton_rgb_same_dims (a b : ndarray byte) :
  rgb a -> rgb b -> same_dims a b -> skeleton a = skeleton b.
Proof.
  unfold rgb, same_dims, skeleton. intros Ha Hb Hab.
  induction Hab as [|r1 r2 a b Hlen _ IH]; [reflexivity|].
  apply Forall_cons in Ha as [Hr1 Ha]. apply Forall_cons in Hb as [Hr2 Hb].
  simpl. f_equal; [|exact (IH Ha Hb)].
  clear IH Ha Hb. revert r2 Hlen Hr2.
  induction r1 as [|p r1 IH]; intros [|q r2] Hlen Hr2; try discriminate;
    [reflexivity|].
  apply Forall_cons in Hr1 as [Hp Hr1]. apply Forall_cons in Hr2 as [Hq Hr2].
  simpl. f_equal; [congruence|].
  apply IH; [assumption|simpl in Hlen; lia|assumption].
Qed.

Lemma skeleton_stacked_mask {M} (mask : ndarray2 M) (a : ndarray byte) :
  rgb a -> same_dims mask a ->
  skeleton (map (map (fun x : M => [x; x; x])) mask) = skeleton a.
Proof.
  unfold rgb, same_dims, skeleton. intros Ha Hdims.
  induction Hdims as [|mrow row mask a Hlen _ IH]; [reflexivity|].
  apply Forall_cons in Ha as [Hrow Ha].
  simpl. f_equal; [|exact (IH Ha)].
  clear IH Ha. revert row Hlen Hrow.
  induction mrow as [|m mrow IH]; intros [|p row] Hlen Hrow; try discriminate;
    [reflexivity|].
  apply Forall_cons in Hrow as [Hp Hrow].
  simpl. f_equal; [congruence|].
  apply IH; [simpl in Hlen; lia|assumption].
Qed.

(** X7: on RGB images of equal dimensions and a mask of those dimensions,
    whatever the values of the mask, the blend raises nothing and gives an
    image of the shape of the original: as many rows, as many pixels in
    each row, three channels in each pixel. *)
Theorem blend_keeps_shape (warped_face original : ndarray byte)
    (face_mask : ndarray2 byte) :
  rgb warped_face -> rgb original ->
  same_dims warped_face original ->
  same_dims face_mask warped_face ->
  exists blended,
    blend warped_face face_mask original = Ok blended /\
    skeleton blended = skeleton original /\
    rgb blended /\ same_dims blended original.
Proof.
  intros Hw Ho Hdims Hmask.
  pose proof (skeleton_rgb_same_dims _ _ Hw Ho Hdims) as Hwo.
  unfold blend.
  set (alpha_3d := map (map (fun a => [a; a; a]))
                     (map (map (fun m => f32_div (astype_float32 m)
                                           (f32_of_Z 255))) face_mask)).
  assert (Ha : skeleton alpha_3d = skeleton warped_face)
    by (apply skeleton_stacked_mask;
        [assumption|unfold same_dims in *;
                    apply Forall2_fmap_l;
                    eapply Forall2_impl; [exact Hmask|];
                    intros r1 r2 Hr; simpl; rewrite length_map; exact Hr]).
  destruct (nd_binop_skeleton f32_mul (nd_map astype_float32 warped_face)
              alpha_3d) as (t1 & Ht1 & Hs1).
  { rewrite skeleton_nd_map. symmetry. exact Ha. }
  destruct (nd_binop_skeleton f32_mul (nd_map astype_float32 original)
              (nd_map (f32_sub (f32_of_Z 1)) alpha_3d)) as (t2 & Ht2 & Hs2).
  { rewrite !skeleton_nd_map, Ha. symmetry. exact Hwo. }
  destruct (nd_binop_skeleton f32_add t1 t2) as (s & Hs & Hss).
  { rewrite Hs1, Hs2, !skeleton_nd_map. exact Hwo. }
  rewrite Ht1. cbn [mbind result_bind]. rewrite Ht2. cbn [mbind result_bind].
  rewrite Hs. cbn [mbind result_bind].
  eexists. split; [reflexivity|].
  assert (Hsk : skeleton (nd_map astype_uint8 s) = skeleton original).
  { rewrite skeleton_nd_map, Hss, Hs1, skeleton_nd_map. exact Hwo. }
  split; [exact Hsk|].
  generalize dependent (nd_map astype_uint8 s). clear -Ho.
  intros blended Hsk. unfold skeleton, rgb, same_dims in *.
  revert blended Hsk. induction original as [|row original IH];
    intros [|brow blended] Hsk; try discriminate.
  - split; constructor.
  - simpl in Hsk. injection Hsk as Hrow Hsk.
    apply Forall_cons in Ho as [Hrow0 Ho].
    destruct (IH Ho blended Hsk) as [IH1 IH2].
    split; constructor; try assumption.
    + clear -Hrow Hrow0. revert brow Hrow.
      induction row as [|p row IH]; intros [|q brow] Hrow; try discriminate;
        [constructor|].
      simpl in Hrow. injection Hrow as Hpq Hrow.
      apply Forall_cons in Hrow0 as [Hp Hrow0].
      constructor; [congruence|]. apply IH; assumption.
    + rewrite <- (length_map (@length byte) brow), Hrow. apply length_map.
Qed.

Lemma nd_binop_rows_mismatch {A B C} (f : A -> B -> C)
    (a : ndarray A) (b : ndarray B) :
  length a <> length b -> length a <> 1%nat -> length b <> 1%nat ->
  nd_binop f a b = Raised ValueError.
Proof.
  intros Hne Ha Hb. unfold nd_binop, broadcast.
  destruct (Nat.eqb_spec (length a) (length b)); [tauto|].
  destruct a as [|r1 [|r2 a]]; destruct b as [|m1 [|m2 b]]; simpl in *;
    try tauto; reflexivity.
Qed.

(** X8: a mask with another number of rows than the warped face, neither
    of them having exactly one row, makes the blend raise [ValueError]. *)
Theorem blend_rows_mismatch (warped_face original : ndarray byte)
    (face_mask : ndarray2 byte) :
  length warped_face <> length face_mask ->
  length warped_face <> 1%nat ->
  length face_mask <> 1%nat ->
  blend warped_face face_mask original = Raised ValueError.
Proof.
  intros Hne Hw Hm. unfold blend.
  rewrite (nd_binop_rows_mismatch f32_mul (nd_map astype_float32 warped_face));
    [reflexivity| | |];
    unfold nd_map; rewrite ?length_map; assumption.
Qed.

(** ** The standalone container, read back and offered as a template *)

Lemma standalone_image_view (png : list byte) :
  exists bv blob,
    image_view (standalone_gltf png) 0 3 bv /\
    GLTF2.binary_blob (standalone_gltf png) = Some blob /\
    view_bytes blob bv = png.
Proof.
  destruct (standalone_gltf_layout png)
    as (blob & v0 & v1 & v2 & v3 & bf & Hblob & Hviews & _ & _ & _ & _
        & Hpng & _).
  exists v3, blob. split; [|split; assumption].
  exists (Image.mk (Some 3) (Some "image/png"%string)).
  split; [reflexivity|]. split; [reflexivity|].
  rewrite Hviews. reflexivity.
Qed.

Section StandaloneReadBack.
Context `{Externals}.

Ltac run_standalone' :=
  unfold generate_standalone_avatar, save_png, GLTF2_save, write_file,
    import_pygltflib, eprint; st_unfold; simpl.

(** What a run of the fallback that returns [True] went through. *)
Lemma generate_standalone_success_inv (w w' : World)
    (image_path output_path : string) (face_texture : ndarray byte) :
  generate_standalone_avatar image_path face_texture output_path w
    = (Ok true, w') ->
  exists png,
    png_encode face_texture = Ok png /\
    pygltflib_installed w' = true /\
    pygltflib_installed w = true /\
    writable w' = writable w /\
    stderr w' = stderr w
                ++ [Warning_no_template (str_replace ".glb" ".png" output_path);
                    Warning_provide_template] /\
    files w' = <[output_path := GLBFile (standalone_gltf png)]>
                 (<[str_replace ".glb" ".png" output_path := RawFile png]>
                    (files w)).
Proof.
  run_standalone'.
  destruct (png_encode face_texture) as [png|e]; simpl; [|discriminate].
  destruct (writable w _); simpl; [|discriminate].
  destruct (pygltflib_installed w) eqn:Hinst; simpl; [|discriminate].
  destruct (writable w output_path); simpl; [|discriminate].
  intros [= <-]. exists png. simpl. rewrite <- app_assoc.
  repeat split; auto.
Qed.

(** X9: a container saved by the fallback, at a path that pygltflib saves
    in the binary format, loads back, and the extraction step on its image
    0 decodes exactly the PNG bytes of the face texture, without the
    alignment padding that follows them in the blob. *)
Theorem generate_standalone_read_back (w w' : World)
    (image_path output_path : string) (face_texture : ndarray byte) :
  binary_path output_path ->
  generate_standalone_avatar image_path face_texture output_path w
    = (Ok true, w') ->
  exists g png,
    GLTF2_load output_path w' = (Ok g, w') /\
    png_encode face_texture = Ok png /\
    _extract_glb_image 0 g = (decoded png, g).
Proof.
  intros _ Hrun.
  destruct (generate_standalone_success_inv _ _ _ _ _ Hrun)
    as (png & Henc & _ & _ & _ & _ & Hfiles).
  exists (standalone_gltf png), png.
  split.
  { unfold GLTF2_load. st_unfold. rewrite Hfiles, lookup_insert_eq.
    reflexivity. }
  split; [exact Henc|].
  destruct (standalone_image_view png) as (bv & blob & Hview & Hblob & Hbytes).
  rewrite (extract_glb_image_run _ 0 3 bv blob Hview Hblob), Hbytes.
  reflexivity.
Qed.

(** X10: a container saved by the fallback cannot serve as a template: its
    mesh and its material have no name, so the patch path given that file
    reports that it found no face texture, returns [False] and writes
    nothing.  (The empty string is its own lower case.) *)
Theorem standalone_is_no_template (w w1 : World)
    (image_path output_path patched_path : string)
    (face_texture warped_face : ndarray byte) (face_mask : ndarray2 byte) :
  str_lower EmptyString = EmptyString ->
  generate_standalone_avatar image_path face_texture output_path w
    = (Ok true, w1) ->
  exists w2,
    replace_texture_in_glb output_path warped_face face_mask patched_path w1
      = (Ok false, w2) /\
    stderr w2 = stderr w1 ++ [Error_no_suitable_face_skin_texture] /\
    files w2 = files w1.
Proof.
  intros Hlower Hrun.
  destruct (generate_standalone_success_inv _ _ _ _ _ Hrun)
    as (png & _ & Hinst & _ & _ & _ & Hfiles).
  eexists. split.
  - unfold replace_texture_in_glb, GLTF2_load, on_local, eprint. st_unfold.
    rewrite Hinst. simpl. rewrite Hfiles, lookup_insert_eq.
    rewrite (find_skin_image_index_no_match (standalone_gltf png)).
    + reflexivity.
    + simpl. unfold is_head_mesh. simpl. rewrite Hlower. reflexivity.
    + simpl. unfold is_skin_material. simpl. rewrite Hlower. reflexivity.
  - simpl. auto.
Qed.
End StandaloneReadBack.

(** ** The path of the loose texture *)

Lemma replace_go_absent (old new s : string) :
  contains old s = false -> replace_go old new 0 s = s.
Proof.
  induction s as [|c s IH]; [reflexivity|].
  intros Hc.
  change (String.prefix old (String c s) || contains old s = false) in Hc.
  apply orb_false_elim in Hc as [Hp Hs].
  cbn [replace_go]. rewrite Hp, (IH Hs). reflexivity.
Qed.

Lemma append_cons (c : ascii) (s t : string) :
  String.append (String c s) t = String c (String.append s t).
Proof. reflexivity. Qed.

Lemma append_nil (t : string) : String.append EmptyString t = t.
Proof. reflexivity. Qed.

Lemma prefix_glb_app (s : string) :
  String.prefix ".glb" (String.append s ".glb") = true ->
  s = EmptyString \/ String.prefix ".glb" s = true.
Proof.
  destruct s as [|c1 [|c2 [|c3 [|c4 s]]]]; [auto| | | |];
    rewrite ?append_cons, ?append_nil; cbn [String.prefix];
    repeat match goal with
      | |- context [ascii_dec ?a ?b] => destruct (ascii_dec a b); subst
      end; try discriminate; auto.
  intros _. right. destruct s; reflexivity.
Qed.

Lemma str_replace_glb_suffix (stem : string) :
  contains ".glb" stem = false ->
  str_replace ".glb" ".png" (String.append stem ".glb")
  = String.append stem ".png".
Proof.
  unfold str_replace. induction stem as [|c stem IH]; [reflexivity|].
  intros Hc.
  change (String.prefix ".glb" (String c stem) || contains ".glb" stem = false)
    in Hc.
  apply orb_false_elim in Hc as [Hp Hs].
  change (String.append (String c stem) ".glb")
    with (String c (String.append stem ".glb")).
  change (String.append (String c stem) ".png")
    with (String c (String.append stem ".png")).
  cbn [replace_go].
  change (String c (String.append stem ".glb"))
    with (String.append (String c stem) ".glb") at 1.
  destruct (String.prefix ".glb" (String.append (String c stem) ".glb")) eqn:E.
  - apply prefix_glb_app in E as [E|E]; [discriminate|congruence].
  - rewrite (IH Hs). reflexivity.
Qed.

Lemma append_png_glb (stem : string) :
  String.append stem ".png" <> String.append stem ".glb".
Proof.
  induction stem as [|c stem IH]; [discriminate|].
  change (String.append (String c stem) ".png")
    with (String c (String.append stem ".png")).
  change (String.append (String c stem) ".glb")
    with (String c (String.append stem ".glb")).
  intros [= E]. exact (IH E).
Qed.

Section TexturePath.
Context `{Externals}.

(** X11: for an output path [stem.glb] that pygltflib saves in the binary
    format, as one file, and whose stem holds no other ".glb", a run of
    the fallback that returns [True] leaves two files side by side, the
    PNG at [stem.png] and a container at [stem.glb], and changes no other
    path. *)
Theorem generate_standalone_sibling_files (w w' : World)
    (image_path stem : string) (face_texture : ndarray byte) :
  binary_path (String.append stem ".glb") ->
  contains ".glb" stem = false ->
  generate_standalone_avatar image_path face_texture
    (String.append stem ".glb") w = (Ok true, w') ->
  exists png g,
    png_encode face_texture = Ok png /\
    files w' !! String.append stem ".png" = Some (RawFile png) /\
    files w' !! String.append stem ".glb" = Some (GLBFile g) /\
    (forall p, p <> String.append stem ".png" ->
               p <> String.append stem ".glb" ->
               files w' !! p = files w !! p).
Proof.
  intros _ Hstem Hrun.
  destruct (generate_standalone_success_inv _ _ _ _ _ Hrun)
    as (png & Henc & _ & _ & _ & _ & Hfiles).
  rewrite (str_replace_glb_suffix stem Hstem) in Hfiles.
  exists png, (standalone_gltf png). split; [exact Henc|]. rewrite Hfiles.
  split.
  { rewrite lookup_insert_ne by (apply not_eq_sym, append_png_glb).
    apply lookup_insert_eq. }
  split; [apply lookup_insert_eq|].
  intros p Hp1 Hp2. rewrite !lookup_insert_ne by congruence. reflexivity.
Qed.

(** X12: when ".glb" occurs nowhere in the output path, the texture path
    is the output path itself: a run that returns [True] has first written
    the PNG there and then saved the container over it, so that the path
    holds a container and the loose PNG is gone. *)
Theorem generate_standalone_overwrites_texture (w w' : World)
    (image_path output_path : string) (face_texture : ndarray byte) :
  contains ".glb" output_path = false ->
  generate_standalone_avatar image_path face_texture output_path w
    = (Ok true, w') ->
  str_replace ".glb" ".png" output_path = output_path /\
  exists g, files w' !! output_path = Some (GLBFile g).
Proof.
  intros Habsent Hrun.
  destruct (generate_standalone_success_inv _ _ _ _ _ Hrun)
    as (png & Henc & _ & _ & _ & _ & Hfiles).
  split; [apply replace_go_absent; exact Habsent|].
  exists (standalone_gltf png). rewrite Hfiles. apply lookup_insert_eq.
Qed.
End TexturePath.

(** ** Alignment, in the builder and in the patcher *)

(** X13: for every integer [n], negative ones included, [align4 n] is the
    least multiple of four that is not below [n], and it is the offset at
    which the padding loop of the patcher stops when started at [n]. *)
Theorem align4_least_multiple (n : Z) (blob : list byte) :
  align4 n mod 4 = 0 /\
  n <= align4 n < n + 4 /\
  (forall m, m mod 4 = 0 -> n <= m -> align4 n <= m) /\
  snd (pad_loop blob n) = align4 n.
Proof.
  destruct (align4_bounds n) as [Hb Hm].
  split; [exact Hm|]. split; [exact Hb|].
  split.
  - intros m Hm4 Hnm.
    pose proof (Z.div_mod m 4 ltac:(lia)).
    pose proof (Z.div_mod (align4 n) 4 ltac:(lia)). lia.
  - rewrite pad_loop_spec. simpl.
    pose proof (Z.div_mod (- n) 4 ltac:(lia)).
    pose proof (Z.mod_pos_bound (- n) 4 ltac:(lia)).
    pose proof (Z.div_mod (align4 n) 4 ltac:(lia)). lia.
Qed.

(** * Properties of detection, extraction, thumbnail and command line *)

Section ScriptProperties.
Context `{Externals} `{Vision} {parser : Argparse}.
Variable _SCRIPT_DIR : string.

Local Notation "'MODEL'" := (_MODEL_PATH _SCRIPT_DIR).

(** ** The model cache *)

Lemma at_most_model_written_refl (p : Process) :
  at_most_model_written MODEL p p.
Proof. repeat split; auto. Qed.

Lemma at_most_model_written_lookup (p p' : Process) (path : string) :
  at_most_model_written MODEL p p' ->
  path <> MODEL -> fs p' !! path = fs p !! path.
Proof.
  intros (_ & _ & _ & [->|(_ & data & ->)]) Hne; [reflexivity|].
  apply lookup_insert_ne. congruence.
Qed.

Lemma at_most_model_written_grows (p p' : Process) (path : string) f :
  at_most_model_written MODEL p p' ->
  fs p !! path = Some f -> fs p' !! path = Some f.
Proof.
  intros (_ & _ & _ & [->|(Hnone & data & ->)]) Hf; [exact Hf|].
  rewrite lookup_insert_ne; [exact Hf|]. congruence.
Qed.

Lemma ensure_model_run (p : Process) :
  let '(r, p') := _ensure_model _SCRIPT_DIR p in
  at_most_model_written MODEL p p' /\
  err p' = err p /\
  (requests p' = requests p \/ requests p' = requests p ++ [_MODEL_URL]) /\
  match r with
  | Returns path =>
      path = MODEL /\ is_Some (fs p' !! MODEL) /\
      (requests p' = requests p <-> is_Some (fs p !! MODEL))
  | Raises r =>
      r = Error (Exn OSError) /\ fs p !! MODEL = None /\
      requests p' = requests p ++ [_MODEL_URL] /\
      (fs p' = fs p \/
       exists received,
         network p _MODEL_URL = Broken_off received /\
         fs p' = <[MODEL := RawFile received]> (fs p))
  end.
Proof.
  unfold _ensure_model, urlretrieve, write_bytes. run_unfold.
  destruct (fs p !! MODEL) as [f|] eqn:Hcached.
  - split; [apply at_most_model_written_refl|].
    split; [reflexivity|]. split; [left; reflexivity|].
    split; [reflexivity|]. split; [rewrite Hcached; eauto|].
    split; eauto.
  - destruct (network p _MODEL_URL) as [|data|received]; simpl.
    + split; [repeat split; auto|].
      split; [reflexivity|]. split; [right; reflexivity|].
      repeat split; auto.
    + destruct (may_write p MODEL); simpl.
      * split.
        { repeat split; auto. right. split; [exact Hcached|]. eauto. }
        split; [reflexivity|]. split; [right; reflexivity|].
        split; [reflexivity|].
        split; [rewrite lookup_insert_eq; eauto|].
        split; [|intros [? [=]]].
        intros Heq. apply (f_equal length) in Heq.
        rewrite length_app in Heq. simpl in Heq. lia.
      * split; [repeat split; auto|].
        split; [reflexivity|]. split; [right; reflexivity|].
        repeat split; auto.
    + destruct (may_write p MODEL); simpl.
      * split.
        { repeat split; auto. right. split; [exact Hcached|]. eauto. }
        split; [reflexivity|]. split; [right; reflexivity|].
        split; [reflexivity|]. split; [reflexivity|].
        split; [reflexivity|].
        right. exists received. split; reflexivity.
      * split; [repeat split; auto|].
        split; [reflexivity|]. split; [right; reflexivity|].
        repeat split; auto.
Qed.


(** ** Detection *)

Lemma py_slice_prefix {A} (l : list A) (n : Z) :
  0 <= n -> py_slice l 0 n = take (Z.to_nat n) l.
Proof.
  intros Hn. unfold py_slice, py_slice_bound.
  replace (0 <? 0) with false by reflexivity.
  replace (n <? 0) with false by (symmetry; apply Z.ltb_ge; exact Hn).
  rewrite (Z.min_l 0) by lia. simpl. rewrite Nat.sub_0_r.
  destruct (Z.le_ge_cases n (Z.of_nat (length l))).
  - rewrite Z.min_l by lia. change (Z.to_nat 0) with 0%nat.
    rewrite drop_0. reflexivity.
  - rewrite Z.min_r by lia. rewrite Nat2Z.id.
    change (Z.to_nat 0) with 0%nat. rewrite drop_0.
    rewrite (take_ge l (length l)) by lia.
    rewrite (take_ge l (Z.to_nat n)) by lia. reflexivity.
Qed.

Lemma scaled_length (image : ndarray byte) (landmarks : list NormalizedLandmark) :
  length (scaled image landmarks) = Nat.min (length landmarks) 468.
Proof.
  unfold scaled. rewrite length_map, py_slice_prefix by (unfold len; lia).
  rewrite length_take. unfold len. lia.
Qed.

Lemma get_face_landmarks_run (image_path : string) (p : Process) :
  let '(r, p') := get_face_landmarks _SCRIPT_DIR image_path p in
  at_most_model_written MODEL p p' /\
  match r with
  | Returns None =>
      (fst (cv2_imread image_path p) = Returns None /\
       fs p' = fs p /\ requests p' = requests p /\
       err p' = err p ++ [Error_could_not_read_image image_path])
      \/
      (exists image,
         fst (cv2_imread image_path p) = Returns (Some image) /\
         face_landmarker_detect (fs p' !! MODEL) (map (map (@rev byte)) image)
           = Gives [] /\
         err p' = err p ++ [Error_no_face_detected])
  | Returns (Some points) =>
      exists image landmarks others,
        fst (cv2_imread image_path p) = Returns (Some image) /\
        face_landmarker_detect (fs p' !! MODEL) (map (map (@rev byte)) image)
          = Gives (landmarks :: others) /\
        points = scaled image landmarks /\
        err p' = err p
  | Raises r =>
      (exists e, r = Error e) /\ err p' = err p /\
      fst (cv2_imread image_path p) <> Returns None
  end.
Proof.
  unfold get_face_landmarks, cv2_imread.
  unfold and_then at 1. unfold reads at 1.
  destruct (match fs p !! image_path with
            | Some f => imdecode f
            | None => None
            end) as [image|] eqn:Hread.
  2:{ run_unfold. simpl. rewrite Hread.
      split; [repeat split; simpl; auto|]. left. auto. }
  destruct (shape image) as [h w] eqn:Hshape.
  unfold and_then at 1.
  pose proof (ensure_model_run p) as Hmodel.
  destruct (_ensure_model _SCRIPT_DIR p) as [[path|r] p1].
  2:{ destruct Hmodel as (Hw & He & _ & -> & _).
      split; [exact Hw|]. split; [eauto|]. split; [exact He|].
      run_unfold. simpl. rewrite Hread. discriminate. }
  destruct Hmodel as (Hw & He & _ & -> & _).
  run_unfold. simpl. rewrite Hread.
  destruct (face_landmarker_detect (fs p1 !! MODEL) (map (map (@rev byte)) image))
    as [[|landmarks others]|e] eqn:Hdetect; simpl.
  - split; [exact Hw|]. right. exists image. rewrite He. auto.
  - split; [exact Hw|]. exists image, landmarks, others.
    unfold scaled. rewrite Hshape. auto.
  - split; [exact Hw|]. split; [eauto|]. split; [exact He|]. discriminate.
Qed.

(** X15: [get_face_landmarks] returns [None] for two reasons and no
    other, each announced by one line on standard error: the image cannot
    be read, and then nothing was requested from the network and no file
    was written; or the landmarker found no face.  In both cases nothing
    changed but, at most, the model file. *)
Theorem get_face_landmarks_None (image_path : string) (p p' : Process) :
  get_face_landmarks _SCRIPT_DIR image_path p = (Returns None, p') ->
  at_most_model_written MODEL p p' /\
  ((fst (cv2_imread image_path p) = Returns None /\
    fs p' = fs p /\ requests p' = requests p /\
    err p' = err p ++ [Error_could_not_read_image image_path])
   \/
   (exists image,
      fst (cv2_imread image_path p) = Returns (Some image) /\
      face_landmarker_detect (fs p' !! MODEL) (map (map (@rev byte)) image)
        = Gives [] /\
      err p' = err p ++ [Error_no_face_detected])).
Proof.
  intros Hrun. pose proof (get_face_landmarks_run image_path p) as Hspec.
  rewrite Hrun in Hspec. exact Hspec.
Qed.

(** X16: when [get_face_landmarks] returns an array, it has one row for
    each landmark of the first face up to the 468th and none beyond: at
    most 468 rows, whatever the landmarker found.  Nothing was printed on
    standard error. *)
Theorem get_face_landmarks_rows (image_path : string) (p p' : Process)
    (points : list point) :
  get_face_landmarks _SCRIPT_DIR image_path p = (Returns (Some points), p') ->
  exists image landmarks others,
    fst (cv2_imread image_path p) = Returns (Some image) /\
    face_landmarker_detect (fs p' !! MODEL) (map (map (@rev byte)) image)
      = Gives (landmarks :: others) /\
    length points = Nat.min (length landmarks) 468 /\
    (length points <= 468)%nat /\
    err p' = err p.
Proof.
  intros Hrun. pose proof (get_face_landmarks_run image_path p) as Hspec.
  rewrite Hrun in Hspec.
  destruct Hspec as (_ & image & landmarks & others & Hread & Hdetect & -> & He).
  exists image, landmarks, others.
  rewrite scaled_length.
  split; [exact Hread|]. split; [exact Hdetect|].
  split; [reflexivity|]. split; [lia|exact He].
Qed.

(** ** Extraction *)

Lemma mapM_getitem_in_range {A} (l : list A) (idxs : list Z) :
  Forall (fun i => 0 <= i < len l) idxs ->
  exists v, mapM (py_getitem l) idxs = Ok v.
Proof.
  induction 1 as [|i idxs Hi _ [v IH]]; [exists []; reflexivity|].
  destruct (py_getitem_nonneg l i Hi) as (x & Hx & _).
  exists (x :: v). simpl. rewrite Hx. simpl. rewrite IH. reflexivity.
Qed.

Lemma mapM_getitem_Ok_inv {A} (l : list A) (idxs : list Z) v (i : Z) :
  mapM (py_getitem l) idxs = Ok v -> In i idxs -> 0 <= i -> i < len l.
Proof.
  revert v. induction idxs as [|j idxs IH]; intros v Hv Hin Hi; [destruct Hin|].
  simpl in Hv.
  destruct (py_getitem l j) as [x|e] eqn:Hx; [|discriminate]. simpl in Hv.
  destruct (mapM (py_getitem l) idxs) as [v'|e] eqn:Hrest; [|discriminate].
  destruct Hin as [->|Hin]; [|exact (IH v' eq_refl Hin Hi)].
  apply py_getitem_Ok in Hx as (k & Hk & _).
  apply py_norm_index_lt in Hk as Hlt.
  unfold py_norm_index in Hk.
  destruct (Z.ltb_spec i 0); [lia|].
  destruct (_ && _) eqn:E; [|discriminate].
  apply andb_prop in E as [_ E]. apply Z.ltb_lt in E. exact E.
Qed.

Lemma py_getitem_error {A} (l : list A) (i : Z) e :
  py_getitem l i = Raised e -> e = IndexError.
Proof.
  unfold py_getitem. destruct (py_norm_index l i) as [k|]; [|congruence].
  destruct (l !! k); congruence.
Qed.

Lemma mapM_getitem_error {A} (l : list A) (idxs : list Z) e :
  mapM (py_getitem l) idxs = Raised e -> e = IndexError.
Proof.
  induction idxs as [|j idxs IH]; [discriminate|]. simpl.
  destruct (py_getitem l j) as [x|e'] eqn:Hx; simpl.
  - destruct (mapM (py_getitem l) idxs) as [v'|e']; [discriminate|].
    simpl. intros [= <-]. apply IH. reflexivity.
  - intros [= <-]. exact (py_getitem_error l j e' Hx).
Qed.

Lemma lookups_need_455 {A} (l : list A) :
  (exists a b, mapM (py_getitem l) [LEFT_EYE; RIGHT_EYE; NOSE_TIP; CHIN] = Ok a /\
               mapM (py_getitem l) FACE_OVAL = Ok b)
  <-> 455 <= len l.
Proof.
  split.
  - intros (a & b & _ & Hb).
    assert (454 < len l); [|lia].
    apply (mapM_getitem_Ok_inv l FACE_OVAL b 454 Hb); [|lia].
    unfold FACE_OVAL. simpl. tauto.
  - intros Hlen.
    destruct (mapM_getitem_in_range l [LEFT_EYE; RIGHT_EYE; NOSE_TIP; CHIN])
      as [a Ha].
    { unfold LEFT_EYE, RIGHT_EYE, NOSE_TIP, CHIN.
      repeat (constructor; [lia|]). constructor. }
    destruct (mapM_getitem_in_range l FACE_OVAL) as [b Hb].
    { unfold FACE_OVAL. repeat (constructor; [lia|]). constructor. }
    eauto.
Qed.

(** X17: the landmark tables of [extract_face_texture] reach up to index
    454, so the four anchors and the face oval can be read from an array
    exactly when it has at least 455 rows.  The array that
    [get_face_landmarks] makes of a face is cut at 468 rows, and so can be
    read exactly when the face has at least 455 landmarks. *)
Theorem landmark_lookups_need_455 (landmarks : list point)
    (image : ndarray byte) (face : list NormalizedLandmark) :
  ((exists a b, src_points landmarks = Ok a /\
                face_oval_points landmarks = Ok b)
   <-> 455 <= len landmarks) /\
  ((exists a b, src_points (scaled image face) = Ok a /\
                face_oval_points (scaled image face) = Ok b)
   <-> 455 <= len face).
Proof.
  unfold src_points, face_oval_points. split; [apply lookups_need_455|].
  rewrite lookups_need_455. unfold len. rewrite scaled_length. lia.
Qed.

Lemma never_exits_pure {A B} (m : Run A) (k : A -> Run B) :
  never_exits m -> pure_run m ->
  (forall a, never_exits (k a) /\ pure_run (k a)) ->
  never_exits (and_then m k) /\ pure_run (and_then m k).
Proof.
  intros Hm Pm Hk. unfold never_exits, pure_run, and_then in *. split.
  - intros p code. specialize (Hm p). specialize (Pm p).
    destruct (m p) as [[a|r] p1]; simpl in *.
    + apply Hk.
    + intros [= ->]. exact (Hm code eq_refl).
  - intros p. specialize (Pm p).
    destruct (m p) as [[a|r] p1]; simpl in *; subst; [apply Hk|reflexivity].
Qed.

Lemma of_answer_quiet {A} (r : answer A) :
  never_exits (of_answer r) /\ pure_run (of_answer r).
Proof. split; intros p; [intros code|]; destruct r; simpl; congruence. Qed.

Lemma of_result_quiet {A} (r : result A) :
  never_exits (of_result r) /\ pure_run (of_result r).
Proof. split; intros p; [intros code|]; destruct r; simpl; congruence. Qed.

Lemma reads_quiet {A} (f : Process -> A) :
  never_exits (reads f) /\ pure_run (reads f).
Proof. split; intros p; [intros code|]; simpl; congruence. Qed.

Lemma returns_quiet {A} (a : A) :
  never_exits (returns a) /\ pure_run (returns a).
Proof. split; intros p; [intros code|]; simpl; congruence. Qed.

Ltac quiet :=
  repeat first
    [ apply never_exits_pure;
        [apply of_answer_quiet|apply of_answer_quiet|intros ?]
    | apply never_exits_pure;
        [apply of_result_quiet|apply of_result_quiet|intros ?]
    | apply never_exits_pure;
        [apply reads_quiet|apply reads_quiet|intros ?]
    | apply returns_quiet
    | apply of_answer_quiet ].

Lemma extract_face_texture_quiet (image_path : string)
    (landmarks : list point) (texture_size : Z) :
  never_exits (extract_face_texture image_path landmarks texture_size) /\
  pure_run (extract_face_texture image_path landmarks texture_size).
Proof. unfold extract_face_texture, cv2_imread. quiet. Qed.

(** X18: [extract_face_texture] only reads: however it ends, it has
    written no file and printed nothing, and it never exits the process.
    It returns a texture and a mask only for an array of at least 455
    landmarks; with fewer rows it raises, whatever the libraries do. *)
Theorem extract_face_texture_needs_455 (image_path : string)
    (landmarks : list point) (texture_size : Z) (p : Process) :
  let run := extract_face_texture image_path landmarks texture_size p in
  snd run = p /\
  (forall code, fst run <> Raises (SystemExit code)) /\
  (forall v, fst run = Returns v -> 455 <= len landmarks).
Proof.
  destruct (extract_face_texture_quiet image_path landmarks texture_size)
    as [Hexit Hpure].
  split; [apply Hpure|]. split; [apply Hexit|].
  intros v. unfold extract_face_texture, cv2_imread. run_unfold. simpl.
  destruct (cv2_cvtColor _) as [rgb_image|e]; [simpl|discriminate].
  destruct (src_points landmarks) as [src|e] eqn:Hsrc; [simpl|discriminate].
  destruct (getPerspectiveTransform src dst_pts) as [M|e];
    [simpl|discriminate].
  destruct (warpPerspective rgb_image M texture_size) as [warped|e];
    [simpl|discriminate].
  destruct (face_oval_points landmarks) as [oval|e] eqn:Hoval;
    [simpl|discriminate].
  intros _. apply (proj1 (lookups_need_455 landmarks)). eauto.
Qed.

(** C8 (as amended): [extract_face_texture] has no test for collinear
    anchors and no error of its own for them.  Whatever the four anchors
    are, it hands them to [cv2.getPerspectiveTransform]; whenever that call
    gives a matrix and the later calls of the libraries succeed, it returns
    the photo warped by that matrix, with its mask, and leaves the process
    as it was. *)
Theorem extract_face_texture_any_anchors (image_path : string)
    (landmarks : list point) (texture_size : Z) (p : Process)
    (image warped : ndarray byte) (src oval pts : list point) (M : matrix)
    (mask : ndarray2 byte) :
  fst (cv2_imread image_path p) = Returns (Some image) ->
  src_points landmarks = Ok src ->
  getPerspectiveTransform src dst_pts = Gives M ->
  warpPerspective (map (map (@rev byte)) image) M texture_size
    = Gives warped ->
  face_oval_points landmarks = Ok oval ->
  perspectiveTransform oval M = Gives pts ->
  feathered_hull_mask (clip_points pts texture_size) texture_size
    = Gives mask ->
  extract_face_texture image_path landmarks texture_size p
    = (Returns (warped, mask), p).
Proof.
  unfold extract_face_texture, cv2_imread. run_unfold. simpl.
  intros [= ->] -> Hm. simpl. rewrite Hm. simpl.
  intros -> ->. simpl. intros ->. simpl. intros ->. reflexivity.
Qed.

(** ** The thumbnail *)







Section RoundingBound.
Variables prec emax : Z.
Hypothesis Hprec : 0 < prec.

End RoundingBound.



Section AlignedBound.
Variables prec emax : Z.
Hypothesis Hprec : 0 < prec.

End AlignedBound.





(** X20: the face is pasted inside the square: the square is as large as
    the longer side of the face, the face touches both borders along that
    side and is centred along the other, the margin before it being the
    margin after it or one pixel less. *)
Theorem paste_corner_centred (w h : Z) :
  let '(max_dim, (x, y)) := paste_corner w h in
  w <= max_dim /\ h <= max_dim /\ (max_dim = w \/ max_dim = h) /\
  0 <= x /\ 0 <= y /\ (x = 0 \/ y = 0) /\
  0 <= (max_dim - w - x) - x <= 1 /\
  0 <= (max_dim - h - y) - y <= 1.
Proof.
  unfold paste_corner.
  pose proof (Z.div_mod (Z.max w h - w) 2 ltac:(lia)).
  pose proof (Z.mod_pos_bound (Z.max w h - w) 2 ltac:(lia)).
  pose proof (Z.div_mod (Z.max w h - h) 2 ltac:(lia)).
  pose proof (Z.mod_pos_bound (Z.max w h - h) 2 ltac:(lia)).
  destruct (Z.max_spec w h) as [[? Hmax]|[? Hmax]]; rewrite Hmax in *;
    rewrite ?Z.sub_diag, ?Zdiv_0_l in *; repeat split; lia.
Qed.

Opaque shape paste_corner crop_box landmark_bounds.

Lemma create_thumbnail_run (image_path output_path : string)
    (landmarks : list point) (size : Z) (p : Process) :
  let '(r, p') := create_thumbnail image_path landmarks output_path size p in
  match r with
  | Returns _ =>
      exists png,
        p' = mkProcess (<[output_path := RawFile png]> (fs p)) (err p)
               (pygltflib p) (may_write p) (network p) (requests p)
  | Raises r => p' = p /\ exists e, r = Error e
  end.
Proof.
  unfold create_thumbnail, cv2_imread, write_bytes. run_unfold. simpl.
  destruct (cv2_cvtColor _) as [pil_image|e]; simpl; [|eauto].
  destruct (landmark_bounds landmarks) as [bounds|e]; simpl; [|eauto].
  destruct (shape pil_image) as [height width].
  destruct (crop_box bounds width height) as [box|e]; simpl; [|eauto].
  destruct (pil_crop pil_image box) as [face|e]; simpl; [|eauto].
  destruct (shape face) as [h w].
  destruct (paste_corner w h) as [max_dim corner].
  destruct (thumbnail_png face max_dim corner size) as [png|e]; simpl;
    [|eauto].
  destruct (may_write p output_path); eauto.
Qed.

Transparent shape paste_corner crop_box landmark_bounds.

(** X25: [create_thumbnail] writes last and writes one file: when it
    returns, the PNG is at the output path and nothing else has changed;
    when it raises, nothing has changed at all.  An image that cannot be
    read makes it raise [cv2.error], and an empty array of landmarks on a
    readable image makes it raise [ValueError]; it never exits the
    process and prints nothing on standard error. *)
Theorem create_thumbnail_writes_last (image_path output_path : string)
    (landmarks : list point) (size : Z) (p : Process) :
  let run := create_thumbnail image_path landmarks output_path size p in
  match fst run with
  | Returns _ =>
      exists png,
        snd run = mkProcess (<[output_path := RawFile png]> (fs p)) (err p)
                    (pygltflib p) (may_write p) (network p) (requests p)
  | Raises r => snd run = p /\ exists e, r = Error e
  end /\
  (fst (cv2_imread image_path p) = Returns None ->
   fst run = Raises (Error (Other "cv2.error"))) /\
  (fst (cv2_imread image_path p) <> Returns None -> landmarks = [] ->
   fst run = Raises (Error (Exn ValueError))).
Proof.
  intros run. subst run. split.
  { pose proof (create_thumbnail_run image_path output_path landmarks size p)
      as Hrun.
    destruct (create_thumbnail image_path landmarks output_path size p)
      as [[[]|r] p']; exact Hrun. }
  unfold create_thumbnail, cv2_imread. run_unfold. simpl. split.
  - intros [= ->]. reflexivity.
  - intros Hread ->.
    destruct (match fs p !! image_path with
              | Some f => imdecode f
              | None => None
              end) as [image|]; [reflexivity|congruence].
Qed.

(** ** The command line *)

Lemma usable_template_run (template : option string) (p : Process) :
  usable_template template p
  = (Returns match given template with
             | Some path => match fs p !! path with
                            | Some _ => Some path
                            | None => None
                            end
             | None => None
             end, p).
Proof.
  unfold usable_template, path_exists. run_unfold.
  destruct (given template) as [path|]; [|reflexivity].
  destruct (fs p !! path); reflexivity.
Qed.

Lemma at_most_model_written_fields (p p1 p2 : Process) :
  at_most_model_written MODEL p p1 ->
  fs p2 = fs p1 -> pygltflib p2 = pygltflib p1 ->
  may_write p2 = may_write p1 -> network p2 = network p1 ->
  at_most_model_written MODEL p p2.
Proof.
  unfold at_most_model_written.
  intros (H1 & H2 & H3 & H4) -> -> -> ->. repeat split; assumption.
Qed.

(** After the command line is parsed, [main] exits the process in one way
    only, with status 1, and only from two places. *)
Lemma main_exit_inv (args : Args) (p p' : Process) (code : Z) :
  main _SCRIPT_DIR args p = (Raises (SystemExit code), p') ->
  code = 1 /\
  at_most_model_written MODEL p p' /\
  exists lines last,
    err p' = err p ++ lines ++ [last] /\ fatal_line last.
Proof.
  unfold main. unfold and_then at 1.
  pose proof (get_face_landmarks_run (input args) p) as Hdet.
  destruct (get_face_landmarks _SCRIPT_DIR (input args) p)
    as [[[points|]|r] p1].
  - destruct Hdet as (Hw & image & landmarks & others & _ & _ & _ & He).
    unfold and_then at 1.
    destruct (extract_face_texture_quiet (input args) points
                (texture_size args)) as [Hexit Hpure].
    specialize (Hexit p1). specialize (Hpure p1).
    destruct (extract_face_texture (input args) points (texture_size args) p1)
      as [[[warped_face face_mask]|r] p1'];
      simpl in Hpure; subst p1'.
    2:{ intros [= -> _]. exfalso. exact (Hexit code eq_refl). }
    unfold and_then at 1. unfold and_then at 1.
    rewrite usable_template_run.
    destruct (match given (template args) with
              | Some path => match fs p1 !! path with
                             | Some _ => Some path
                             | None => None
                             end
              | None => None
              end) as [template_path|].
    + unfold and_then at 1. unfold in_world.
      destruct (replace_texture_in_glb template_path warped_face face_mask
                  (output args) (world_of p1)) as [r w'] eqn:Hrep.
      destruct (replace_texture_frame _ _ _ _ _ _ _ Hrep) as (Hi & Hwr & Hf).
      destruct r as [[|]|e]; simpl.
      * unfold returns at 1.
        destruct (given (thumbnail args)) as [path|]; [|discriminate].
        match goal with
        | |- create_thumbnail ?a ?b ?c ?d ?q = _ -> _ =>
            pose proof (create_thumbnail_run a c b d q) as Ht;
            destruct (create_thumbnail a b c d q) as [[[]|r] p2]
        end; [discriminate|].
        destruct Ht as (_ & e & ->). discriminate.
      * run_unfold. intros [= <- <-].
        split; [reflexivity|]. split.
        { eapply at_most_model_written_fields; [exact Hw| | | |]; simpl.
          - apply Hf. discriminate.
          - exact Hi.
          - exact Hwr.
          - reflexivity. }
        exists (map Line (stderr w')), Error_failed_to_apply_texture.
        simpl. rewrite He, <- app_assoc.
        split; [reflexivity|]. right. right. reflexivity.
      * discriminate.
    + unfold and_then at 1. unfold in_world.
      destruct (generate_standalone_avatar (input args) warped_face
                  (output args) (world_of p1)) as [[success|e] w'];
        simpl; [|discriminate].
      unfold returns at 1.
      destruct (given (thumbnail args)) as [path|]; [|discriminate].
      match goal with
      | |- create_thumbnail ?a ?b ?c ?d ?q = _ -> _ =>
          pose proof (create_thumbnail_run a c b d q) as Ht;
          destruct (create_thumbnail a b c d q) as [[[]|r] p2]
      end; [discriminate|].
      destruct Ht as (_ & e & ->). discriminate.
  - destruct Hdet as (Hw & Hnone). unfold sys_exit, raises.
    intros [= <- <-]. split; [reflexivity|]. split; [exact Hw|].
    destruct Hnone as [(_ & _ & _ & He)|(image & _ & _ & He)].
    + exists [], (Error_could_not_read_image (input args)).
      split; [exact He|]. left. eauto.
    + exists [], Error_no_face_detected.
      split; [exact He|]. right. left. reflexivity.
  - destruct Hdet as (_ & [e ->] & _). discriminate.
Qed.

(** X22: the exit status of [main] does not tell whether the fallback
    wrote a container.  With no template and no thumbnail asked for, once
    the landmarks are found and the texture is extracted, on a machine
    without pygltflib whose texture path is writable, [main] returns
    normally: it has saved the loose PNG, printed three warnings, the last
    one for the [ImportError], and written no container. *)
Theorem main_completes_without_container (args : Args) (p p1 : Process)
    (points : list point) (warped_face : ndarray byte)
    (face_mask : ndarray2 byte) (png : list byte) :
  let texture_path := str_replace ".glb" ".png" (output args) in
  given (template args) = None ->
  given (thumbnail args) = None ->
  pygltflib p = false ->
  may_write p texture_path = true ->
  get_face_landmarks _SCRIPT_DIR (input args) p
    = (Returns (Some points), p1) ->
  fst (extract_face_texture (input args) points (texture_size args) p1)
    = Returns (warped_face, face_mask) ->
  png_encode warped_face = Ok png ->
  exists p2,
    main _SCRIPT_DIR args p = (Returns tt, p2) /\
    fs p2 = <[texture_path := RawFile png]> (fs p1) /\
    (texture_path <> output args ->
     fs p2 !! output args = fs p1 !! output args) /\
    err p2 = err p ++ [Line (Warning_no_template texture_path);
                       Line Warning_provide_template;
                       Line (Warning_could_not_create_standalone ImportError)].
Proof.
  intros texture_path Htemplate Hthumb Hlib Hwrite Hdet Hext Henc.
  pose proof (get_face_landmarks_run (input args) p) as Hspec.
  rewrite Hdet in Hspec.
  destruct Hspec as ((Hl & Hm & _ & _) & image & landmarks & others
                     & _ & _ & _ & He).
  unfold main. unfold and_then at 1. rewrite Hdet.
  unfold and_then at 1.
  destruct (extract_face_texture_quiet (input args) points
              (texture_size args)) as [_ Hpure].
  specialize (Hpure p1).
  destruct (extract_face_texture (input args) points (texture_size args) p1)
    as [r p1']. simpl in Hpure, Hext. subst p1' r.
  unfold and_then at 1. unfold and_then at 1.
  rewrite usable_template_run, Htemplate, Hthumb.
  unfold and_then at 1. unfold in_world.
  unfold generate_standalone_avatar, save_png, GLTF2_save, write_file,
    import_pygltflib, eprint. st_unfold. fold texture_path.
  rewrite Henc. simpl. rewrite Hm, Hwrite. simpl. rewrite Hl, Hlib. simpl.
  eexists. split; [reflexivity|]. simpl.
  split; [reflexivity|].
  split; [intros Hne; apply lookup_insert_ne; exact Hne|].
  rewrite He. reflexivity.
Qed.

(** X23: when [main] returns normally for a template that is there, the
    template is a container, the patch path returned [True], nothing was
    printed on standard error, and the output path holds a container,
    unless the thumbnail was written to that very path. *)
Theorem main_patches_template (args : Args) (p p' : Process)
    (template_path : string) (f : file) :
  main _SCRIPT_DIR args p = (Returns tt, p') ->
  given (template args) = Some template_path ->
  fs p !! template_path = Some f ->
  given (thumbnail args) <> Some (output args) ->
  exists g g',
    f = GLBFile g /\
    fs p' !! output args = Some (GLBFile g') /\
    err p' = err p.
Proof.
  intros Hrun Htemplate Hfile Hthumb. revert Hrun.
  unfold main. unfold and_then at 1.
  pose proof (get_face_landmarks_run (input args) p) as Hdet.
  destruct (get_face_landmarks _SCRIPT_DIR (input args) p)
    as [[[points|]|r] p1]; [|discriminate|discriminate].
  destruct Hdet as (Hw & image & landmarks & others & _ & _ & _ & He).
  unfold and_then at 1.
  destruct (extract_face_texture_quiet (input args) points
              (texture_size args)) as [_ Hpure].
  specialize (Hpure p1).
  destruct (extract_face_texture (input args) points (texture_size args) p1)
    as [[[warped_face face_mask]|r] p1'];
    simpl in Hpure; subst p1'; [|discriminate].
  unfold and_then at 1. unfold and_then at 1.
  rewrite usable_template_run, Htemplate.
  rewrite (at_most_model_written_grows p p1 template_path f Hw Hfile).
  unfold and_then at 1. unfold in_world.
  destruct (replace_texture_in_glb template_path warped_face face_mask
              (output args) (world_of p1)) as [r w'] eqn:Hrep.
  destruct r as [[|]|e]; simpl; [|discriminate|discriminate].
  apply replace_texture_success_inv in Hrep
    as (g & idx & original & blended & png & g' & _ & Hload & _ & _ & _ & _
        & _ & _ & ->).
  simpl in Hload.
  rewrite (at_most_model_written_grows p p1 template_path f Hw Hfile) in Hload.
  injection Hload as ->.
  unfold returns at 1. simpl.
  destruct (given (thumbnail args)) as [path|] eqn:Hgiven.
  - match goal with
    | |- create_thumbnail ?a ?b ?c ?d ?q = _ -> _ =>
        pose proof (create_thumbnail_run a c b d q) as Ht;
        destruct (create_thumbnail a b c d q) as [[[]|r] p2]
    end; [|discriminate].
    destruct Ht as [thumb ->]. intros [= <-]. simpl.
    exists g, g'. split; [reflexivity|].
    split; [|rewrite app_nil_r; exact He].
    rewrite lookup_insert_ne by congruence. apply lookup_insert_eq.
  - intros [= <-]. simpl. exists g, g'. split; [reflexivity|].
    split; [apply lookup_insert_eq|rewrite app_nil_r; exact He].
Qed.

Lemma and_then_ext {A B} (m : Run A) (k1 k2 : A -> Run B) (p : Process) :
  (forall a p1, m p = (Returns a, p1) -> k1 a p1 = k2 a p1) ->
  and_then m k1 p = and_then m k2 p.
Proof.
  intros Hk. unfold and_then.
  destruct (m p) as [[a|r] p1]; [apply Hk|]; reflexivity.
Qed.

Lemma and_then_cong_l {A B} (m1 m2 : Run A) (k : A -> Run B) (p : Process) :
  m1 p = m2 p -> and_then m1 k p = and_then m2 k p.
Proof. intros Hm. unfold and_then. rewrite Hm. reflexivity. Qed.

(** X24: a template path at which there is no file is passed over in
    silence: [main] runs as if no template had been given.  (The path of
    the model file is left aside, since detection may create that file.) *)
Theorem main_missing_template (p : Process)
    (input output template_path : string) (thumbnail : option string)
    (texture_size : Z) :
  fs p !! template_path = None ->
  template_path <> MODEL ->
  main _SCRIPT_DIR
    (mkArgs input output (Some template_path) thumbnail texture_size) p
  = main _SCRIPT_DIR (mkArgs input output None thumbnail texture_size) p.
Proof.
  intros Hfile Hne. unfold main. simpl.
  apply and_then_ext. intros [points|] p1 Hdet; [|reflexivity].
  pose proof (get_face_landmarks_run input p) as Hspec.
  rewrite Hdet in Hspec. destruct Hspec as (Hw & _).
  apply and_then_ext. intros [warped_face face_mask] p1' Hext.
  destruct (extract_face_texture_quiet input points texture_size)
    as [_ Hpure].
  specialize (Hpure p1). rewrite Hext in Hpure. simpl in Hpure. subst p1'.
  apply and_then_cong_l.
  rewrite !usable_template_run. simpl.
  destruct template_path as [|c rest]; [reflexivity|].
  rewrite (at_most_model_written_lookup p p1 _ Hw Hne), Hfile.
  reflexivity.
Qed.

(** X26: the thumbnail is written after the avatar, so a thumbnail path
    equal to the output path costs the avatar: when [main] returns
    normally, that path holds the PNG of the thumbnail and no container. *)
Theorem main_thumbnail_over_output (args : Args) (p p' : Process) :
  main _SCRIPT_DIR args p = (Returns tt, p') ->
  given (thumbnail args) = Some (output args) ->
  exists png, fs p' !! output args = Some (RawFile png).
Proof.
  intros Hrun Hthumb. revert Hrun.
  unfold main. unfold and_then at 1.
  destruct (get_face_landmarks _SCRIPT_DIR (input args) p)
    as [[[points|]|r] p1]; [|discriminate|discriminate].
  unfold and_then at 1.
  destruct (extract_face_texture (input args) points (texture_size args) p1)
    as [[[warped_face face_mask]|r] p2]; [|discriminate].
  unfold and_then at 1. rewrite usable_template_run, Hthumb.
  assert (Hlast : forall (m : Run unit),
            and_then m (fun _ => create_thumbnail (input args) points
                                   (output args) 128) p2 = (Returns tt, p') ->
            exists png, fs p' !! output args = Some (RawFile png)).
  2:{ destruct (match given (template args) with
                | Some path => match fs p2 !! path with
                               | Some _ => Some path
                               | None => None
                               end
                | None => None
                end); apply Hlast. }
  intros m. unfold and_then.
  destruct (m p2) as [[[]|r] p3]; [|discriminate].
  pose proof (create_thumbnail_run (input args) (output args) points 128 p3)
    as Ht.
  destruct (create_thumbnail (input args) points (output args) 128 p3)
    as [[[]|r] p4]; [|discriminate].
  destruct Ht as [png ->]. intros [= <-]. exists png. simpl.
  apply lookup_insert_eq.
Qed.

(** X21: [main] exits the process in three ways.  The argument parser
    exits with status 0 when asked for help and with status 2, after a
    usage error on standard error, when the command line is wrong: both
    before anything is read, requested or written.  After that the only
    exit is with status 1, from two places: when [get_face_landmarks]
    found nothing, and when the patch path returned [False]; the last line
    on standard error then says why, and no file has been written but, at
    most, the model file: neither the output nor a thumbnail. *)
Theorem main_from_argv_exit_status (argv : list string) (p p' : Process)
    (code : Z) :
  main_from_argv _SCRIPT_DIR argv p = (Raises (SystemExit code), p') ->
  (parse_args argv = Help /\ code = 0 /\ p' = p)
  \/
  (exists text,
     parse_args argv = Usage_error text /\ code = 2 /\
     fs p' = fs p /\ requests p' = requests p /\
     err p' = err p ++ [Usage text])
  \/
  (exists args,
     parse_args argv = Parsed args /\ code = 1 /\
     at_most_model_written MODEL p p' /\
     exists lines last,
       err p' = err p ++ lines ++ [last] /\ fatal_line last).
Proof.
  unfold main_from_argv.
  destruct (parse_args argv) as [args| |text] eqn:Hparse.
  - intros Hrun. right. right. exists args. split; [reflexivity|].
    exact (main_exit_inv args p p' code Hrun).
  - unfold sys_exit, raises. intros [= <- <-]. left. auto.
  - run_unfold. intros [= <- <-]. right. left. exists text. simpl. auto.
Qed.
End ScriptProperties.

(** ** The further properties on the sample template *)

Lemma sample_view_in_blob : view_in_blob sample_view sample_blob.
Proof. unfold view_in_blob; simpl; vm_compute; split; discriminate. Qed.

Lemma binary_path_avatar : binary_path "avatar.glb".
Proof.
  exists "avata"%string, "r"%char. split; [reflexivity|discriminate].
Qed.

Lemma patch_then_extract_sample :
  image_view sample_gltf 0 0 sample_view /\
  GLTF2.binary_blob sample_gltf = Some sample_blob /\
  exists g',
    patch_binary_blob 0 [xaa; xbb; xcc] sample_gltf = (Ok tt, g') /\
    fst (@_find_skin_image_index toy_externals g')
      = fst (@_find_skin_image_index toy_externals sample_gltf) /\
    @_extract_glb_image toy_externals 0 g'
      = (@decoded toy_externals [xaa; xbb; xcc], g').
Proof.
  split; [exact sample_image_view|]. split; [reflexivity|].
  apply (@patch_then_extract toy_externals sample_gltf 0 0 sample_view
           sample_blob [xaa; xbb; xcc]).
  - exact sample_image_view.
  - reflexivity.
  - intros _. exact sample_view_in_blob.
Defined.

Lemma patch_relocate_keeps_other_bytes_sample :
  image_view sample_gltf 0 0 sample_view /\
  GLTF2.binary_blob sample_gltf = Some sample_blob /\
  BufferView.byteLength sample_view
    < len [xa1; xa2; xa3; xa4; xa5; xa6; xa7] /\
  exists g' blob',
    patch_binary_blob 0 [xa1; xa2; xa3; xa4; xa5; xa6; xa7] sample_gltf
      = (Ok tt, g') /\
    GLTF2.binary_blob g' = Some blob' /\
    take (length sample_blob) blob' = sample_blob /\
    (forall k : nat,
        py_norm_index (GLTF2.bufferViews sample_gltf) 0 <> Some k ->
        GLTF2.bufferViews g' !! k = GLTF2.bufferViews sample_gltf !! k) /\
    (forall v, view_fits v sample_blob ->
               view_bytes blob' v = view_bytes sample_blob v).
Proof.
  split; [exact sample_image_view|]. split; [reflexivity|].
  split; [vm_compute; reflexivity|].
  apply (patch_relocate_keeps_other_bytes sample_gltf 0 0 sample_view
           sample_blob [xa1; xa2; xa3; xa4; xa5; xa6; xa7]).
  - exact sample_image_view.
  - reflexivity.
  - vm_compute. reflexivity.
Defined.

Lemma replace_texture_round_trip_sample :
  let run := @replace_texture_in_glb toy_externals "template.glb" sample_photo
               [[xff; xff]] "avatar.glb" (world_with sample_gltf) in
  files (world_with sample_gltf) !! "template.glb"%string
    = Some (GLBFile sample_gltf) /\
  views_in_blob_ok sample_gltf = true /\
  binary_path "avatar.glb" /\
  run = (Ok true, snd run) /\
  exists g' idx original blended png,
    GLTF2_load "avatar.glb" (snd run) = (Ok g', snd run) /\
    fst (@_find_skin_image_index toy_externals sample_gltf) = Ok (Some idx) /\
    fst (@_extract_glb_image toy_externals idx sample_gltf)
      = Ok (Some original) /\
    blend (fst (@blend_inputs toy_externals sample_photo [[xff; xff]] original))
          (snd (@blend_inputs toy_externals sample_photo [[xff; xff]] original))
          original
      = Ok blended /\
    @png_encode toy_externals blended = Ok png /\
    fst (@_find_skin_image_index toy_externals g') = Ok (Some idx) /\
    @_extract_glb_image toy_externals idx g'
      = (@decoded toy_externals png, g') /\
    (forall p, p <> "avatar.glb"%string ->
               files (snd run) !! p = files (world_with sample_gltf) !! p).
Proof.
  intros run.
  assert (Hfile : files (world_with sample_gltf) !! "template.glb"%string
                  = Some (GLBFile sample_gltf)) by (vm_compute; reflexivity).
  assert (Hviews : views_in_blob_ok sample_gltf = true) by reflexivity.
  assert (Hrun : run = (Ok true, snd run)) by (vm_compute; reflexivity).
  split; [exact Hfile|]. split; [exact Hviews|].
  split; [exact binary_path_avatar|]. split; [exact Hrun|].
  exact (@replace_texture_round_trip toy_externals (world_with sample_gltf)
           (snd run) "template.glb" "avatar.glb" sample_photo [[xff; xff]]
           sample_gltf Hfile Hviews binary_path_avatar Hrun).
Defined.

Lemma replace_texture_false_reasons_sample :
  let w := world_with plain_gltf in
  let run := @replace_texture_in_glb toy_externals "template.glb" sample_photo
               [[xff; xff]] "avatar.glb" w in
  run = (Ok false, snd run) /\
  files (snd run) = files w /\
  ((pygltflib_installed w = false /\
    stderr (snd run) = stderr w ++ [Error_pygltflib_not_installed])
   \/
   (exists g,
      pygltflib_installed w = true /\
      files w !! "template.glb"%string = Some (GLBFile g) /\
      ((fst (@_find_skin_image_index toy_externals g) = Ok None /\
        stderr (snd run) = stderr w ++ [Error_no_suitable_face_skin_texture])
       \/
       (exists idx image,
          fst (@_find_skin_image_index toy_externals g) = Ok (Some idx) /\
          py_getitem (GLTF2.images g) idx = Ok image /\
          Image.bufferView image = None /\
          stderr (snd run) = stderr w ++ [Error_could_not_extract_original])))).
Proof.
  intros w run.
  assert (Hrun : run = (Ok false, snd run)) by (vm_compute; reflexivity).
  split; [exact Hrun|].
  exact (@replace_texture_false_reasons toy_externals w (snd run)
           "template.glb" "avatar.glb" sample_photo [[xff; xff]] Hrun).
Defined.

Lemma blend_keeps_shape_sample :
  let original := [[[x01; x02; x03]; [x04; x05; x06]]] in
  rgb sample_photo /\ rgb original /\
  same_dims sample_photo original /\
  same_dims [[x40; xc0]] sample_photo /\
  exists blended,
    blend sample_photo [[x40; xc0]] original = Ok blended /\
    skeleton blended = skeleton original /\
    rgb blended /\ same_dims blended original.
Proof.
  intros original.
  assert (Hw : rgb sample_photo) by (repeat constructor).
  assert (Ho : rgb original) by (repeat constructor).
  assert (Hd : same_dims sample_photo original) by (repeat constructor).
  assert (Hm : same_dims [[x40; xc0]] sample_photo) by (repeat constructor).
  repeat (split; [assumption|]).
  exact (blend_keeps_shape sample_photo original [[x40; xc0]] Hw Ho Hd Hm).
Defined.

Lemma blend_rows_mismatch_sample :
  let warped := sample_photo ++ sample_photo in
  let mask := [[xff; xff]; [xff; xff]; [xff; xff]] in
  length warped <> length mask /\
  length warped <> 1%nat /\
  length mask <> 1%nat /\
  blend warped mask sample_photo = Raised ValueError.
Proof.
  intros warped mask.
  assert (H1 : length warped <> length mask) by (simpl; lia).
  assert (H2 : length warped <> 1%nat) by (simpl; lia).
  assert (H3 : length mask <> 1%nat) by (simpl; lia).
  repeat (split; [assumption|]).
  exact (blend_rows_mismatch warped sample_photo mask H1 H2 H3).
Defined.

Lemma generate_standalone_read_back_sample :
  let run := @generate_standalone_avatar toy_externals "photo.jpg" sample_photo
               "avatar.glb" (world_with plain_gltf) in
  binary_path "avatar.glb" /\
  run = (Ok true, snd run) /\
  exists g png,
    GLTF2_load "avatar.glb" (snd run) = (Ok g, snd run) /\
    @png_encode toy_externals sample_photo = Ok png /\
    @_extract_glb_image toy_externals 0 g = (@decoded toy_externals png, g).
Proof.
  intros run.
  assert (Hrun : run = (Ok true, snd run)) by (vm_compute; reflexivity).
  split; [exact binary_path_avatar|]. split; [exact Hrun|].
  exact (@generate_standalone_read_back toy_externals (world_with plain_gltf)
           (snd run) "photo.jpg" "avatar.glb" sample_photo
           binary_path_avatar Hrun).
Defined.

Lemma standalone_is_no_template_sample :
  let run := @generate_standalone_avatar toy_externals "photo.jpg" sample_photo
               "avatar.glb" (world_with plain_gltf) in
  @str_lower toy_externals EmptyString = EmptyString /\
  run = (Ok true, snd run) /\
  exists w2,
    @replace_texture_in_glb toy_externals "avatar.glb" sample_photo
      [[xff; xff]] "patched.glb" (snd run) = (Ok false, w2) /\
    stderr w2 = stderr (snd run) ++ [Error_no_suitable_face_skin_texture] /\
    files w2 = files (snd run).
Proof.
  intros run.
  assert (Hlower : @str_lower toy_externals EmptyString = EmptyString)
    by reflexivity.
  assert (Hrun : run = (Ok true, snd run)) by (vm_compute; reflexivity).
  split; [exact Hlower|]. split; [exact Hrun|].
  exact (@standalone_is_no_template toy_externals (world_with plain_gltf)
           (snd run) "photo.jpg" "avatar.glb" "patched.glb" sample_photo
           sample_photo [[xff; xff]] Hlower Hrun).
Defined.

Lemma generate_standalone_sibling_files_sample :
  let w := world_with plain_gltf in
  let run := @generate_standalone_avatar toy_externals "photo.jpg" sample_photo
               (String.append "out/avatar" ".glb") w in
  binary_path (String.append "out/avatar" ".glb") /\
  contains ".glb" "out/avatar" = false /\
  run = (Ok true, snd run) /\
  exists png g,
    @png_encode toy_externals sample_photo = Ok png /\
    files (snd run) !! String.append "out/avatar" ".png" = Some (RawFile png) /\
    files (snd run) !! String.append "out/avatar" ".glb" = Some (GLBFile g) /\
    (forall p, p <> String.append "out/avatar" ".png" ->
               p <> String.append "out/avatar" ".glb" ->
               files (snd run) !! p = files w !! p).
Proof.
  intros w run.
  assert (Hpath : binary_path (String.append "out/avatar" ".glb"))
    by (exists "out/avata"%string, "r"%char;
        split; [reflexivity|discriminate]).
  assert (Hstem : contains ".glb" "out/avatar" = false) by reflexivity.
  assert (Hrun : run = (Ok true, snd run)) by (vm_compute; reflexivity).
  split; [exact Hpath|]. split; [exact Hstem|]. split; [exact Hrun|].
  exact (@generate_standalone_sibling_files toy_externals w (snd run)
           "photo.jpg" "out/avatar" sample_photo Hpath Hstem Hrun).
Defined.

Lemma generate_standalone_overwrites_texture_sample :
  let w := world_with plain_gltf in
  let run := @generate_standalone_avatar toy_externals "photo.jpg" sample_photo
               "avatar.GLB" w in
  contains ".glb" "avatar.GLB" = false /\
  run = (Ok true, snd run) /\
  str_replace ".glb" ".png" "avatar.GLB" = "avatar.GLB"%string /\
  exists g, files (snd run) !! "avatar.GLB"%string = Some (GLBFile g).
Proof.
  intros w run.
  assert (Habsent : contains ".glb" "avatar.GLB" = false) by reflexivity.
  assert (Hrun : run = (Ok true, snd run)) by (vm_compute; reflexivity).
  split; [exact Habsent|]. split; [exact Hrun|].
  exact (@generate_standalone_overwrites_texture toy_externals w (snd run)
           "photo.jpg" "avatar.GLB" sample_photo Habsent Hrun).
Defined.


(** ** The properties of the command line on the sample process *)

(** Four anchors on one line, and the texture is produced all the same:
    nothing in [extract_face_texture] looks at the geometry of its
    anchors. *)
Lemma extract_face_texture_collinear_anchors :
  exists src v,
    src_points diagonal_landmarks = Ok src /\
    degenerate src = true /\
    fst (@extract_face_texture toy_vision "photo.jpg" diagonal_landmarks 1024
           (sample_process None true)) = Returns v.
Proof. eexists _, _. repeat split; vm_compute; reflexivity. Qed.

Lemma extract_face_texture_any_anchors_sample :
  let p := sample_process None true in
  let image := [[[x0a; x14; x1e]; [x28; x32; x3c]]] in
  let warped := [[[x1e; x14; x0a]; [x3c; x32; x28]]] in
  exists src oval,
    fst (@cv2_imread toy_vision "photo.jpg" p) = Returns (Some image) /\
    src_points diagonal_landmarks = Ok src /\
    degenerate src = true /\
    face_oval_points diagonal_landmarks = Ok oval /\
    @extract_face_texture toy_vision "photo.jpg" diagonal_landmarks 1024 p
      = (Returns (warped, [[xff; xff]]), p).
Proof.
  intros p image warped.
  set (src := match src_points diagonal_landmarks with
              | Ok l => l
              | Raised _ => []
              end).
  set (oval := match face_oval_points diagonal_landmarks with
               | Ok l => l
               | Raised _ => []
               end).
  assert (Hread : fst (@cv2_imread toy_vision "photo.jpg" p)
                  = Returns (Some image)) by (vm_compute; reflexivity).
  assert (Hsrc : src_points diagonal_landmarks = Ok src)
    by (vm_compute; reflexivity).
  assert (Hoval : face_oval_points diagonal_landmarks = Ok oval)
    by (vm_compute; reflexivity).
  exists src, oval.
  split; [exact Hread|]. split; [exact Hsrc|].
  split; [vm_compute; reflexivity|]. split; [exact Hoval|].
  exact (@extract_face_texture_any_anchors toy_vision "photo.jpg"
           diagonal_landmarks 1024 p image warped src oval oval tt
           [[xff; xff]] Hread Hsrc eq_refl eq_refl Hoval eq_refl eq_refl).
Defined.

Lemma get_face_landmarks_None_sample :
  let p := sample_process None true in
  let run := @get_face_landmarks toy_vision "scripts" "missing.jpg" p in
  run = (Returns None, snd run) /\
  at_most_model_written (_MODEL_PATH "scripts") p (snd run) /\
  ((fst (@cv2_imread toy_vision "missing.jpg" p) = Returns None /\
    fs (snd run) = fs p /\ requests (snd run) = requests p /\
    err (snd run) = err p ++ [Error_could_not_read_image "missing.jpg"])
   \/
   (exists image,
      fst (@cv2_imread toy_vision "missing.jpg" p) = Returns (Some image) /\
      @face_landmarker_detect toy_vision
        (fs (snd run) !! _MODEL_PATH "scripts")
        (map (map (@rev byte)) image) = Gives [] /\
      err (snd run) = err p ++ [Error_no_face_detected])).
Proof.
  intros p run.
  assert (Hrun : run = (Returns None, snd run)) by (vm_compute; reflexivity).
  split; [exact Hrun|].
  exact (@get_face_landmarks_None toy_vision "scripts" "missing.jpg" p
           (snd run) Hrun).
Defined.

Lemma get_face_landmarks_rows_sample :
  let p := sample_process None true in
  let run := @get_face_landmarks toy_vision "scripts" "photo.jpg" p in
  exists points,
    run = (Returns (Some points), snd run) /\
    exists image landmarks others,
      fst (@cv2_imread toy_vision "photo.jpg" p) = Returns (Some image) /\
      @face_landmarker_detect toy_vision
        (fs (snd run) !! _MODEL_PATH "scripts")
        (map (map (@rev byte)) image) = Gives (landmarks :: others) /\
      length points = Nat.min (length landmarks) 468 /\
      (length points <= 468)%nat /\
      err (snd run) = err p.
Proof.
  intros p run.
  set (points := match fst run with Returns (Some pts) => pts | _ => [] end).
  assert (Hrun : run = (Returns (Some points), snd run))
    by (vm_compute; reflexivity).
  exists points. split; [exact Hrun|].
  exact (@get_face_landmarks_rows toy_vision "scripts" "photo.jpg" p
           (snd run) points Hrun).
Defined.


Lemma main_from_argv_exit_status_sample :
  let p := sample_process (Some plain_gltf) true in
  let argv := ["--input"; "photo.jpg"; "--output"; "avatar.glb";
               "--template"; "template.glb"; "--thumbnail"; "thumb.png"
              ]%string in
  let run := @main_from_argv toy_externals toy_vision toy_argparse "scripts"
               argv p in
  run = (Raises (SystemExit 1), snd run) /\
  ((@parse_args toy_argparse argv = Help /\ 1 = 0 /\ snd run = p)
   \/
   (exists text,
      @parse_args toy_argparse argv = Usage_error text /\ 1 = 2 /\
      fs (snd run) = fs p /\ requests (snd run) = requests p /\
      err (snd run) = err p ++ [Usage text])
   \/
   (exists args,
      @parse_args toy_argparse argv = Parsed args /\ 1 = 1 /\
      at_most_model_written (_MODEL_PATH "scripts") p (snd run) /\
      exists lines last,
        err (snd run) = err p ++ lines ++ [last] /\ fatal_line last)).
Proof.
  intros p argv run.
  assert (Hrun : run = (Raises (SystemExit 1), snd run))
    by (vm_compute; reflexivity).
  split; [exact Hrun|].
  exact (@main_from_argv_exit_status toy_externals toy_vision toy_argparse
           "scripts" argv p (snd run) 1 Hrun).
Defined.

Lemma main_completes_without_container_sample :
  let p := sample_process None false in
  let args := sample_args None None in
  let detection := @get_face_landmarks toy_vision "scripts" "photo.jpg" p in
  let warped_face := [[[x1e; x14; x0a]; [x3c; x32; x28]]] in
  let png := [x1e; x14; x0a; x3c; x32; x28] in
  pygltflib p = false /\
  may_write p "avatar.png" = true /\
  exists p2,
    @main toy_externals toy_vision "scripts" args p = (Returns tt, p2) /\
    fs p2 = <[ "avatar.png"%string := RawFile png ]> (fs (snd detection)) /\
    ("avatar.png"%string <> output args ->
     fs p2 !! output args = fs (snd detection) !! output args) /\
    err p2 = err p ++ [Line (Warning_no_template "avatar.png");
                       Line Warning_provide_template;
                       Line (Warning_could_not_create_standalone ImportError)].
Proof.
  intros p args detection warped_face png.
  set (points := match fst detection with
                 | Returns (Some pts) => pts
                 | _ => []
                 end).
  assert (Hdet : detection = (Returns (Some points), snd detection))
    by (vm_compute; reflexivity).
  assert (Hext : fst (@extract_face_texture toy_vision (input args) points
                        (texture_size args) (snd detection))
                 = Returns (warped_face, [[xff; xff]]))
    by (vm_compute; reflexivity).
  split; [reflexivity|]. split; [reflexivity|].
  exact (@main_completes_without_container toy_externals toy_vision "scripts"
           args p (snd detection) points warped_face [[xff; xff]] png
           eq_refl eq_refl eq_refl eq_refl Hdet Hext eq_refl).
Defined.

Lemma main_patches_template_sample :
  let p := sample_process (Some sample_gltf) true in
  let args := sample_args (Some "template.glb"%string)
                (Some "thumb.png"%string) in
  let run := @main toy_externals toy_vision "scripts" args p in
  run = (Returns tt, snd run) /\
  fs p !! "template.glb"%string = Some (GLBFile sample_gltf) /\
  exists g g',
    GLBFile sample_gltf = GLBFile g /\
    fs (snd run) !! output args = Some (GLBFile g') /\
    err (snd run) = err p.
Proof.
  intros p args run.
  assert (Hrun : run = (Returns tt, snd run)) by (vm_compute; reflexivity).
  assert (Hfile : fs p !! "template.glb"%string = Some (GLBFile sample_gltf))
    by (vm_compute; reflexivity).
  assert (Hthumb : given (thumbnail args) <> Some (output args))
    by (vm_compute; discriminate).
  split; [exact Hrun|]. split; [exact Hfile|].
  exact (@main_patches_template toy_externals toy_vision "scripts" args p
           (snd run) "template.glb" (GLBFile sample_gltf) Hrun eq_refl
           Hfile Hthumb).
Defined.

Lemma main_missing_template_sample :
  let p := sample_process None true in
  fs p !! "nowhere.glb"%string = None /\
  "nowhere.glb"%string <> _MODEL_PATH "scripts" /\
  @main toy_externals toy_vision "scripts"
    (mkArgs "photo.jpg" "avatar.glb" (Some "nowhere.glb"%string) None 1024) p
  = @main toy_externals toy_vision "scripts"
      (mkArgs "photo.jpg" "avatar.glb" None None 1024) p.
Proof.
  intros p.
  assert (Hfile : fs p !! "nowhere.glb"%string = None)
    by (vm_compute; reflexivity).
  assert (Hne : "nowhere.glb"%string <> _MODEL_PATH "scripts")
    by (vm_compute; discriminate).
  split; [exact Hfile|]. split; [exact Hne|].
  exact (@main_missing_template toy_externals toy_vision "scripts" p
           "photo.jpg" "avatar.glb" "nowhere.glb" None 1024 Hfile Hne).
Defined.

Lemma main_thumbnail_over_output_sample :
  let p := sample_process (Some sample_gltf) true in
  let args := sample_args (Some "template.glb"%string)
                (Some "avatar.glb"%string) in
  let run := @main toy_externals toy_vision "scripts" args p in
  run = (Returns tt, snd run) /\
  given (thumbnail args) = Some (output args) /\
  exists png, fs (snd run) !! output args = Some (RawFile png).
Proof.
  intros p args run.
  assert (Hrun : run = (Returns tt, snd run)) by (vm_compute; reflexivity).
  split; [exact Hrun|]. split; [reflexivity|].
  exact (@main_thumbnail_over_output toy_externals toy_vision "scripts" args p
           (snd run) Hrun eq_refl).
Defined.

(** A command line without [--output]: the parser prints its usage error
    and exits with status 2 before the photo is looked at. *)
Example main_from_argv_usage_error :
  let p := sample_process None true in
  @main_from_argv toy_externals toy_vision toy_argparse "scripts"
    ["--input"; "photo.jpg"]%string p
  = (Raises (SystemExit 2),
     mkProcess (fs p) [Usage "the following arguments are required"]
       (pygltflib p) (may_write p) (network p) (requests p)).
Proof. vm_compute. reflexivity. Qed.
